(** * User management system: account store, validators, access policy, views

    A shallow embedding of the Django REST service under [backend/users]
    (models.py, permissions.py, exceptions.py, serializers.py, views.py),
    followed by the properties of the specification that were checked
    against it.

    Layout: Python-level values; the external collaborators (hashing,
    tokens, Unicode tables, settings) as one interface; then one module per
    source class, named as in the source; then the theorems. *)

From Stdlib Require Import ZArith NArith List String Ascii Bool Lia DecimalString.
Import ListNotations.
Set Warnings "-register-all".
Local Open Scope Z_scope.

(** ** Python values *)

(** A Python [str] is a sequence of Unicode code points; [len] counts them. *)
Definition char := N.
Definition str := list char.

(** An ASCII literal of the source as a [str]. *)
Definition lit (s : string) : str := map N_of_ascii (list_ascii_of_string s).

Fixpoint str_eqb (a b : str) : bool :=
  match a, b with
  | [], [] => true
  | x :: a', y :: b' => N.eqb x y && str_eqb a' b'
  | _, _ => false
  end.

Definition len (s : str) : Z := Z.of_nat (List.length s).

(** Truthiness of a string: [if s:] holds for the non-empty ones. *)
Definition truthy (s : str) : bool := negb (str_eqb s []).

Fixpoint startswith (s p : str) : bool :=
  match p, s with
  | [], _ => true
  | c :: p', d :: s' => N.eqb c d && startswith s' p'
  | _ :: _, [] => false
  end.

(** [needle in hay] on strings. *)
Fixpoint contains (hay needle : str) : bool :=
  startswith hay needle ||
  match hay with
  | [] => false
  | _ :: hay' => contains hay' needle
  end.

(** [s.rsplit(sep, 1)]: the text before and after the last [sep], when there
    is one. *)
Fixpoint rsplit1 (sep : char) (s : str) : option (str * str) :=
  match s with
  | [] => None
  | c :: s' =>
      match rsplit1 sep s' with
      | Some (a, b) => Some (c :: a, b)
      | None => if N.eqb c sep then Some ([], s') else None
      end
  end.

(** Results of fallible code: a value, or a raised exception. *)
Inductive result (E A : Type) : Type :=
| Ok (a : A)
| Raise (e : E).
Arguments Ok {E A} a.
Arguments Raise {E A} e.

(** ** Response bodies: the JSON documents the views build from dicts *)

Inductive Json : Type :=
| JNull
| JBool (b : bool)
| JNum (z : Z)
| JStr (s : str)
| JList (l : list Json)
| JObj (kv : list (string * Json)).

Definition msgs (l : list str) : Json := JList (map JStr l).

(** [d.get(key)] on a dict (None when the key is missing). *)
Fixpoint dict_get (key : string) (kv : list (string * Json)) : option Json :=
  match kv with
  | [] => None
  | (k, v) :: kv' => if String.eqb k key then Some v else dict_get key kv'
  end.

Definition keys (kv : list (string * Json)) : list string := map fst kv.

Record Response := { status_code : Z; data : Json }.

Definition HTTP_200_OK := 200.
Definition HTTP_201_CREATED := 201.
Definition HTTP_400_BAD_REQUEST := 400.
Definition HTTP_401_UNAUTHORIZED := 401.
Definition HTTP_403_FORBIDDEN := 403.
Definition HTTP_404_NOT_FOUND := 404.

(** ** Exceptions

    The first six are REST-framework API exceptions: the ones the service
    and the framework raise by name, and [APIException] for every other one
    (MethodNotAllowed, ParseError, Throttled, ...), with the status and the
    detail it carries.  A detail is a string, a list or a dict; the detail
    of a failed authentication is a dict when the token library raises it.
    [Http404] and [DjangoPermissionDenied] are the two Django exceptions the
    framework converts.  The rest are ordinary Python or database
    exceptions, which the framework does not know. *)
Inductive Exc : Type :=
| ValidationError (detail : Json)
| AuthenticationFailed (detail : Json)
| NotAuthenticated
| PermissionDenied (detail : str)
| NotFound (detail : str)
| APIException (status : Z) (detail : Json)
| Http404
| DjangoPermissionDenied (message : str)
| IndexError
| NameError (name : string)
| AttributeError (name : string)
| ValueError (message : str)
| IntegrityError
| DatabaseError.

(** ** External collaborators

    What the service calls but does not define: Python's Unicode tables and
    its rendering of values, the validators the framework's fields bring
    along, the password hasher, the pluggable password policy
    ([django.contrib.auth.password_validation.validate_password], configured
    in settings), the JWT library and the page size of the settings. *)
Class Externals : Type := {
  (** [str.lower()] *)
  str_lower : str -> str;
  (** [str.strip()] *)
  str_strip : str -> str;
  (** [str(detail)] of an exception detail that is a list or a dict *)
  py_str : Json -> str;
  (** the messages of the character validators that every [CharField] of the
      framework carries (null characters and, in later versions, surrogate
      characters); none = accepted *)
  prohibited_characters : str -> list str;
  (** whether Django's [EmailValidator], which an [EmailField] carries,
      accepts the value *)
  email_validator : str -> bool;
  (** the class [\d] of [re] on a [str] pattern (Unicode decimal digits) *)
  re_digit : char -> bool;
  (** [make_password(raw)]: the stored hash of a raw password *)
  make_password : str -> str;
  (** [check_password(raw, encoded)] *)
  check_password : str -> str -> bool;
  (** the messages of the configured password validators; none = accepted *)
  password_validation : str -> list str;
  (** [RefreshToken.for_user(user)] and its [access_token], at a given time *)
  refresh_token : Z -> Z -> str;
  access_token : Z -> Z -> str;
  (** [PAGE_SIZE] of the pagination settings *)
  PAGE_SIZE : positive;
  (** whether the configured authenticator supplies a [WWW-Authenticate]
      header; the framework turns its own 401 into 403 when it does not *)
  authenticate_header : bool
}.

(** ** Requests as computations

    A request handler reads and writes the user table and may raise: a state
    monad over the table with exceptions.  A raised exception keeps the
    writes made before it. *)
Definition M (S A : Type) : Type := S -> result Exc A * S.

Definition ret {S A : Type} (a : A) : M S A := fun s => (Ok a, s).

Definition bind {S A B : Type} (m : M S A) (k : A -> M S B) : M S B :=
  fun s =>
    match m s with
    | (Ok a, s') => k a s'
    | (Raise e, s') => (Raise e, s')
    end.

Definition raise {S A : Type} (e : Exc) : M S A := fun s => (Raise e, s).
Definition get {S : Type} : M S S := fun s => (Ok s, s).
Definition put {S : Type} (s : S) : M S unit := fun _ => (Ok tt, s).

Notation "x <- c ;; k" := (bind c (fun x => k))
  (at level 61, c at next level, right associativity).
Notation "c ;;; k" := (bind c (fun _ => k))
  (at level 61, right associativity).

(** ** models.py *)

(** [ROLE_CHOICES] and [STATUS_CHOICES]. *)
Inductive Role : Type := ROLE_admin | ROLE_user.
Inductive Status : Type := STATUS_active | STATUS_inactive.

Definition Role_eqb (a b : Role) : bool :=
  match a, b with
  | ROLE_admin, ROLE_admin | ROLE_user, ROLE_user => true
  | _, _ => false
  end.

Definition Status_eqb (a b : Status) : bool :=
  match a, b with
  | STATUS_active, STATUS_active | STATUS_inactive, STATUS_inactive => true
  | _, _ => false
  end.

Definition Role_value (r : Role) : str :=
  match r with ROLE_admin => lit "admin" | ROLE_user => lit "user" end.

Definition Status_value (s : Status) : str :=
  match s with STATUS_active => lit "active" | STATUS_inactive => lit "inactive" end.

Module User.

(** A row of the user table, and equally a loaded model instance.
    [password] is the stored hash; [is_superuser] comes from
    [PermissionsMixin]. *)
Record t : Type := {
  id : Z;
  email : str;
  full_name : str;
  password : str;
  role : Role;
  status : Status;
  created_at : Z;
  updated_at : Z;
  last_login : option Z;
  is_staff : bool;
  is_active : bool;
  is_superuser : bool
}.

(** The table, in insertion order. *)
Definition Table : Type := list t.

Inductive Field : Type :=
| f_email | f_full_name | f_password | f_role | f_status | f_created_at
| f_updated_at | f_last_login | f_is_staff | f_is_active | f_is_superuser.

Definition Field_index (f : Field) : nat :=
  match f with
  | f_email => 0 | f_full_name => 1 | f_password => 2 | f_role => 3
  | f_status => 4 | f_created_at => 5 | f_updated_at => 6
  | f_last_login => 7 | f_is_staff => 8 | f_is_active => 9
  | f_is_superuser => 10
  end%nat.

Definition Field_eqb (f g : Field) : bool :=
  Nat.eqb (Field_index f) (Field_index g).

Definition listed (f : Field) (fields : list Field) : bool :=
  existsb (Field_eqb f) fields.

(** Every column but the primary key: what a plain [save()] writes. *)
Definition concrete_fields : list Field :=
  [f_email; f_full_name; f_password; f_role; f_status; f_created_at;
   f_updated_at; f_last_login; f_is_staff; f_is_active; f_is_superuser].

Definition with_id (v : Z) (u : t) : t :=
  Build_t v (email u) (full_name u) (password u) (role u) (status u)
    (created_at u) (updated_at u) (last_login u) (is_staff u) (is_active u)
    (is_superuser u).
Definition with_email (v : str) (u : t) : t :=
  Build_t (id u) v (full_name u) (password u) (role u) (status u)
    (created_at u) (updated_at u) (last_login u) (is_staff u) (is_active u)
    (is_superuser u).
Definition with_full_name (v : str) (u : t) : t :=
  Build_t (id u) (email u) v (password u) (role u) (status u)
    (created_at u) (updated_at u) (last_login u) (is_staff u) (is_active u)
    (is_superuser u).
Definition with_password (v : str) (u : t) : t :=
  Build_t (id u) (email u) (full_name u) v (role u) (status u)
    (created_at u) (updated_at u) (last_login u) (is_staff u) (is_active u)
    (is_superuser u).
Definition with_status (v : Status) (u : t) : t :=
  Build_t (id u) (email u) (full_name u) (password u) (role u) v
    (created_at u) (updated_at u) (last_login u) (is_staff u) (is_active u)
    (is_superuser u).
Definition with_created_at (v : Z) (u : t) : t :=
  Build_t (id u) (email u) (full_name u) (password u) (role u) (status u)
    v (updated_at u) (last_login u) (is_staff u) (is_active u)
    (is_superuser u).
Definition with_updated_at (v : Z) (u : t) : t :=
  Build_t (id u) (email u) (full_name u) (password u) (role u) (status u)
    (created_at u) v (last_login u) (is_staff u) (is_active u)
    (is_superuser u).
Definition with_last_login (v : option Z) (u : t) : t :=
  Build_t (id u) (email u) (full_name u) (password u) (role u) (status u)
    (created_at u) (updated_at u) v (is_staff u) (is_active u)
    (is_superuser u).

(** The row [dst] with column [f] taken from the instance [src]. *)
Definition copy_field (f : Field) (src dst : t) : t :=
  let pick (A : Type) (g : Field) (column : t -> A) : A :=
    if Field_eqb f g then column src else column dst in
  {| id := id dst;
     email := pick _ f_email email;
     full_name := pick _ f_full_name full_name;
     password := pick _ f_password password;
     role := pick _ f_role role;
     status := pick _ f_status status;
     created_at := pick _ f_created_at created_at;
     updated_at := pick _ f_updated_at updated_at;
     last_login := pick _ f_last_login last_login;
     is_staff := pick _ f_is_staff is_staff;
     is_active := pick _ f_is_active is_active;
     is_superuser := pick _ f_is_superuser is_superuser |}.

Definition copy_fields (fields : list Field) (src dst : t) : t :=
  fold_right (fun f row => copy_field f src row) dst fields.

(** [unique=True] on [email]: another row already holds this value. *)
Definition email_taken (self : t) (rows : Table) : bool :=
  existsb (fun r => negb (id r =? id self) && str_eqb (email r) (email self))
    rows.

(** [Model.save(update_fields=...)] on a loaded instance, at time [now].
    Only the listed columns are written, and [pre_save] runs only for
    them: [updated_at] (auto_now) becomes [now] exactly when it is among
    the written columns.  Without [update_fields] every column is
    written.  Returns the instance as it is after the call. *)
Definition save (now : Z) (update_fields : option (list Field)) (self : t)
  : M Table t :=
  let fields :=
    match update_fields with Some fs => fs | None => concrete_fields end in
  let self := if listed f_updated_at fields then with_updated_at now self
              else self in
  rows <- get ;;
  if listed f_email fields && email_taken self rows then raise IntegrityError
  else if existsb (fun r => id r =? id self) rows then
    put (map (fun row => if id row =? id self
                         then copy_fields fields self row else row) rows) ;;;
    ret self
  else
    match update_fields with
    | Some _ => raise DatabaseError
    | None => put (rows ++ [self]) ;;; ret self
    end.

(** The auto-increment primary key. *)
Definition next_id (rows : Table) : Z :=
  1 + fold_right (fun r m => Z.max (id r) m) 0 rows.

(** [save()] on an instance that has no primary key yet: an INSERT.
    [created_at] (auto_now_add) and [updated_at] (auto_now) are set. *)
Definition insert (now : Z) (self : t) : M Table t :=
  rows <- get ;;
  let self :=
    with_id (next_id rows) (with_created_at now (with_updated_at now self)) in
  if existsb (fun r => str_eqb (email r) (email self)) rows
  then raise IntegrityError
  else put (rows ++ [self]) ;;; ret self.

Definition is_admin (self : t) : bool := Role_eqb (role self) ROLE_admin.

Definition activate (now : Z) (self : t) : M Table t :=
  let self := with_status STATUS_active self in
  save now (Some [f_status; f_updated_at]) self.

Definition deactivate (now : Z) (self : t) : M Table t :=
  let self := with_status STATUS_inactive self in
  save now (Some [f_status; f_updated_at]) self.

Definition update_last_login (now : Z) (self : t) : M Table t :=
  let self := with_last_login (Some now) self in
  save now (Some [f_last_login]) self.

Definition set_password `{Externals} (raw_password : str) (self : t) : t :=
  with_password (make_password raw_password) self.

Definition check_password `{Externals} (raw_password : str) (self : t)
  : bool :=
  check_password raw_password (password self).

End User.

(** [User.objects.filter(email=value)]: an exact match on the column. *)
Definition filter_email (value : str) (rows : User.Table) : User.Table :=
  filter (fun r => str_eqb (User.email r) value) rows.

Definition exclude_id (i : Z) (rows : User.Table) : User.Table :=
  filter (fun r => negb (User.id r =? i)) rows.

(** [queryset.exists()] *)
Definition exists_ (rows : User.Table) : bool :=
  match rows with [] => false | _ :: _ => true end.

Module UserManager.

(** The keyword arguments a caller may pass on. *)
Record extra_fields : Type := {
  full_name : option str;
  role : option Role;
  status : option Status;
  is_staff : option bool;
  is_superuser : option bool
}.

Definition setdefault {A : Type} (given : option A) (default : A) : A :=
  match given with Some v => v | None => default end.

(** [BaseUserManager.normalize_email]: lower-cases the domain part only. *)
Definition normalize_email `{Externals} (email : str) : str :=
  match rsplit1 64%N (str_strip email) with
  | Some (email_name, domain_part) =>
      email_name ++ [64%N] ++ str_lower domain_part
  | None => email
  end.

Definition create_user `{Externals} (now : Z) (email password : str)
    (extra : extra_fields) : M User.Table User.t :=
  if negb (truthy email) then
    raise (ValueError (lit "The Email field must be set"))
  else
    let email := normalize_email email in
    let user :=
      {| User.id := 0;
         User.email := email;
         User.full_name := setdefault (full_name extra) [];
         User.password := [];
         User.role := setdefault (role extra) ROLE_user;
         User.status := setdefault (status extra) STATUS_active;
         User.created_at := 0;
         User.updated_at := 0;
         User.last_login := None;
         User.is_staff := setdefault (is_staff extra) false;
         User.is_active := true;
         User.is_superuser := setdefault (is_superuser extra) false |} in
    let user := User.set_password password user in
    User.insert now user.

Definition create_superuser `{Externals} (now : Z) (email password : str)
    (extra : extra_fields) : M User.Table User.t :=
  let extra :=
    {| full_name := full_name extra;
       role := Some (setdefault (role extra) ROLE_admin);
       status := Some (setdefault (status extra) STATUS_active);
       is_staff := Some (setdefault (is_staff extra) true);
       is_superuser := Some (setdefault (is_superuser extra) true) |} in
  if negb (setdefault (is_staff extra) false) then
    raise (ValueError (lit "Superuser must have is_staff=True."))
  else if negb (setdefault (is_superuser extra) false) then
    raise (ValueError (lit "Superuser must have is_superuser=True."))
  else create_user now email password extra.

End UserManager.

(** ** exceptions.py *)

(** [str(detail)]: a string detail is its text; a list or a dict is
    rendered by Python. *)
Definition str_of_detail `{Externals} (detail : Json) : str :=
  match detail with
  | JStr s => s
  | _ => py_str detail
  end.

(** [rest_framework.views.exception_handler], after [handle_exception] has
    adjusted the status of the two authentication errors.  [Http404] and
    Django's [PermissionDenied] are converted to their API counterparts; an
    API exception becomes a response with its status, whose body is the
    detail when that is a list or a dict, and [{detail: ...}] otherwise;
    anything else is not handled (None). *)
Definition exception_handler `{Externals} (exc : Exc) : option Response :=
  let unauthorized :=
    if authenticate_header then HTTP_401_UNAUTHORIZED else HTTP_403_FORBIDDEN in
  let body (detail : Json) :=
    match detail with
    | JList _ | JObj _ => detail
    | _ => JObj [("detail"%string, detail)]
    end in
  let detail (d : str) := JObj [("detail"%string, JStr d)] in
  match exc with
  | ValidationError d => Some {| status_code := HTTP_400_BAD_REQUEST; data := d |}
  | AuthenticationFailed d =>
      Some {| status_code := unauthorized; data := body d |}
  | NotAuthenticated =>
      Some {| status_code := unauthorized;
              data := detail (lit "Authentication credentials were not provided.") |}
  | PermissionDenied d =>
      Some {| status_code := HTTP_403_FORBIDDEN; data := detail d |}
  | NotFound d =>
      Some {| status_code := HTTP_404_NOT_FOUND; data := detail d |}
  | APIException status d =>
      Some {| status_code := status; data := body d |}
  | Http404 =>
      Some {| status_code := HTTP_404_NOT_FOUND; data := detail (lit "Not found.") |}
  | DjangoPermissionDenied _ =>
      Some {| status_code := HTTP_403_FORBIDDEN;
              data := detail (lit "You do not have permission to perform this action.") |}
  | IndexError | NameError _ | AttributeError _ | ValueError _ | IntegrityError
  | DatabaseError => None
  end.

(** The dict [{success: False, message, errors}] that replaces the body of
    an error response; the message is a string on all paths but one. *)
Definition custom_response_data (message errors : Json) : Json :=
  JObj [("success"%string, JBool false);
        ("message"%string, message);
        ("errors"%string, errors)].

(** The envelope [{success: False, message, errors}] of an error response. *)
Definition error_envelope (message : str) (errors : Json) : Json :=
  JObj [("success"%string, JBool false);
        ("message"%string, JStr message);
        ("errors"%string, errors)].

(** The handler returns the response of the framework with a new body, or
    None when the framework has none.  In the final [else] the status of
    the framework stays; a dict detail goes to [errors] and its first value
    gives the message ([value[0]] of a list, which raises on an empty one). *)
Definition custom_exception_handler `{Externals} (exc : Exc)
  : result Exc (option Response) :=
  match exception_handler exc with
  | Some response =>
      match exc with
      | ValidationError _ =>
          Ok (Some
            {| status_code := status_code response;
               data := error_envelope (lit "Validation error") (data response) |})
      | AuthenticationFailed detail =>
          Ok (Some
            {| status_code := HTTP_401_UNAUTHORIZED;
               data := error_envelope (str_of_detail detail) JNull |})
      | NotAuthenticated =>
          Ok (Some
            {| status_code := HTTP_401_UNAUTHORIZED;
               data := error_envelope
                         (lit "Authentication credentials were not provided.")
                         JNull |})
      | PermissionDenied detail =>
          Ok (Some
            {| status_code := HTTP_403_FORBIDDEN;
               data := error_envelope detail JNull |})
      | Http404 =>
          Ok (Some
            {| status_code := HTTP_404_NOT_FOUND;
               data := error_envelope (lit "Resource not found.") JNull |})
      | NotFound detail =>
          (* the final else, a string detail *)
          Ok (Some
            {| status_code := status_code response;
               data := error_envelope detail JNull |})
      | APIException _ detail =>
          (* the final else, any detail *)
          match detail with
          | JObj items =>
              match items with
              | [] =>
                  Ok (Some
                    {| status_code := status_code response;
                       data := error_envelope (lit "An error occurred") detail |})
              | (_, JList []) :: _ => Raise IndexError
              | (_, JList (first :: _)) :: _ =>
                  Ok (Some
                    {| status_code := status_code response;
                       data := custom_response_data first detail |})
              | (_, value) :: _ =>
                  Ok (Some
                    {| status_code := status_code response;
                       data := error_envelope (str_of_detail value) detail |})
              end
          | _ =>
              Ok (Some
                {| status_code := status_code response;
                   data := error_envelope (str_of_detail detail) JNull |})
          end
      | DjangoPermissionDenied message =>
          (* the final else, no detail: str(exc) *)
          Ok (Some
            {| status_code := status_code response;
               data := error_envelope message JNull |})
      | IndexError | NameError _ | AttributeError _ | ValueError _
      | IntegrityError | DatabaseError =>
          (* not reached: the framework has no response for these *)
          Ok None
      end
  | None => Ok None
  end.

(** ** permissions.py *)

(** [request.user]: the anonymous user, or the account the credentials
    resolved to. *)
Inductive request_user : Type :=
| AnonymousUser
| Account (u : User.t).

Definition is_authenticated (user : request_user) : bool :=
  match user with AnonymousUser => false | Account _ => true end.

(** A permission class: its [message] and its [has_permission]. *)
Record BasePermission : Type := {
  message : option str;
  has_permission : request_user -> bool
}.

(** [rest_framework.permissions.AllowAny] and [IsAuthenticated]. *)
Definition AllowAny : BasePermission :=
  {| message := None; has_permission := fun _ => true |}.

Definition IsAuthenticated : BasePermission :=
  {| message := None; has_permission := fun user => is_authenticated user |}.

(** In both classes below the conjunction short-circuits: the attribute of
    the account is read only after [is_authenticated] held. *)
Definition IsAdmin : BasePermission :=
  {| message := Some (lit "You must be an admin to perform this action.");
     has_permission := fun user =>
       match user with
       | AnonymousUser => false
       | Account u => Role_eqb (User.role u) ROLE_admin
       end |}.

Definition IsActiveUser : BasePermission :=
  {| message :=
       Some (lit "Your account is inactive. Please contact an administrator.");
     has_permission := fun user =>
       match user with
       | AnonymousUser => false
       | Account u => Status_eqb (User.status u) STATUS_active
       end |}.

(** [IsOwnerOrAdmin.has_object_permission] *)
Definition IsOwnerOrAdmin_has_object_permission (user obj : User.t) : bool :=
  if Role_eqb (User.role user) ROLE_admin then true
  else User.id obj =? User.id user.

(** ** The request boundary of the framework ([APIView.dispatch]) *)

(** What the [Authorization] header of a request amounts to: none, a token
    that does not verify (malformed, expired, wrong signature), or a valid
    access token for a user id.  The token library reports under [messages]
    what it found about a token that does not verify. *)
Inductive Credentials : Type :=
| NoCredentials
| InvalidToken (messages : Json)
| AccessToken (user_id : Z).

(** [get_object_or_404(User, id=user_id)] *)
Definition get_object_or_404 (user_id : Z) : M User.Table User.t :=
  rows <- get ;;
  match find (fun r => User.id r =? user_id) rows with
  | Some user => ret user
  | None => raise Http404
  end.

(** The detail of the token library's [InvalidToken]: a dict. *)
Definition invalid_token_detail (messages : Json) : Json :=
  JObj [("detail"%string, JStr (lit "Given token not valid for any token type"));
        ("code"%string, JStr (lit "token_not_valid"));
        ("messages"%string, messages)].

(** Modelled from the spec: the authentication class is named in the
    settings module, which is not among the sources.  Section 4.4: a
    request is authenticated when it carries a valid, unexpired access
    token that resolves to an existing account, and a failure is a 401.
    No header leaves the request anonymous; a token that does not verify,
    or that names no account, raises [AuthenticationFailed].  (The views
    import the token library [rest_framework_simplejwt]: its error for a
    token that does not verify carries a dict detail, and it refuses as well
    an account whose Django flag [is_active] is off; no view of the service
    ever clears that flag.  The [status] of the account is not looked at
    here.) *)
Definition perform_authentication (cred : Credentials)
  : M User.Table request_user :=
  match cred with
  | NoCredentials => ret AnonymousUser
  | InvalidToken messages =>
      raise (AuthenticationFailed (invalid_token_detail messages))
  | AccessToken user_id =>
      rows <- get ;;
      match find (fun r => User.id r =? user_id) rows with
      | None => raise (AuthenticationFailed (JStr (lit "User not found")))
      | Some u =>
          if User.is_active u then ret (Account u)
          else raise (AuthenticationFailed (JStr (lit "User is inactive")))
      end
  end.

(** [APIView.permission_denied]: an unauthenticated request is told to
    authenticate, an authenticated one is refused. *)
Definition permission_denied (user : request_user) (message : option str)
  : Exc :=
  match user with
  | AnonymousUser => NotAuthenticated
  | Account _ =>
      PermissionDenied
        match message with
        | Some m => m
        | None => lit "You do not have permission to perform this action."
        end
  end.

(** [APIView.check_permissions]: the classes in order, the first refusal
    raises. *)
Fixpoint check_permissions (permission_classes : list BasePermission)
    (user : request_user) : result Exc unit :=
  match permission_classes with
  | [] => Ok tt
  | permission :: rest =>
      if has_permission permission user then check_permissions rest user
      else Raise (permission_denied user (message permission))
  end.

(** What the client gets: a response, or the server fault of an exception
    nobody handled (HTTP 500). *)
Inductive Outcome : Type :=
| Responded (response : Response)
| Unhandled (exc : Exc).

(** [APIView.handle_exception]: an exception goes to the exception
    handler of the service ([custom_exception_handler]) and is re-raised
    when that returns None; an exception raised inside the handler leaves
    the view instead. *)
Definition handle_exception `{Externals} (exc : Exc) : Outcome :=
  match custom_exception_handler exc with
  | Ok (Some response) => Responded response
  | Ok None => Unhandled exc
  | Raise inner => Unhandled inner
  end.

(** [dispatch]: authenticate, check the permissions, run the handler; an
    exception goes to [handle_exception]. *)
Definition dispatch `{Externals} (permission_classes : list BasePermission)
    (handler : request_user -> M User.Table Response) (cred : Credentials)
    (rows : User.Table) : Outcome * User.Table :=
  let run :=
    user <- perform_authentication cred ;;
    match check_permissions permission_classes user with
    | Ok _ => handler user
    | Raise exc => raise exc
    end in
  match run rows with
  | (Ok response, rows') => (Responded response, rows')
  | (Raise exc, rows') => (handle_exception exc, rows')
  end.

(** ** Regular expressions, as far as serializers.py uses them *)

Inductive regex : Type :=
| Void
| Eps
| Class (p : char -> bool)
| Cat (r s : regex)
| Alt (r s : regex)
| Star (r : regex).

Fixpoint nullable (r : regex) : bool :=
  match r with
  | Void | Class _ => false
  | Eps | Star _ => true
  | Cat r s => nullable r && nullable s
  | Alt r s => nullable r || nullable s
  end.

(** The derivative of [r] by the character [c]. *)
Fixpoint deriv (c : char) (r : regex) : regex :=
  match r with
  | Void | Eps => Void
  | Class p => if p c then Eps else Void
  | Cat r s =>
      if nullable r then Alt (Cat (deriv c r) s) (deriv c s)
      else Cat (deriv c r) s
  | Alt r s => Alt (deriv c r) (deriv c s)
  | Star r => Cat (deriv c r) (Star r)
  end.

Fixpoint fullmatch (r : regex) (s : str) : bool :=
  match s with
  | [] => nullable r
  | c :: s' => fullmatch (deriv c r) s'
  end.

Definition Plus (r : regex) : regex := Cat r (Star r).
Definition Chr (c : char) : regex := Class (N.eqb c).

Definition in_range (lo hi c : char) : bool := (N.leb lo c && N.leb c hi)%N.
Arguments in_range (lo hi c)%_N.
Arguments Chr c%_N.

(** [A-Z], [a-z], [0-9] *)
Definition upper (c : char) : bool := in_range 65 90 c.
Definition lower (c : char) : bool := in_range 97 122 c.
Definition digit09 (c : char) : bool := in_range 48 57 c.
Definition one_of (set : str) (c : char) : bool := existsb (N.eqb c) set.

(** [$] without MULTILINE: the end of the string, or just before a newline
    that ends it. *)
Definition Dollar : regex := Alt Eps (Chr 10).

(** [re.search] of a pattern that is a single character class: some
    character of the value is in the class. *)
Definition re_search_class (class : char -> bool) (value : str) : bool :=
  existsb class value.

(** [^[a-zA-Z0-9._%+-]+@[a-zA-Z0-9.-]+\.[a-zA-Z]{2,}$] *)
Definition email_regex : regex :=
  let alnum c := lower c || upper c || digit09 c in
  let letter c := lower c || upper c in
  Cat (Plus (Class (fun c => alnum c || one_of (lit "._%+-") c)))
   (Cat (Chr 64)
    (Cat (Plus (Class (fun c => alnum c || one_of (lit ".-") c)))
     (Cat (Chr 46)
      (Cat (Class letter) (Cat (Class letter) (Cat (Star (Class letter))
        Dollar)))))).

(** [re.match(email_regex, value)]: the pattern is anchored at both ends. *)
Definition re_match_email (value : str) : bool := fullmatch email_regex value.

(** The punctuation class of the password rules: the characters
    ! @ # $ % ^ & * ( ) , . ? : { } | < > and the double quote (code 34). *)
Definition special_characters : str :=
  lit "!@#$%^&*(),.?" ++ [34%N] ++ lit ":{}|<>".

(** ** serializers.py *)

(** [serializer.errors]: field name to messages. *)
Definition Errors : Type := list (string * list str).

Definition errors_json (errors : Errors) : Json :=
  JObj (map (fun e => (fst e, msgs (snd e))) errors).

(** A field validator: the messages it raises on a value, none when it
    accepts. *)
Definition validator : Type := str -> list str.

(** A number in a message. *)
Definition decimal (n : Z) : str :=
  lit (NilZero.string_of_uint (N.to_uint (Z.to_N n))).

(** [min_length=n] and [max_length=n] on a CharField. *)
Definition min_length (n : Z) : validator := fun value =>
  if len value <? n
  then [lit "Ensure this field has at least " ++ decimal n ++ lit " characters."]
  else [].

Definition max_length (n : Z) : validator := fun value =>
  if n <? len value
  then [lit "Ensure this field has no more than " ++ decimal n ++ lit " characters."]
  else [].

(** The validator an [EmailField] adds. *)
Definition email_format `{Externals} : validator := fun value =>
  if email_validator value then [] else [lit "Enter a valid email address."].

(** The validators of a declared [CharField(min_length=, max_length=)], in
    the order the field runs them, and of an [EmailField(max_length=)],
    which is a CharField with the email validator at the end. *)
Definition CharField `{Externals} (min max : option Z) : list validator :=
  match max with Some n => [max_length n] | None => [] end ++
  match min with Some n => [min_length n] | None => [] end ++
  [prohibited_characters].

Definition EmailField `{Externals} (max : option Z) : list validator :=
  CharField None max ++ [email_format].

(** The validator that [unique=True] on [User.email] gives the email field
    of a model serializer: no other row holds exactly this value.  On an
    update the instance itself is excluded. *)
Definition unique_email (rows : User.Table) (instance : option User.t)
  : validator := fun value =>
  let others :=
    match instance with
    | Some user => exclude_id (User.id user) rows
    | None => rows
    end in
  if exists_ (filter_email value others)
  then [lit "A user with this email already exists."] else [].

(** One declared field of a serializer, all of them text fields here: the
    value is required; an empty text, or one of blanks only, is refused;
    the text is trimmed; every validator of the field runs on the trimmed
    text and their messages are collected; then the [validate_<field>]
    method of the serializer gets the trimmed text.  The outcome is the
    validated value or the field's messages. *)
Definition run_field `{Externals} (data : option str)
    (validators : list validator)
    (validate : str -> result (list str) str) : result (list str) str :=
  match data with
  | None => Raise [lit "This field is required."]
  | Some data =>
      if negb (truthy data) || negb (truthy (str_strip data)) then
        Raise [lit "This field may not be blank."]
      else
        let value := str_strip data in
        match flat_map (fun check => check value) validators with
        | [] => validate value
        | messages => Raise messages
        end
  end.

Definition field_errors (name : string) {A : Type}
    (r : result (list str) A) : Errors :=
  match r with Ok _ => [] | Raise messages => [(name, messages)] end.

Module UserSerializer.

Definition fields : list string :=
  ["id"; "email"; "full_name"; "role"; "status"; "created_at";
   "updated_at"; "last_login"]%string.

(** The attribute [name] of an instance, as it is rendered. *)
Definition getattr (user : User.t) (name : string) : Json :=
  let time z := JNum z in
  if String.eqb name "id" then JNum (User.id user)
  else if String.eqb name "email" then JStr (User.email user)
  else if String.eqb name "full_name" then JStr (User.full_name user)
  else if String.eqb name "password" then JStr (User.password user)
  else if String.eqb name "role" then JStr (Role_value (User.role user))
  else if String.eqb name "status" then JStr (Status_value (User.status user))
  else if String.eqb name "created_at" then time (User.created_at user)
  else if String.eqb name "updated_at" then time (User.updated_at user)
  else if String.eqb name "last_login" then
    match User.last_login user with Some z => time z | None => JNull end
  else if String.eqb name "is_staff" then JBool (User.is_staff user)
  else if String.eqb name "is_active" then JBool (User.is_active user)
  else if String.eqb name "is_superuser" then JBool (User.is_superuser user)
  else JNull.

(** [UserSerializer(user).data] *)
Definition data (user : User.t) : Json :=
  JObj (map (fun name => (name, getattr user name)) fields).

End UserSerializer.

Module UserSignupSerializer.

(** The request body; a key may be missing. *)
Record request_data : Type := {
  email : option str;
  full_name : option str;
  password : option str;
  confirm_password : option str
}.

Record validated_data : Type := {
  v_email : str;
  v_full_name : str;
  v_password : str
}.

Definition validate_email `{Externals} (rows : User.Table) (value : str)
  : result (list str) str :=
  if negb (re_match_email value) then
    Raise [lit "Please enter a valid email address."]
  else if exists_ (filter_email (str_lower value) rows) then
    Raise [lit "A user with this email already exists."]
  else Ok (str_lower value).

Definition validate_full_name `{Externals} (value : str)
  : result (list str) str :=
  if negb (truthy value) || (len (str_strip value) <? 2) then
    Raise [lit "Full name must be at least 2 characters long."]
  else Ok (str_strip value).

Definition validate_password `{Externals} (value : str)
  : result (list str) str :=
  if len value <? 8 then
    Raise [lit "Password must be at least 8 characters long."]
  else if negb (re_search_class upper value) then
    Raise [lit "Password must contain at least one uppercase letter."]
  else if negb (re_search_class lower value) then
    Raise [lit "Password must contain at least one lowercase letter."]
  else if negb (re_search_class re_digit value) then
    Raise [lit "Password must contain at least one digit."]
  else if negb (re_search_class (one_of special_characters) value) then
    Raise [lit "Password must contain at least one special character."]
  else
    match password_validation value with
    | [] => Ok value
    | messages => Raise messages
    end.

(** [validate(attrs)] *)
Definition validate (password confirm_password : str) : Errors :=
  if negb (str_eqb password confirm_password)
  then [("confirm_password"%string, [lit "Passwords do not match."])]
  else [].

(** The fields: [email] and [full_name] are built from the model
    ([unique=True] and [max_length=255] on the first, [max_length=255] on
    the second), the two passwords are declared. *)
Definition email_field `{Externals} (rows : User.Table) : list validator :=
  unique_email rows None :: EmailField (Some 255).
Definition full_name_field `{Externals} : list validator :=
  CharField None (Some 255).
Definition password_field `{Externals} : list validator :=
  CharField (Some 8) None.
Definition confirm_password_field `{Externals} : list validator :=
  CharField None None.

(** [is_valid()]: every field in the order of [Meta.fields], the errors
    collected per field; [validate] runs only when no field failed. *)
Definition is_valid `{Externals} (rows : User.Table) (d : request_data)
  : result Errors validated_data :=
  let r_email :=
    run_field (email d) (email_field rows) (validate_email rows) in
  let r_full_name := run_field (full_name d) full_name_field validate_full_name in
  let r_password := run_field (password d) password_field validate_password in
  let r_confirm :=
    run_field (confirm_password d) confirm_password_field (fun v => Ok v) in
  match r_email, r_full_name, r_password, r_confirm with
  | Ok e, Ok n, Ok p, Ok c =>
      match validate p c with
      | [] => Ok {| v_email := e; v_full_name := n; v_password := p |}
      | errors => Raise errors
      end
  | _, _, _, _ =>
      Raise (field_errors "email" r_email ++
             field_errors "full_name" r_full_name ++
             field_errors "password" r_password ++
             field_errors "confirm_password" r_confirm)
  end.

Definition create `{Externals} (now : Z) (v : validated_data)
  : M User.Table User.t :=
  UserManager.create_user now (v_email v) (v_password v)
    {| UserManager.full_name := Some (v_full_name v);
       UserManager.role := None;
       UserManager.status := None;
       UserManager.is_staff := None;
       UserManager.is_superuser := None |}.

End UserSignupSerializer.

(** [django.contrib.auth.authenticate(email=, password=)] with the model
    backend: the account with exactly this email, if the password verifies
    and the Django [is_active] flag is on. *)
Definition authenticate `{Externals} (rows : User.Table) (email password : str)
  : option User.t :=
  match find (fun r => str_eqb (User.email r) email) rows with
  | Some user =>
      if User.check_password password user && User.is_active user
      then Some user else None
  | None => None
  end.

Module UserLoginSerializer.

Record request_data : Type := {
  email : option str;
  password : option str
}.

Definition validate_email `{Externals} (value : str)
  : result (list str) str :=
  Ok (str_lower value).

(** [validate(attrs)]: the account, or the error dict. *)
Definition validate `{Externals} (rows : User.Table) (email password : str)
  : result Errors User.t :=
  if truthy email && truthy password then
    match authenticate rows email password with
    | None => Raise [("detail"%string, [lit "Invalid email or password."])]
    | Some user =>
        if Status_eqb (User.status user) STATUS_inactive then
          Raise [("detail"%string,
                  [lit "Your account has been deactivated. Please contact an administrator."])]
        else Ok user
    end
  else
    Raise [("detail"%string, [lit "Both email and password are required."])].

(** The declared fields. *)
Definition email_field `{Externals} : list validator := EmailField None.
Definition password_field `{Externals} : list validator := CharField None None.

(** [is_valid()]; on success [validated_data['user']]. *)
Definition is_valid `{Externals} (rows : User.Table) (d : request_data)
  : result Errors User.t :=
  let r_email := run_field (email d) email_field validate_email in
  let r_password := run_field (password d) password_field (fun v => Ok v) in
  match r_email, r_password with
  | Ok e, Ok p => validate rows e p
  | _, _ =>
      Raise (field_errors "email" r_email ++
             field_errors "password" r_password)
  end.

End UserLoginSerializer.

Module UserUpdateSerializer.

(** The body of a profile update; with [partial=True] either key may be
    missing. *)
Record request_data : Type := {
  email : option str;
  full_name : option str
}.

Definition validate_email `{Externals} (rows : User.Table) (user : User.t)
    (value : str) : result (list str) str :=
  if negb (re_match_email value) then
    Raise [lit "Please enter a valid email address."]
  else if exists_ (exclude_id (User.id user)
                     (filter_email (str_lower value) rows)) then
    Raise [lit "A user with this email already exists."]
  else Ok (str_lower value).

Definition validate_full_name `{Externals} (value : str)
  : result (list str) str :=
  if negb (truthy value) || (len (str_strip value) <? 2) then
    Raise [lit "Full name must be at least 2 characters long."]
  else Ok (str_strip value).

(** A missing key of a partial update is skipped. *)
Definition run_partial `{Externals} (value : option str)
    (validators : list validator)
    (validate : str -> result (list str) str)
  : result (list str) (option str) :=
  match value with
  | None => Ok None
  | Some _ =>
      match run_field value validators validate with
      | Ok v => Ok (Some v)
      | Raise messages => Raise messages
      end
  end.

(** The fields, both built from the model; the uniqueness validator leaves
    the instance itself out. *)
Definition email_field `{Externals} (rows : User.Table) (user : User.t)
  : list validator :=
  unique_email rows (Some user) :: EmailField (Some 255).
Definition full_name_field `{Externals} : list validator :=
  CharField None (Some 255).

(** [is_valid()]: the validated attributes that were supplied. *)
Definition is_valid `{Externals} (rows : User.Table) (user : User.t)
    (d : request_data) : result Errors (option str * option str) :=
  let r_email :=
    run_partial (email d) (email_field rows user) (validate_email rows user) in
  let r_full_name := run_partial (full_name d) full_name_field validate_full_name in
  match r_email, r_full_name with
  | Ok e, Ok n => Ok (e, n)
  | _, _ =>
      Raise (field_errors "email" r_email ++
             field_errors "full_name" r_full_name)
  end.

(** [save()] of a model serializer on an instance: the attributes are
    set and the instance is saved whole. *)
Definition save (now : Z) (user : User.t)
    (validated : option str * option str) : M User.Table User.t :=
  let user :=
    match fst validated with
    | Some e => User.with_email e user | None => user end in
  let user :=
    match snd validated with
    | Some n => User.with_full_name n user | None => user end in
  User.save now None user.

End UserUpdateSerializer.

Module ChangePasswordSerializer.

Record request_data : Type := {
  current_password : option str;
  new_password : option str;
  confirm_new_password : option str
}.

Definition validate_current_password `{Externals} (user : User.t)
    (value : str) : result (list str) str :=
  if negb (User.check_password value user) then
    Raise [lit "Current password is incorrect."]
  else Ok value.

Definition validate_new_password `{Externals} (value : str)
  : result (list str) str :=
  if len value <? 8 then
    Raise [lit "Password must be at least 8 characters long."]
  else if negb (re_search_class upper value) then
    Raise [lit "Password must contain at least one uppercase letter."]
  else if negb (re_search_class lower value) then
    Raise [lit "Password must contain at least one lowercase letter."]
  else if negb (re_search_class re_digit value) then
    Raise [lit "Password must contain at least one digit."]
  else if negb (re_search_class (one_of special_characters) value) then
    Raise [lit "Password must contain at least one special character."]
  else
    match password_validation value with
    | [] => Ok value
    | messages => Raise messages
    end.

Definition validate (current new confirm : str) : Errors :=
  if negb (str_eqb new confirm) then
    [("confirm_new_password"%string, [lit "New passwords do not match."])]
  else if str_eqb current new then
    [("new_password"%string,
      [lit "New password must be different from current password."])]
  else [].

(** The declared fields. *)
Definition current_password_field `{Externals} : list validator :=
  CharField None None.
Definition new_password_field `{Externals} : list validator :=
  CharField (Some 8) None.
Definition confirm_new_password_field `{Externals} : list validator :=
  CharField None None.

(** [is_valid()]; on success [validated_data['new_password']]. *)
Definition is_valid `{Externals} (user : User.t) (d : request_data)
  : result Errors str :=
  let r_current :=
    run_field (current_password d) current_password_field
      (validate_current_password user) in
  let r_new :=
    run_field (new_password d) new_password_field validate_new_password in
  let r_confirm :=
    run_field (confirm_new_password d) confirm_new_password_field
      (fun v => Ok v) in
  match r_current, r_new, r_confirm with
  | Ok c, Ok n, Ok k =>
      match validate c n k with
      | [] => Ok n
      | errors => Raise errors
      end
  | _, _, _ =>
      Raise (field_errors "current_password" r_current ++
             field_errors "new_password" r_new ++
             field_errors "confirm_new_password" r_confirm)
  end.

End ChangePasswordSerializer.

(** ** views.py *)

(** The names bound at the top level of views.py: its imports, its function
    and its classes.  A global name outside this list (and outside the
    builtins, which hold none of the names looked up below) raises
    [NameError] when it is evaluated. *)
Definition views_globals : list string :=
  ["status"; "generics"; "APIView"; "Response"; "AllowAny"; "IsAuthenticated";
   "RefreshToken"; "TokenRefreshView"; "TokenError"; "timezone";
   "get_object_or_404"; "User"; "UserSerializer"; "UserSignupSerializer";
   "UserLoginSerializer"; "UserUpdateSerializer"; "ChangePasswordSerializer";
   "AdminUserUpdateSerializer"; "IsAdmin"; "IsActiveUser";
   "get_tokens_for_user"; "SignupView"; "LoginView"; "LogoutView";
   "TokenRefreshAPIView"; "CurrentUserView"; "UserProfileView";
   "ChangePasswordView"; "AdminUserListView"; "AdminUserDetailView";
   "AdminActivateUserView"; "AdminDeactivateUserView"]%string.

Definition load_global {S : Type} (name : string) : M S unit :=
  if existsb (String.eqb name) views_globals then ret tt
  else raise (NameError name).

Definition get_tokens_for_user `{Externals} (now : Z) (user : User.t) : Json :=
  JObj [("refresh"%string, JStr (refresh_token now (User.id user)));
        ("access"%string, JStr (access_token now (User.id user)))].

(** The response bodies the views write out. *)
Definition success_with (message : str) (payload : list (string * Json))
  : Json :=
  JObj [("success"%string, JBool true);
        ("message"%string, JStr message);
        ("data"%string, JObj payload)].

Definition success_plain (message : str) : Json :=
  JObj [("success"%string, JBool true); ("message"%string, JStr message)].

Definition failure_plain (message : str) : Json :=
  JObj [("success"%string, JBool false); ("message"%string, JStr message)].

Definition validation_error (errors : Errors) : Response :=
  {| status_code := HTTP_400_BAD_REQUEST;
     data := JObj [("success"%string, JBool false);
                   ("message"%string, JStr (lit "Validation error"));
                   ("errors"%string, errors_json errors)] |}.

(** The table as it is now (views that define their own [get] use this
    name for the read). *)
Definition read_table : M User.Table User.Table := get.

(** A handler that reads [request.user] as an account. *)
Definition as_account (user : request_user) : M User.Table User.t :=
  match user with
  | Account u => ret u
  | AnonymousUser => raise (AttributeError "email")
  end.

Module SignupView.
Definition permission_classes : list BasePermission := [AllowAny].

Definition post `{Externals} (now : Z)
    (request_data : UserSignupSerializer.request_data)
  : M User.Table Response :=
  rows <- get ;;
  match UserSignupSerializer.is_valid rows request_data with
  | Ok validated =>
      user <- UserSignupSerializer.create now validated ;;
      let tokens := get_tokens_for_user now user in
      ret {| status_code := HTTP_201_CREATED;
             data := success_with (lit "User registered successfully.")
                       [("user"%string, UserSerializer.data user);
                        ("tokens"%string, tokens)] |}
  | Raise errors => ret (validation_error errors)
  end.
End SignupView.

Module LoginView.
Definition permission_classes : list BasePermission := [AllowAny].

Definition post `{Externals} (now : Z)
    (request_data : UserLoginSerializer.request_data)
  : M User.Table Response :=
  rows <- get ;;
  match UserLoginSerializer.is_valid rows request_data with
  | Ok user =>
      user <- User.update_last_login now user ;;
      let tokens := get_tokens_for_user now user in
      ret {| status_code := HTTP_200_OK;
             data := success_with (lit "Login successful.")
                       [("user"%string, UserSerializer.data user);
                        ("tokens"%string, tokens)] |}
  | Raise errors => ret (validation_error errors)
  end.
End LoginView.

Module CurrentUserView.
Definition permission_classes : list BasePermission :=
  [IsAuthenticated; IsActiveUser].

Definition get (request_user : request_user) : M User.Table Response :=
  user <- as_account request_user ;;
  ret {| status_code := HTTP_200_OK;
         data := success_with (lit "User data retrieved successfully.")
                   [("user"%string, UserSerializer.data user)] |}.
End CurrentUserView.

Module UserProfileView.
Definition permission_classes : list BasePermission :=
  [IsAuthenticated; IsActiveUser].

Definition get (request_user : request_user) : M User.Table Response :=
  user <- as_account request_user ;;
  ret {| status_code := HTTP_200_OK;
         data := success_with (lit "Profile retrieved successfully.")
                   [("user"%string, UserSerializer.data user)] |}.

Definition put `{Externals} (now : Z)
    (request_data : UserUpdateSerializer.request_data)
    (request_user : request_user) : M User.Table Response :=
  user <- as_account request_user ;;
  rows <- read_table ;;
  match UserUpdateSerializer.is_valid rows user request_data with
  | Ok validated =>
      user <- UserUpdateSerializer.save now user validated ;;
      ret {| status_code := HTTP_200_OK;
             data := success_with (lit "Profile updated successfully.")
                       [("user"%string, UserSerializer.data user)] |}
  | Raise errors => ret (validation_error errors)
  end.
End UserProfileView.

Module ChangePasswordView.
Definition permission_classes : list BasePermission :=
  [IsAuthenticated; IsActiveUser].

Definition post `{Externals} (now : Z)
    (request_data : ChangePasswordSerializer.request_data)
    (request_user : request_user) : M User.Table Response :=
  user <- as_account request_user ;;
  match ChangePasswordSerializer.is_valid user request_data with
  | Ok new_password =>
      let user := User.set_password new_password user in
      User.save now None user ;;;
      ret {| status_code := HTTP_200_OK;
             data := success_plain (lit "Password changed successfully.") |}
  | Raise errors => ret (validation_error errors)
  end.
End ChangePasswordView.

(** *** Pagination of the list view (page-number pagination of the
    framework over Django's paginator) *)

(** The [page] query parameter as the paginator reads it. *)
Inductive page_param : Type :=
| PageDefault              (* missing or empty: page 1 *)
| PageLast                 (* the string [last] *)
| PageNumber (n : Z)       (* what [int()] makes of it *)
| PageNotAnInteger.

Definition num_pages `{Externals} (count : Z) : Z :=
  let per_page := Z.pos PAGE_SIZE in
  (Z.max 1 count + per_page - 1) / per_page.

Definition slice {A : Type} (lo hi : Z) (l : list A) : list A :=
  firstn (Z.to_nat (hi - lo)) (skipn (Z.to_nat lo) l).

(** [paginate_queryset] and [get_paginated_response]: the body with
    [count], [next], [previous] and [results] (links as page numbers), or
    [NotFound] on an invalid page. *)
Definition paginate `{Externals} {S : Type} (page : page_param)
    (queryset : User.Table) (render : User.t -> Json) : M S Json :=
  let count := Z.of_nat (List.length queryset) in
  let per_page := Z.pos PAGE_SIZE in
  let number :=
    match page with
    | PageDefault => Some 1
    | PageLast => Some (num_pages count)
    | PageNumber n => Some n
    | PageNotAnInteger => None
    end in
  match number with
  | None => raise (NotFound (lit "Invalid page."))
  | Some n =>
      if (n <? 1) || (num_pages count <? n) then
        raise (NotFound (lit "Invalid page."))
      else
        let results := slice ((n - 1) * per_page) (n * per_page) queryset in
        ret (JObj [("count"%string, JNum count);
                   ("next"%string,
                    if n <? num_pages count then JNum (n + 1) else JNull);
                   ("previous"%string, if 1 <? n then JNum (n - 1) else JNull);
                   ("results"%string, JList (map render results))])
  end.

(** [order_by('-created_at')]: newest first, as a stable insertion sort. *)
Fixpoint insert_newest_first (u : User.t) (sorted : User.Table) : User.Table :=
  match sorted with
  | [] => [u]
  | v :: rest =>
      if User.created_at v <? User.created_at u then u :: sorted
      else v :: insert_newest_first u rest
  end.

Definition order_by_created_at_desc (rows : User.Table) : User.Table :=
  fold_right insert_newest_first [] rows.

(** The lookup [<column>__icontains=search]. *)
Definition icontains `{Externals} (column search : str) : bool :=
  contains (str_lower column) (str_lower search).

Module AdminUserListView.
Definition permission_classes : list BasePermission :=
  [IsAuthenticated; IsAdmin].

Record query_params : Type := {
  status : option str;
  role : option str;
  search : option str;
  page : page_param
}.

Definition option_in (value : option str) (choices : list str) : bool :=
  match value with
  | Some v => existsb (str_eqb v) choices
  | None => false
  end.

Definition get_queryset `{Externals} (params : query_params)
  : M User.Table User.Table :=
  rows <- get ;;
  let queryset := order_by_created_at_desc rows in
  let status_filter := status params in
  let queryset :=
    if option_in status_filter [lit "active"; lit "inactive"] then
      filter (fun u => option_in status_filter [Status_value (User.status u)])
        queryset
    else queryset in
  let role_filter := role params in
  let queryset :=
    if option_in role_filter [lit "admin"; lit "user"] then
      filter (fun u => option_in role_filter [Role_value (User.role u)])
        queryset
    else queryset in
  match search params with
  | Some search =>
      if truthy search then
        (* the argument [models.Q(...) | models.Q(...)] is evaluated
           first, and it starts by looking up the global [models] *)
        load_global "models" ;;;
        ret (filter (fun u => icontains (User.email u) search
                              || icontains (User.full_name u) search)
               queryset)
      else ret queryset
  | None => ret queryset
  end.

(** [list]: the paginated listing of the framework, rewrapped. *)
Definition list `{Externals} (params : query_params)
  : M User.Table Response :=
  queryset <- get_queryset params ;;
  response_data <- paginate (page params) queryset UserSerializer.data ;;
  let d := match response_data with JObj kv => kv | _ => [] end in
  let get_or (key : string) (default : Json) : Json :=
    match dict_get key d with Some v => v | None => default end in
  let results := get_or "results"%string response_data in
  ret {| status_code := HTTP_200_OK;
         data := success_with (lit "Users retrieved successfully.")
                   [("count"%string,
                     get_or "count"%string
                       (match get_or "results"%string (JList []) with
                        | JList l => JNum (Z.of_nat (List.length l))
                        | _ => JNull
                        end));
                    ("next"%string, get_or "next"%string JNull);
                    ("previous"%string, get_or "previous"%string JNull);
                    ("users"%string, results)] |}.
End AdminUserListView.

Module AdminUserDetailView.
Definition permission_classes : list BasePermission :=
  [IsAuthenticated; IsAdmin].

Definition get (user_id : Z) : M User.Table Response :=
  user <- get_object_or_404 user_id ;;
  ret {| status_code := HTTP_200_OK;
         data := success_with (lit "User retrieved successfully.")
                   [("user"%string, UserSerializer.data user)] |}.
End AdminUserDetailView.

Module AdminActivateUserView.
Definition permission_classes : list BasePermission :=
  [IsAuthenticated; IsAdmin].

Definition post (now : Z) (user_id : Z) : M User.Table Response :=
  user <- get_object_or_404 user_id ;;
  if Status_eqb (User.status user) STATUS_active then
    ret {| status_code := HTTP_400_BAD_REQUEST;
           data := failure_plain (lit "User is already active.") |}
  else
    user <- User.activate now user ;;
    ret {| status_code := HTTP_200_OK;
           data := success_with
                     (lit "User " ++ User.email user ++
                      lit " has been activated successfully.")
                     [("user"%string, UserSerializer.data user)] |}.
End AdminActivateUserView.

Module AdminDeactivateUserView.
Definition permission_classes : list BasePermission :=
  [IsAuthenticated; IsAdmin].

(** [request.user.id]; the anonymous user has none. *)
Definition request_user_id (request_user : request_user) : option Z :=
  match request_user with
  | Account u => Some (User.id u)
  | AnonymousUser => None
  end.

Definition post (now : Z) (user_id : Z) (request_user : request_user)
  : M User.Table Response :=
  user <- get_object_or_404 user_id ;;
  (* Prevent self-deactivation *)
  if match request_user_id request_user with
     | Some i => User.id user =? i
     | None => false
     end then
    ret {| status_code := HTTP_400_BAD_REQUEST;
           data := failure_plain (lit "You cannot deactivate your own account.") |}
  else if Status_eqb (User.status user) STATUS_inactive then
    ret {| status_code := HTTP_400_BAD_REQUEST;
           data := failure_plain (lit "User is already inactive.") |}
  else
    user <- User.deactivate now user ;;
    ret {| status_code := HTTP_200_OK;
           data := success_with
                     (lit "User " ++ User.email user ++
                      lit " has been deactivated successfully.")
                     [("user"%string, UserSerializer.data user)] |}.
End AdminDeactivateUserView.

(** ** urls.py: the routes and the requests they accept

    (The logout and token-refresh routes only call the token library and
    touch no account; they are not modelled.) *)
Inductive Request : Type :=
| POST_auth_signup (request_data : UserSignupSerializer.request_data)
| POST_auth_login (request_data : UserLoginSerializer.request_data)
| GET_auth_me
| GET_users_profile
| PUT_users_profile (request_data : UserUpdateSerializer.request_data)
| POST_users_change_password
    (request_data : ChangePasswordSerializer.request_data)
| GET_admin_users (params : AdminUserListView.query_params)
| GET_admin_user (user_id : Z)
| POST_admin_user_activate (user_id : Z)
| POST_admin_user_deactivate (user_id : Z).

(** The admin routes, the read-only routes. *)
Definition is_admin_route (request : Request) : bool :=
  match request with
  | GET_admin_users _ | GET_admin_user _ | POST_admin_user_activate _
  | POST_admin_user_deactivate _ => true
  | _ => false
  end.

Definition is_read (request : Request) : bool :=
  match request with
  | GET_auth_me | GET_users_profile | GET_admin_users _ | GET_admin_user _ =>
      true
  | _ => false
  end.

Definition permission_classes_of (request : Request) : list BasePermission :=
  match request with
  | POST_auth_signup _ => SignupView.permission_classes
  | POST_auth_login _ => LoginView.permission_classes
  | GET_auth_me => CurrentUserView.permission_classes
  | GET_users_profile | PUT_users_profile _ =>
      UserProfileView.permission_classes
  | POST_users_change_password _ => ChangePasswordView.permission_classes
  | GET_admin_users _ => AdminUserListView.permission_classes
  | GET_admin_user _ => AdminUserDetailView.permission_classes
  | POST_admin_user_activate _ => AdminActivateUserView.permission_classes
  | POST_admin_user_deactivate _ => AdminDeactivateUserView.permission_classes
  end.

Definition handler_of `{Externals} (now : Z) (request : Request)
  : request_user -> M User.Table Response :=
  match request with
  | POST_auth_signup d => fun _ => SignupView.post now d
  | POST_auth_login d => fun _ => LoginView.post now d
  | GET_auth_me => CurrentUserView.get
  | GET_users_profile => UserProfileView.get
  | PUT_users_profile d => UserProfileView.put now d
  | POST_users_change_password d => ChangePasswordView.post now d
  | GET_admin_users params => fun _ => AdminUserListView.list params
  | GET_admin_user user_id => fun _ => AdminUserDetailView.get user_id
  | POST_admin_user_activate user_id =>
      fun _ => AdminActivateUserView.post now user_id
  | POST_admin_user_deactivate user_id =>
      AdminDeactivateUserView.post now user_id
  end.

(** One request at time [now] with credentials [cred] against the table:
    the outcome and the table afterwards. *)
Definition serve `{Externals} (now : Z) (cred : Credentials)
    (request : Request) (rows : User.Table) : Outcome * User.Table :=
  dispatch (permission_classes_of request) (handler_of now request) cred rows.

(** ** A reference instance of the collaborators, for running examples *)

Definition ascii_lower (c : char) : char :=
  if upper c then (c + 32)%N else c.

Definition is_space (c : char) : bool :=
  N.eqb c 32 || in_range 9 13 c.

Fixpoint lstrip (s : str) : str :=
  match s with
  | c :: s' => if is_space c then lstrip s' else s
  | [] => []
  end.

(** A plain reading of the email validator: a name without blanks or
    doubled dots, an at sign, a domain with a dot inside. *)
Definition plain_email (value : str) : bool :=
  match rsplit1 64%N value with
  | Some (name, domain) =>
      truthy name && negb (existsb is_space value)
      && negb (contains value (lit "..")) && negb (contains name (lit "@"))
      && contains domain (lit ".")
      && negb (startswith domain (lit ".")) && negb (startswith (rev domain) (lit "."))
  | None => false
  end.

Definition reference_externals : Externals := {|
  str_lower := map ascii_lower;
  str_strip := fun s => rev (lstrip (rev (lstrip s)));
  py_str := fun _ => lit "{...}";
  prohibited_characters := fun value =>
    if existsb (N.eqb 0) value then [lit "Null characters are not allowed."]
    else [];
  email_validator := plain_email;
  re_digit := digit09;
  make_password := fun raw => lit "hashed$" ++ raw;
  check_password := fun raw encoded => str_eqb (lit "hashed$" ++ raw) encoded;
  password_validation := fun value =>
    if forallb digit09 value then [lit "This password is entirely numeric."]
    else [];
  refresh_token := fun now user_id => [82; Z.to_N now; Z.to_N user_id]%N;
  access_token := fun now user_id => [65; Z.to_N now; Z.to_N user_id]%N;
  PAGE_SIZE := 10%positive;
  authenticate_header := true
|}.

(** ** Notions used in the statements *)

(** The credentials of a request resolve to the account [u] of the table. *)
Definition authenticated_as (cred : Credentials) (rows : User.Table)
    (u : User.t) : Prop :=
  perform_authentication cred rows = (Ok (Account u), rows).

(** The principal of a request is not an admin: it has no account, or the
    account's role is another one. *)
Definition not_an_admin (cred : Credentials) (rows : User.Table) : Prop :=
  forall u, authenticated_as cred rows u -> User.role u <> ROLE_admin.

(** The five strength rules, in the words of the specification. *)
Definition strength_rules `{Externals} (value : str) : Prop :=
  8 <= len value
  /\ (exists c, In c value /\ (65 <= c <= 90)%N)
  /\ (exists c, In c value /\ (97 <= c <= 122)%N)
  /\ (exists c, In c value /\ re_digit c = true)
  /\ (exists c, In c value /\ In c special_characters).

(** The columns a [save] writes, and the instance after [pre_save]. *)
Definition written (update_fields : option (list User.Field))
  : list User.Field :=
  match update_fields with Some fs => fs | None => User.concrete_fields end.

Definition pre_saved (now : Z) (update_fields : option (list User.Field))
    (self : User.t) : User.t :=
  if User.listed User.f_updated_at (written update_fields)
  then User.with_updated_at now self else self.

(** What a row can be after a request at time [now]: a row that was there
    before; after a login, an old row with [last_login] set to [now] and
    nothing else changed; after any other request, a row whose
    [updated_at] is [now]. *)
Definition row_after (now : Z) (request : Request) (rows : User.Table)
    (u' : User.t) : Prop :=
  In u' rows
  \/ match request with
     | POST_auth_login _ =>
         exists u,
           In u rows /\
           u' = User.with_last_login (Some now) u /\
           User.updated_at u' = User.updated_at u
     | _ => User.updated_at u' = now
     end.

(** The table with the password hash of account [user_id] replaced. *)
Definition rehash (user_id : Z) (hash : str) (rows : User.Table)
  : User.Table :=
  map (fun r => if User.id r =? user_id then User.with_password hash r else r)
    rows.

(** The request user over the changed table. *)
Definition over_user (f : User.t -> User.t) (user : request_user)
  : request_user :=
  match user with
  | AnonymousUser => AnonymousUser
  | Account u => Account (f u)
  end.

(** An account as [create_user] stores it for the address
    [Bob@Example.com]: the domain part lower-cased, the local part kept. *)
Definition seeded_table : User.Table :=
  snd (UserManager.create_user (H := reference_externals) 5
         (lit "Bob@Example.com") (lit "Abcdef1!")
         {| UserManager.full_name := Some (lit "Bob B");
            UserManager.role := None;
            UserManager.status := None;
            UserManager.is_staff := None;
            UserManager.is_superuser := None |} []).

Definition case_variant_signup : UserSignupSerializer.request_data :=
  {| UserSignupSerializer.email := Some (lit "bob@example.com");
     UserSignupSerializer.full_name := Some (lit "Bobby");
     UserSignupSerializer.password := Some (lit "Abcdef1!");
     UserSignupSerializer.confirm_password := Some (lit "Abcdef1!") |}.

(** A table for the examples: an admin, an active and an inactive
    account, and an admin whose status is inactive.  The passwords are
    those of the reference hasher. *)
Definition example_account (id : Z) (email : string) (role : Role)
    (status : Status) : User.t :=
  {| User.id := id;
     User.email := lit email;
     User.full_name := lit "Example Account";
     User.password := lit "hashed$Abcdef1!";
     User.role := role;
     User.status := status;
     User.created_at := id;
     User.updated_at := 5;
     User.last_login := None;
     User.is_staff := false;
     User.is_active := true;
     User.is_superuser := false |}.

Definition example_admin : User.t :=
  example_account 1 "admin@example.com" ROLE_admin STATUS_active.
Definition example_ann : User.t :=
  example_account 2 "ann@example.com" ROLE_user STATUS_active.
Definition example_joe : User.t :=
  example_account 3 "joe@example.com" ROLE_user STATUS_inactive.
Definition example_eve : User.t :=
  example_account 4 "eve@example.com" ROLE_admin STATUS_inactive.

Definition example_table : User.Table :=
  [example_admin; example_ann; example_joe; example_eve].

Definition example_search : AdminUserListView.query_params :=
  {| AdminUserListView.status := None;
     AdminUserListView.role := None;
     AdminUserListView.search := Some (lit "ann");
     AdminUserListView.page := PageDefault |}.

Definition example_listing : AdminUserListView.query_params :=
  {| AdminUserListView.status := None;
     AdminUserListView.role := None;
     AdminUserListView.search := None;
     AdminUserListView.page := PageDefault |}.

Definition example_login (email password : string)
  : UserLoginSerializer.request_data :=
  {| UserLoginSerializer.email := Some (lit email);
     UserLoginSerializer.password := Some (lit password) |}.

(** ** management/commands/create_admin.py *)

Module Command.

Definition admin_email : str := lit "admin@example.com".
Definition admin_password : str := lit "AdminPass123!".
Definition admin_name : str := lit "Admin User".

(** [handle]: what is written to stdout, and the table afterwards. *)
Definition handle `{Externals} (now : Z) : M User.Table str :=
  rows <- get ;;
  if negb (exists_ (filter_email admin_email rows)) then
    UserManager.create_superuser now admin_email admin_password
      {| UserManager.full_name := Some admin_name;
         UserManager.role := None;
         UserManager.status := None;
         UserManager.is_staff := None;
         UserManager.is_superuser := None |} ;;;
    ret (lit "Successfully created admin user: " ++ admin_email)
  else
    ret (lit "Admin user " ++ admin_email ++ lit " already exists").

End Command.

(** ** Notions used in the further statements *)

(** A field takes a supplied text: the text is not blank, and every
    validator of the field passes the trimmed text. *)
Definition field_accepts `{Externals} (validators : list validator)
    (data : str) : Prop :=
  data <> [] /\ str_strip data <> [] /\
  flat_map (fun check : validator => check (str_strip data)) validators = [].

(** The table after a status transition of account [user_id] at [now]. *)
Definition with_status_at (user_id : Z) (status : Status) (now : Z)
    (rows : User.Table) : User.Table :=
  map (fun row =>
         if User.id row =? user_id
         then User.with_updated_at now (User.with_status status row)
         else row) rows.

(** The table after the login of account [user_id] at [now]. *)
Definition with_last_login_at (user_id : Z) (now : Z) (rows : User.Table)
  : User.Table :=
  map (fun row =>
         if User.id row =? user_id
         then User.with_last_login (Some now) row else row) rows.

(** The table with the row of account [user_id] replaced by [u]. *)
Definition with_row (user_id : Z) (u : User.t) (rows : User.Table)
  : User.Table :=
  map (fun row => if User.id row =? user_id then u else row) rows.

(** The constraints of the table: the primary key and [unique=True] on
    [email]. *)
Definition consistent (rows : User.Table) : Prop :=
  NoDup (map User.id rows) /\ NoDup (map User.email rows).

(** What an account is allowed to do and since when: the columns no view
    writes after creation. *)
Definition standing (u : User.t) : Z * Role * Z * bool * bool * bool :=
  (User.id u, User.role u, User.created_at u, User.is_staff u,
   User.is_active u, User.is_superuser u).

(** The self-service routes, which ask for an active account. *)
Definition is_self_service (request : Request) : bool :=
  match request with
  | GET_auth_me | GET_users_profile | PUT_users_profile _
  | POST_users_change_password _ => true
  | _ => false
  end.

(** The admin routes that name an account. *)
Definition names_account (request : Request) (user_id : Z) : Prop :=
  request = GET_admin_user user_id
  \/ request = POST_admin_user_activate user_id
  \/ request = POST_admin_user_deactivate user_id.

(** The rows a listing selects: the [status] and [role] parameters select
    when they are one of the choices, and are ignored otherwise. *)
Definition selected (params : AdminUserListView.query_params) (u : User.t)
  : Prop :=
  (AdminUserListView.status params = Some (lit "active") ->
   User.status u = STATUS_active)
  /\ (AdminUserListView.status params = Some (lit "inactive") ->
      User.status u = STATUS_inactive)
  /\ (AdminUserListView.role params = Some (lit "admin") ->
      User.role u = ROLE_admin)
  /\ (AdminUserListView.role params = Some (lit "user") ->
      User.role u = ROLE_user).

(** Newest first. *)
Fixpoint newest_first (rows : User.Table) : Prop :=
  match rows with
  | [] => True
  | u :: rest =>
      (forall v, In v rest -> User.created_at v <= User.created_at u)
      /\ newest_first rest
  end.

(** The account after a profile update with the body [d] at [now]: the
    email is trimmed by its field and lower-cased by [validate_email], the
    name is trimmed by its field and stripped by [validate_full_name]. *)
Definition profile_after `{Externals} (now : Z)
    (d : UserUpdateSerializer.request_data) (u : User.t) : User.t :=
  let u := match UserUpdateSerializer.email d with
           | Some data => User.with_email (str_lower (str_strip data)) u
           | None => u
           end in
  let u := match UserUpdateSerializer.full_name d with
           | Some data => User.with_full_name (str_strip (str_strip data)) u
           | None => u
           end in
  User.with_updated_at now u.

(** An email that a profile update of [u] accepts: the email field takes
    it (so no other account holds it as trimmed), it is well-formed, and
    no other account holds it lower-cased. *)
Definition free_email `{Externals} (rows : User.Table) (u : User.t)
    (data : str) : Prop :=
  field_accepts (UserUpdateSerializer.email_field rows u) data
  /\ re_match_email (str_strip data) = true
  /\ forall r, In r rows -> User.id r <> User.id u ->
       User.email r <> str_lower (str_strip data).

(** A full name that a profile update accepts: the name field takes it,
    and what [validate_full_name] strips from it has two characters or
    more. *)
Definition proper_name `{Externals} (data : str) : Prop :=
  field_accepts UserUpdateSerializer.full_name_field data
  /\ 2 <= len (str_strip (str_strip data)).

(** Bodies for the further examples. *)
Definition example_signup : UserSignupSerializer.request_data :=
  {| UserSignupSerializer.email := Some (lit " Cal@Example.com ");
     UserSignupSerializer.full_name := Some (lit " Cal C ");
     UserSignupSerializer.password := Some (lit "Abcdef1! ");
     UserSignupSerializer.confirm_password := Some (lit " Abcdef1!") |}.

Definition example_validated : UserSignupSerializer.validated_data :=
  {| UserSignupSerializer.v_email := lit "cal@example.com";
     UserSignupSerializer.v_full_name := lit "Cal C";
     UserSignupSerializer.v_password := lit "Abcdef1!" |}.


Definition example_profile : UserUpdateSerializer.request_data :=
  {| UserUpdateSerializer.email := Some (lit " Ann@Example.com");
     UserUpdateSerializer.full_name := Some (lit "  Ann A ") |}.

Definition example_profile_conflict : UserUpdateSerializer.request_data :=
  {| UserUpdateSerializer.email := Some (lit "Joe@Example.com");
     UserUpdateSerializer.full_name := None |}.

Definition example_status_filter : AdminUserListView.query_params :=
  {| AdminUserListView.status := Some (lit "inactive");
     AdminUserListView.role := Some (lit "staff");
     AdminUserListView.search := Some [];
     AdminUserListView.page := PageDefault |}.

Definition no_extra_fields : UserManager.extra_fields :=
  {| UserManager.full_name := None;
     UserManager.role := None;
     UserManager.status := None;
     UserManager.is_staff := None;
     UserManager.is_superuser := None |}.

(** * Properties *)

(** ** The request boundary *)


Section Boundary.
Context `{Externals}.

Lemma perform_authentication_reads_only cred rows :
  snd (perform_authentication cred rows) = rows.
Proof.
  destruct cred as [| | user_id]; try reflexivity.
  unfold perform_authentication, bind, get.
  destruct (find _ rows) as [u |]; [destruct (User.is_active u) |];
    reflexivity.
Qed.

Lemma authenticated_as_inv cred rows u :
  authenticated_as cred rows u ->
  exists user_id,
    cred = AccessToken user_id /\
    find (fun r => User.id r =? user_id) rows = Some u /\
    User.is_active u = true.
Proof.
  unfold authenticated_as.
  destruct cred as [| | user_id]; try discriminate.
  unfold perform_authentication, bind, get.
  destruct (find _ rows) as [v |] eqn:Hfind; [| discriminate].
  destruct (User.is_active v) eqn:Hactive; [| discriminate].
  intros [= ->]. now exists user_id.
Qed.

Lemma find_by_id_some rows i u :
  find (fun r => User.id r =? i) rows = Some u ->
  In u rows /\ User.id u = i.
Proof.
  intros Hfind. apply find_some in Hfind as [Hin Hid].
  split; [assumption | now apply Z.eqb_eq].
Qed.

(** The account a token resolved to is found again under its own id. *)
Lemma authenticated_as_self cred rows u :
  authenticated_as cred rows u ->
  get_object_or_404 (User.id u) rows = (Ok u, rows).
Proof.
  intros Hauth.
  destruct (authenticated_as_inv _ _ _ Hauth) as (i & _ & Hfind & _).
  destruct (find_by_id_some _ _ _ Hfind) as [_ ->].
  unfold get_object_or_404, bind, get. now rewrite Hfind.
Qed.

Lemma get_object_or_404_found rows i u :
  find (fun r => User.id r =? i) rows = Some u ->
  get_object_or_404 i rows = (Ok u, rows).
Proof.
  intros Hfind. unfold get_object_or_404, bind, get. now rewrite Hfind.
Qed.

(** A request that authenticates and passes its permission classes gets
    what its handler answers. *)
Lemma dispatch_handler perms handler cred rows user :
  perform_authentication cred rows = (Ok user, rows) ->
  check_permissions perms user = Ok tt ->
  dispatch perms handler cred rows =
    match handler user rows with
    | (Ok response, rows') => (Responded response, rows')
    | (Raise exc, rows') => (handle_exception exc, rows')
    end.
Proof.
  intros Hauth Hperm. unfold dispatch, bind.
  now rewrite Hauth, Hperm.
Qed.

(** A request that authenticates and is refused by a permission class
    gets the handled form of the refusal. *)
Lemma dispatch_refused perms handler cred rows user exc :
  perform_authentication cred rows = (Ok user, rows) ->
  check_permissions perms user = Raise exc ->
  dispatch perms handler cred rows = (handle_exception exc, rows).
Proof.
  intros Hauth Hperm. unfold dispatch, bind.
  now rewrite Hauth, Hperm.
Qed.

Lemma admin_passes_admin_permissions u :
  User.role u = ROLE_admin ->
  check_permissions [IsAuthenticated; IsAdmin] (Account u) = Ok tt.
Proof. intros Hrole. simpl. now rewrite Hrole. Qed.

Lemma admin_route_permissions request :
  is_admin_route request = true ->
  permission_classes_of request = [IsAuthenticated; IsAdmin].
Proof. destruct request; simpl; intros; (reflexivity || discriminate). Qed.

End Boundary.

(** ** Account lifecycle *)

Section Lifecycle.
Context `{Externals}.

(** C3.  A deactivate request whose target is the acting admin's own
    account is answered with status 400, whatever the status of the
    account is, and the table (hence the account's status and updated_at)
    is left as it was. *)
Theorem self_deactivation_rejected now cred rows admin :
  authenticated_as cred rows admin ->
  User.role admin = ROLE_admin ->
  serve now cred (POST_admin_user_deactivate (User.id admin)) rows =
    (Responded
       {| status_code := HTTP_400_BAD_REQUEST;
          data := failure_plain
                    (lit "You cannot deactivate your own account.") |},
     rows).
Proof.
  intros Hauth Hrole. unfold serve.
  rewrite (dispatch_handler _ _ _ _ _ Hauth
             (admin_passes_admin_permissions _ Hrole)).
  cbn [handler_of]. unfold AdminDeactivateUserView.post, bind.
  rewrite (authenticated_as_self _ _ _ Hauth).
  cbn [AdminDeactivateUserView.request_user_id].
  now rewrite Z.eqb_refl.
Qed.

(** C6.  Two statements, each for every request of an admin.  Activating
    an account that is already active is answered with status 400 and
    leaves the table, hence every field of the target, as it was.
    Deactivating an account (another one than the admin's own) that is
    already inactive is answered with status 400 and leaves the table as
    it was. *)
Theorem repeated_transition_rejected :
  (forall now cred rows admin user_id (target : User.t),
     authenticated_as cred rows admin ->
     User.role admin = ROLE_admin ->
     find (fun r => User.id r =? user_id) rows = Some target ->
     User.status target = STATUS_active ->
     serve now cred (POST_admin_user_activate user_id) rows =
       (Responded
          {| status_code := HTTP_400_BAD_REQUEST;
             data := failure_plain (lit "User is already active.") |},
        rows))
  /\
  (forall now cred rows admin user_id (target : User.t),
     authenticated_as cred rows admin ->
     User.role admin = ROLE_admin ->
     find (fun r => User.id r =? user_id) rows = Some target ->
     User.status target = STATUS_inactive ->
     User.id target <> User.id admin ->
     serve now cred (POST_admin_user_deactivate user_id) rows =
       (Responded
          {| status_code := HTTP_400_BAD_REQUEST;
             data := failure_plain (lit "User is already inactive.") |},
        rows)).
Proof.
  split.
  - intros now cred rows admin user_id target Hauth Hrole Hfind Hstatus.
    unfold serve.
    rewrite (dispatch_handler _ _ _ _ _ Hauth
               (admin_passes_admin_permissions _ Hrole)).
    cbn [handler_of]. unfold AdminActivateUserView.post, bind.
    rewrite (get_object_or_404_found _ _ _ Hfind), Hstatus.
    reflexivity.
  - intros now cred rows admin user_id target Hauth Hrole Hfind Hstatus Hother.
    unfold serve.
    rewrite (dispatch_handler _ _ _ _ _ Hauth
               (admin_passes_admin_permissions _ Hrole)).
    cbn [handler_of]. unfold AdminDeactivateUserView.post, bind.
    rewrite (get_object_or_404_found _ _ _ Hfind), Hstatus.
    cbn [AdminDeactivateUserView.request_user_id].
    apply Z.eqb_neq in Hother. now rewrite Hother.
Qed.

End Lifecycle.

(** ** Access policy *)

Section AccessPolicy.
Context `{Externals}.

(** C10.  An account with the admin role and the inactive status passes
    the permission classes of every admin route: they ask for
    authentication and the role only.  The active-status class, which no
    admin route lists, would have refused it. *)
Theorem inactive_admin_passes_admin_routes u request :
  User.role u = ROLE_admin ->
  User.status u = STATUS_inactive ->
  is_admin_route request = true ->
  check_permissions (permission_classes_of request) (Account u) = Ok tt
  /\ has_permission IsActiveUser (Account u) = false.
Proof.
  intros Hrole Hstatus Hroute.
  rewrite (admin_route_permissions _ Hroute).
  split.
  - now apply admin_passes_admin_permissions.
  - simpl. now rewrite Hstatus.
Qed.

End AccessPolicy.

(** ** The admin listing *)

Section Listing.
Context `{Externals}.

Lemma truthy_nonempty (s : str) : s <> [] -> truthy s = true.
Proof. destruct s; [congruence | reflexivity]. Qed.

Lemma models_is_not_a_global {S : Type} (rows : S) :
  load_global "models" rows = (Raise (NameError "models"), rows).
Proof. reflexivity. Qed.

(** C1 (what the code does).  A listing request of an authenticated admin
    with a non-empty [search] parameter ends in a [NameError] for the
    global [models], which views.py never imports; the exception handler
    does not know the exception, so it leaves the view as a server fault
    instead of the 200 listing. *)
Theorem search_listing_is_a_server_fault now cred rows admin params search :
  authenticated_as cred rows admin ->
  User.role admin = ROLE_admin ->
  AdminUserListView.search params = Some search ->
  search <> [] ->
  serve now cred (GET_admin_users params) rows =
    (Unhandled (NameError "models"), rows).
Proof.
  intros Hauth Hrole Hsearch Hnonempty. unfold serve.
  rewrite (dispatch_handler _ _ _ _ _ Hauth
             (admin_passes_admin_permissions _ Hrole)).
  cbn [handler_of].
  unfold AdminUserListView.list, AdminUserListView.get_queryset, bind, get.
  rewrite Hsearch, (truthy_nonempty _ Hnonempty).
  rewrite models_is_not_a_global. reflexivity.
Qed.

End Listing.

(** ** Who is refused on the admin routes *)


Section Refusals.
Context `{Externals}.

Lemma serve_unauthenticated now request rows :
  is_admin_route request = true ->
  serve now NoCredentials request rows =
    (Responded
       {| status_code := HTTP_401_UNAUTHORIZED;
          data := error_envelope
                    (lit "Authentication credentials were not provided.")
                    JNull |},
     rows).
Proof.
  intros Hroute. unfold serve.
  rewrite (admin_route_permissions _ Hroute).
  rewrite (dispatch_refused _ _ _ _ AnonymousUser NotAuthenticated);
    reflexivity.
Qed.

Lemma serve_authentication_failed now cred request rows detail :
  perform_authentication cred rows = (Raise (AuthenticationFailed detail), rows) ->
  serve now cred request rows =
    (Responded
       {| status_code := HTTP_401_UNAUTHORIZED;
          data := error_envelope (str_of_detail detail) JNull |},
     rows).
Proof.
  intros Hauth. unfold serve, dispatch, bind. now rewrite Hauth.
Qed.

(** Authentication has three outcomes. *)
Lemma perform_authentication_cases cred rows :
  perform_authentication cred rows = (Ok AnonymousUser, rows)
  \/ (exists u, authenticated_as cred rows u)
  \/ (exists detail,
        perform_authentication cred rows =
          (Raise (AuthenticationFailed detail), rows)).
Proof.
  destruct cred as [| | user_id].
  - now left.
  - right; right. eexists. reflexivity.
  - unfold authenticated_as, perform_authentication, bind, get.
    destruct (find _ rows) as [u |].
    + destruct (User.is_active u).
      * right; left. now exists u.
      * right; right. eexists. reflexivity.
    + right; right. eexists. reflexivity.
Qed.

(** C4, amended.  On every admin route, a request whose credentials
    resolve to an account with another role than admin is answered with
    status 403 and the message of the admin permission; a request with
    missing credentials, or with credentials that do not authenticate, is
    answered with status 401.  The table is untouched in every case. *)
Theorem admin_routes_refuse_non_admins now cred request rows :
  is_admin_route request = true ->
  not_an_admin cred rows ->
  exists response,
    serve now cred request rows = (Responded response, rows) /\
    ((exists u, authenticated_as cred rows u) ->
     status_code response = HTTP_403_FORBIDDEN) /\
    ((forall u, ~ authenticated_as cred rows u) ->
     status_code response = HTTP_401_UNAUTHORIZED).
Proof.
  intros Hroute Hnot.
  destruct (perform_authentication_cases cred rows)
    as [Hanon | [[u Hu] | [detail Hfail]]].
  - (* no credentials *)
    assert (cred = NoCredentials) as ->.
    { destruct cred as [| | i]; [reflexivity | discriminate |].
      revert Hanon. unfold perform_authentication, bind, get.
      destruct (find _ rows) as [v |]; [destruct (User.is_active v) |];
        discriminate. }
    eexists. split; [now apply serve_unauthenticated |].
    split; [| reflexivity].
    intros [u Hu]. discriminate Hu.
  - (* an account with another role *)
    pose proof (Hnot u Hu) as Hrole.
    exists {| status_code := HTTP_403_FORBIDDEN;
              data := error_envelope
                        (lit "You must be an admin to perform this action.")
                        JNull |}.
    split; [| split; [reflexivity |]].
    + unfold serve. rewrite (admin_route_permissions _ Hroute).
      rewrite (dispatch_refused _ _ _ _ (Account u)
                 (PermissionDenied
                    (lit "You must be an admin to perform this action."))).
      * reflexivity.
      * exact Hu.
      * simpl. destruct (User.role u); [congruence | reflexivity].
    + intros Hnone. exfalso. exact (Hnone u Hu).
  - (* credentials that do not authenticate *)
    eexists. split; [exact (serve_authentication_failed _ _ _ _ _ Hfail) |].
    split; [| reflexivity].
    intros [u Hu]. unfold authenticated_as in Hu. congruence.
Qed.

End Refusals.

(** ** Credential validation *)


Section Credentials.
Context `{Externals}.

Lemma in_range_spec lo hi c :
  in_range lo hi c = true <-> (lo <= c <= hi)%N.
Proof.
  unfold in_range. rewrite andb_true_iff, !N.leb_le. reflexivity.
Qed.

Lemma one_of_spec set c : one_of set c = true <-> In c set.
Proof.
  unfold one_of. rewrite existsb_exists. split.
  - intros (x & Hin & Heq). apply N.eqb_eq in Heq. now subst.
  - intros Hin. exists c. split; [assumption | apply N.eqb_refl].
Qed.

Lemma re_search_class_spec class value :
  re_search_class class value = true <->
  exists c, In c value /\ class c = true.
Proof. apply existsb_exists. Qed.

Lemma strength_rules_checks value :
  strength_rules value <->
  (len value <? 8) = false
  /\ re_search_class upper value = true
  /\ re_search_class lower value = true
  /\ re_search_class re_digit value = true
  /\ re_search_class (one_of special_characters) value = true.
Proof.
  unfold strength_rules.
  rewrite Z.ltb_ge, !re_search_class_spec.
  unfold upper, lower.
  setoid_rewrite in_range_spec. setoid_rewrite one_of_spec.
  reflexivity.
Qed.

(** C7.  When the pluggable policy accepts a password, each of the two
    strength checks (signup, change of password) accepts it exactly when
    it has at least 8 characters, an uppercase letter, a lowercase
    letter, a digit and a character of the punctuation set; a password
    that misses one of the rules is rejected with a validation message. *)
Theorem password_strength_rules value :
  password_validation value = [] ->
  (UserSignupSerializer.validate_password value = Ok value
   <-> strength_rules value)
  /\ (ChangePasswordSerializer.validate_new_password value = Ok value
      <-> strength_rules value)
  /\ (~ strength_rules value ->
      exists message,
        UserSignupSerializer.validate_password value = Raise [message] /\
        ChangePasswordSerializer.validate_new_password value
          = Raise [message]).
Proof.
  intros Hpolicy.
  rewrite strength_rules_checks.
  unfold UserSignupSerializer.validate_password,
    ChangePasswordSerializer.validate_new_password.
  rewrite Hpolicy.
  destruct (len value <? 8), (re_search_class upper value),
    (re_search_class lower value), (re_search_class re_digit value),
    (re_search_class (one_of special_characters) value); cbn [negb].
  all: repeat split; try discriminate; try tauto.
  all: try (intros (? & ? & ? & ? & ?); discriminate).
  all: intros _; eexists; split; reflexivity.
Qed.

(** *** Login *)

(** A supplied field hands the trimmed text to its [validate_<field>], or
    fails with a message of its own. *)
Lemma run_field_supplied data validators validate :
  run_field (Some data) validators validate = validate (str_strip data)
  \/ exists message messages,
       run_field (Some data) validators validate = Raise (message :: messages).
Proof.
  unfold run_field.
  destruct (negb (truthy data) || negb (truthy (str_strip data))).
  - right. now eexists _, _.
  - match goal with
    | |- context [flat_map ?check validators] =>
        destruct (flat_map check validators)
    end.
    + now left.
    + right. now eexists _, _.
Qed.

(** A login that names an inactive account never validates.  The account
    a login names is the one whose stored email is the email of the body,
    trimmed by the field and lower-cased by [validate_email]. *)
Lemma login_of_inactive_is_invalid rows d e u :
  UserLoginSerializer.email d = Some e ->
  find (fun r => str_eqb (User.email r) (str_lower (str_strip e))) rows
    = Some u ->
  User.status u = STATUS_inactive ->
  exists errors,
    UserLoginSerializer.is_valid rows d = Raise errors /\ errors <> [].
Proof.
  intros Hemail Hfind Hstatus.
  unfold UserLoginSerializer.is_valid. rewrite Hemail.
  destruct (run_field_supplied e UserLoginSerializer.email_field
              UserLoginSerializer.validate_email) as [-> | (m & ms & ->)].
  - cbn [UserLoginSerializer.validate_email].
    destruct (run_field (UserLoginSerializer.password d) _ _) as [p | ?].
    + unfold UserLoginSerializer.validate, authenticate.
      rewrite Hfind.
      destruct (truthy (str_lower (str_strip e)) && truthy p);
        [| eexists; split; [reflexivity | discriminate]].
      destruct (User.check_password p u && User.is_active u);
        [rewrite Hstatus |];
        (eexists; split; [reflexivity | discriminate]).
    + eexists; split; [reflexivity | discriminate].
  - destruct (run_field (UserLoginSerializer.password d) _ _);
      (eexists; split; [reflexivity | discriminate]).
Qed.

(** C8.  A login request that names an account whose status is inactive
    is answered with the 400 validation error, whether or not the
    password verifies: the body carries the error map and no tokens, and
    the table (hence last_login) is left as it was.  The account a login
    names is the one stored under the email of the body as the serializer
    reads it: trimmed by the email field, then lower-cased. *)
Theorem login_of_inactive_account_rejected now cred user rows d e u :
  perform_authentication cred rows = (Ok user, rows) ->
  UserLoginSerializer.email d = Some e ->
  find (fun r => str_eqb (User.email r) (str_lower (str_strip e))) rows
    = Some u ->
  User.status u = STATUS_inactive ->
  exists errors,
    errors <> [] /\
    serve now cred (POST_auth_login d) rows =
      (Responded
         {| status_code := HTTP_400_BAD_REQUEST;
            data := JObj [("success"%string, JBool false);
                          ("message"%string, JStr (lit "Validation error"));
                          ("errors"%string, errors_json errors)] |},
       rows).
Proof.
  intros Hauth Hemail Hfind Hstatus.
  destruct (login_of_inactive_is_invalid rows d e u Hemail Hfind Hstatus)
    as (errors & Hinvalid & Hnonempty).
  exists errors. split; [assumption |].
  unfold serve.
  rewrite (dispatch_handler _ _ _ _ user Hauth) by reflexivity.
  cbn [handler_of]. unfold LoginView.post, bind, get.
  now rewrite Hinvalid.
Qed.

End Credentials.

(** ** Signup and the uniqueness of emails *)

Section Signup.
Context `{Externals}.

Lemma str_eqb_refl (s : str) : str_eqb s s = true.
Proof.
  induction s as [| c s IH]; [reflexivity |].
  simpl. now rewrite N.eqb_refl.
Qed.

Lemma str_eqb_eq (a b : str) : str_eqb a b = true <-> a = b.
Proof.
  split; [| intros ->; apply str_eqb_refl].
  revert b. induction a as [| x a IH]; intros [| y b]; simpl;
    try discriminate; [reflexivity |].
  rewrite andb_true_iff, N.eqb_eq. intros [-> Hab].
  now rewrite (IH b Hab).
Qed.

Lemma exists_filter_email rows u value :
  In u rows -> User.email u = value ->
  exists_ (filter_email value rows) = true.
Proof.
  intros Hin Hemail.
  assert (In u (filter_email value rows)) as Hfiltered.
  { apply filter_In. split; [assumption |]. rewrite Hemail.
    apply str_eqb_refl. }
  destruct (filter_email value rows); [destruct Hfiltered | reflexivity].
Qed.

(** The email field of a signup fails whenever the value, trimmed and
    lower-cased, is the stored email of a row. *)
Lemma signup_email_field_fails rows u value :
  In u rows -> User.email u = str_lower (str_strip value) ->
  exists messages,
    run_field (Some value) (UserSignupSerializer.email_field rows)
      (UserSignupSerializer.validate_email rows) = Raise messages.
Proof.
  intros Hin Hemail.
  destruct (run_field_supplied value (UserSignupSerializer.email_field rows)
              (UserSignupSerializer.validate_email rows))
    as [-> | (m & ms & ->)]; [| now eexists].
  unfold UserSignupSerializer.validate_email.
  destruct (re_match_email (str_strip value)); cbn [negb]; [| now eexists].
  rewrite (exists_filter_email rows u (str_lower (str_strip value)) Hin Hemail).
  now eexists.
Qed.

(** Where the stored email is lower-cased, the signup check does what is
    asked of it: a signup whose email (as the field trims it) equals the
    email of such an account up to letter case is answered with the 400
    validation error, the [email] field is among the keys of the error
    map, and no row is added. *)
Lemma signup_duplicate_rejected_when_stored_lowercase
    now cred user rows d value u :
  perform_authentication cred rows = (Ok user, rows) ->
  UserSignupSerializer.email d = Some value ->
  In u rows ->
  str_lower (str_strip value) = str_lower (User.email u) ->
  str_lower (User.email u) = User.email u ->
  exists errors,
    In "email"%string (map fst errors) /\
    serve now cred (POST_auth_signup d) rows =
      (Responded (validation_error errors), rows).
Proof.
  intros Hauth Hemail Hin Hsame Hstored.
  destruct (signup_email_field_fails rows u value Hin)
    as [messages Hfield]; [congruence |].
  assert (exists errors,
            UserSignupSerializer.is_valid rows d = Raise errors /\
            In "email"%string (map fst errors)) as (errors & Hinvalid & Hkey).
  { unfold UserSignupSerializer.is_valid. rewrite Hemail, Hfield.
    eexists. split; [reflexivity |]. simpl. now left. }
  exists errors. split; [assumption |].
  unfold serve.
  rewrite (dispatch_handler _ _ _ _ user Hauth) by reflexivity.
  cbn [handler_of]. unfold SignupView.post, bind, get.
  now rewrite Hinvalid.
Qed.

End Signup.


(** C2 (what the code does).  The table holds one account, with the email
    [Bob@example.com].  A signup for [bob@example.com], the same email up
    to letter case, is answered with status 201 and a second row is added
    for it: the check compares the lower-cased value with the stored
    emails exactly, and the stored one is not lower-cased. *)
Theorem signup_case_variant_creates_second_row :
  (exists u,
     seeded_table = [u] /\ User.email u = lit "Bob@example.com" /\
     str_lower (Externals := reference_externals) (lit "bob@example.com")
       = str_lower (Externals := reference_externals) (User.email u))
  /\
  exists response row,
    serve (H := reference_externals) 9 NoCredentials
      (POST_auth_signup case_variant_signup) seeded_table
      = (Responded response, seeded_table ++ [row]) /\
    status_code response = HTTP_201_CREATED /\
    User.email row = lit "bob@example.com".
Proof.
  split.
  - eexists. repeat split; reflexivity.
  - eexists. eexists. vm_compute. repeat split; reflexivity.
Qed.

(** ** Timestamps *)

Section Timestamps.
Context `{Externals}.


(** Every row after a [save] is an old row, an old row with the written
    columns taken from the instance, or (plain [save] only) the instance
    itself. *)
Lemma save_rows now update_fields self rows u' :
  In u' (snd (User.save now update_fields self rows)) ->
  In u' rows
  \/ (exists row, In row rows /\
        u' = User.copy_fields (written update_fields)
               (pre_saved now update_fields self) row)
  \/ (update_fields = None /\ u' = pre_saved now update_fields self).
Proof.
  unfold User.save, bind, get, put.
  fold (written update_fields). fold (pre_saved now update_fields self).
  set (self' := pre_saved now update_fields self).
  destruct (User.listed User.f_email (written update_fields)
            && User.email_taken self' rows); [now left |].
  destruct (existsb _ rows).
  - cbn [snd ret]. intros Hin. apply in_map_iff in Hin as (row & <- & Hrow).
    destruct (User.id row =? User.id self').
    + right; left. now exists row.
    + now left.
  - destruct update_fields as [fs |]; [now left |].
    cbn [snd ret]. intros Hin. apply in_app_or in Hin as [Hin | [<- | []]].
    + now left.
    + right; right. now split.
Qed.

Lemma insert_rows now self rows u' :
  In u' (snd (User.insert now self rows)) ->
  In u' rows \/ User.updated_at u' = now.
Proof.
  unfold User.insert, bind, get, put.
  destruct (existsb _ rows); [now left |].
  cbn [snd ret]. intros Hin. apply in_app_or in Hin as [Hin | [<- | []]].
  - now left.
  - now right.
Qed.

(** The table after a request is the old one, or what the handler left. *)
Lemma dispatch_table perms handler cred rows :
  snd (dispatch perms handler cred rows) = rows
  \/ exists user, snd (dispatch perms handler cred rows)
                  = snd (handler user rows).
Proof.
  unfold dispatch, bind.
  pose proof (perform_authentication_reads_only cred rows) as Hread.
  destruct (perform_authentication cred rows) as [[user | exc] rows0];
    cbn [snd] in Hread; subst rows0.
  - destruct (check_permissions perms user) as [[] | exc].
    + right. exists user.
      destruct (handler user rows) as [[response | exc] rows'];
        [reflexivity |].
      reflexivity.
    + left. unfold raise. reflexivity.
  - left. reflexivity.
Qed.

Lemma login_valid_in rows d user :
  UserLoginSerializer.is_valid rows d = Ok user -> In user rows.
Proof.
  unfold UserLoginSerializer.is_valid.
  destruct (run_field (UserLoginSerializer.email d) _ _) as [e | ?];
    [| now destruct (run_field (UserLoginSerializer.password d) _ _)].
  destruct (run_field (UserLoginSerializer.password d) _ _) as [p | ?];
    [| discriminate].
  unfold UserLoginSerializer.validate, authenticate.
  destruct (truthy e && truthy p); [| discriminate].
  destruct (find _ rows) as [u |] eqn:Hfind; [| discriminate].
  destruct (User.check_password p u && User.is_active u); [| discriminate].
  destruct (Status_eqb _ _); [discriminate |].
  intros [= <-]. now apply find_some in Hfind.
Qed.


Lemma handler_rows now request user rows u' :
  In u' (snd (handler_of now request user rows)) ->
  row_after now request rows u'.
Proof.
  unfold row_after.
  destruct request as [d | d | | | d | d | params | user_id | user_id | user_id];
    cbn [handler_of].
  - (* signup *)
    unfold SignupView.post, bind, get.
    destruct (UserSignupSerializer.is_valid rows d) as [v | errors];
      [| now left].
    unfold UserSignupSerializer.create, UserManager.create_user.
    destruct (negb (truthy _)); [now left |].
    match goal with
    | |- context [User.insert now ?self rows] =>
        pose proof (insert_rows now self rows u') as Hrows;
        destruct (User.insert now self rows) as [[user' | exc] rows']
    end; cbn [snd] in *; intros Hin; destruct (Hrows Hin); auto.
  - (* login *)
    unfold LoginView.post, bind, get.
    destruct (UserLoginSerializer.is_valid rows d) as [account | errors] eqn:Hvalid;
      [| now left].
    apply login_valid_in in Hvalid.
    unfold User.update_last_login.
    match goal with
    | |- context [User.save now ?fields ?self rows] =>
        pose proof (save_rows now fields self rows u') as Hrows;
        destruct (User.save now fields self rows) as [[user' | exc] rows']
    end; cbn [snd] in *; intros Hin;
      (destruct (Hrows Hin) as [Hold | [(row & Hrow & ->) | [[=] _]]];
       [now left |]);
      right; exists row; repeat split; assumption.
  - (* me *)
    unfold CurrentUserView.get, as_account, bind.
    destruct user; now left.
  - (* profile, read *)
    unfold UserProfileView.get, as_account, bind.
    destruct user; now left.
  - (* profile, update *)
    unfold UserProfileView.put, as_account, bind, read_table, get.
    destruct user as [| account]; [now left |]. cbn [ret].
    destruct (UserUpdateSerializer.is_valid rows account d) as [v | errors];
      [| now left].
    unfold UserUpdateSerializer.save.
    match goal with
    | |- context [User.save now None ?self rows] =>
        pose proof (save_rows now None self rows u') as Hrows;
        destruct (User.save now None self rows) as [[user' | exc] rows']
    end; cbn [snd] in *; intros Hin;
      (destruct (Hrows Hin) as [Hold | [(row & Hrow & ->) | [_ ->]]];
       [now left | right; reflexivity ..]).
  - (* change of password *)
    unfold ChangePasswordView.post, as_account, bind.
    destruct user as [| account]; [now left |]. cbn [ret].
    destruct (ChangePasswordSerializer.is_valid account d) as [p | errors];
      [| now left].
    match goal with
    | |- context [User.save now None ?self rows] =>
        pose proof (save_rows now None self rows u') as Hrows;
        destruct (User.save now None self rows) as [[user' | exc] rows']
    end; cbn [snd] in *; intros Hin;
      (destruct (Hrows Hin) as [Hold | [(row & Hrow & ->) | [_ ->]]];
       [now left | right; reflexivity ..]).
  - (* listing *)
    unfold AdminUserListView.list, AdminUserListView.get_queryset, bind, get.
    destruct (AdminUserListView.search params) as [search |].
    + destruct (truthy search); [now left |]. cbn [ret].
      unfold paginate.
      destruct (AdminUserListView.page params); cbn [raise ret];
        try (now left); destruct (_ || _); now left.
    + cbn [ret]. unfold paginate.
      destruct (AdminUserListView.page params); cbn [raise ret];
        try (now left); destruct (_ || _); now left.
  - (* detail *)
    unfold AdminUserDetailView.get, get_object_or_404, bind, get.
    destruct (find _ rows); now left.
  - (* activate *)
    unfold AdminActivateUserView.post, get_object_or_404, bind, get.
    destruct (find _ rows) as [target |]; [| now left]. cbn [ret].
    destruct (Status_eqb _ _); [now left |].
    unfold User.activate.
    match goal with
    | |- context [User.save now ?fields ?self rows] =>
        pose proof (save_rows now fields self rows u') as Hrows;
        destruct (User.save now fields self rows) as [[user' | exc] rows']
    end; cbn [snd] in *; intros Hin;
      (destruct (Hrows Hin) as [Hold | [(row & Hrow & ->) | [[=] _]]];
       [now left | right; reflexivity]).
  - (* deactivate *)
    unfold AdminDeactivateUserView.post, get_object_or_404, bind, get.
    destruct (find _ rows) as [target |]; [| now left]. cbn [ret].
    destruct (match AdminDeactivateUserView.request_user_id user with
              | Some i => User.id target =? i | None => false end);
      [now left |].
    destruct (Status_eqb _ _); [now left |].
    unfold User.deactivate.
    match goal with
    | |- context [User.save now ?fields ?self rows] =>
        pose proof (save_rows now fields self rows u') as Hrows;
        destruct (User.save now fields self rows) as [[user' | exc] rows']
    end; cbn [snd] in *; intros Hin;
      (destruct (Hrows Hin) as [Hold | [(row & Hrow & ->) | [[=] _]]];
       [now left | right; reflexivity]).
Qed.

(** C5, amended.  After any request served at time [now], every row of the
    table that was not there before has [updated_at = now] (a new account,
    or an account whose email, full name, password or status was written),
    except after a login: there it is an old row with only [last_login] set
    to [now], and [updated_at] as before. *)
Theorem updated_at_follows_mutations now cred request rows u' :
  In u' (snd (serve now cred request rows)) ->
  row_after now request rows u'.
Proof.
  unfold serve. intros Hin.
  destruct (dispatch_table (permission_classes_of request)
              (handler_of now request) cred rows) as [Hsame | [user Hrun]].
  - rewrite Hsame in Hin. now left.
  - rewrite Hrun in Hin. now apply handler_rows in Hin.
Qed.

End Timestamps.

(** ** The user projection and the password hash *)


Section Projection.
Context `{Externals}.

(** A change of rows that touches the password column only. *)
Variable f : User.t -> User.t.
Hypothesis f_password_only :
  forall r, f r = User.with_password (User.password (f r)) r.

Lemma kept_id r : User.id (f r) = User.id r.
Proof. now rewrite f_password_only. Qed.
Lemma kept_role r : User.role (f r) = User.role r.
Proof. now rewrite f_password_only. Qed.
Lemma kept_status r : User.status (f r) = User.status r.
Proof. now rewrite f_password_only. Qed.
Lemma kept_is_active r : User.is_active (f r) = User.is_active r.
Proof. now rewrite f_password_only. Qed.
Lemma kept_email r : User.email (f r) = User.email r.
Proof. now rewrite f_password_only. Qed.
Lemma kept_full_name r : User.full_name (f r) = User.full_name r.
Proof. now rewrite f_password_only. Qed.
Lemma kept_created_at r : User.created_at (f r) = User.created_at r.
Proof. now rewrite f_password_only. Qed.

Lemma kept_data r : UserSerializer.data (f r) = UserSerializer.data r.
Proof. now rewrite f_password_only. Qed.

Lemma find_by_id_map i rows :
  find (fun r => User.id r =? i) (map f rows)
  = option_map f (find (fun r => User.id r =? i) rows).
Proof.
  induction rows as [| r rows IH]; [reflexivity |].
  simpl. rewrite kept_id. now destruct (User.id r =? i).
Qed.

Lemma filter_map_commute (p : User.t -> bool) rows :
  (forall r, p (f r) = p r) ->
  filter p (map f rows) = map f (filter p rows).
Proof.
  intros Hp. induction rows as [| r rows IH]; [reflexivity |].
  simpl. rewrite Hp, IH. now destruct (p r).
Qed.

Lemma insert_newest_first_map u sorted :
  insert_newest_first (f u) (map f sorted)
  = map f (insert_newest_first u sorted).
Proof.
  induction sorted as [| v sorted IH]; [reflexivity |].
  simpl. rewrite !kept_created_at, IH.
  now destruct (User.created_at v <? User.created_at u).
Qed.

Lemma order_by_map rows :
  order_by_created_at_desc (map f rows)
  = map f (order_by_created_at_desc rows).
Proof.
  induction rows as [| r rows IH]; [reflexivity |].
  simpl. fold (order_by_created_at_desc (map f rows)).
  fold (order_by_created_at_desc rows).
  now rewrite IH, insert_newest_first_map.
Qed.

Lemma paginate_map {S : Type} page queryset (s : S) :
  paginate page (map f queryset) UserSerializer.data s
  = paginate page queryset UserSerializer.data s.
Proof.
  unfold paginate, slice. rewrite length_map.
  destruct page as [| | n |]; cbn beta iota; try reflexivity.
  all: match goal with
       | |- context [if ?c then _ else _] => destruct c; [reflexivity |]
       end.
  all: rewrite skipn_map, firstn_map, map_map.
  all: now rewrite (map_ext _ _ kept_data).
Qed.


Lemma perform_authentication_map cred rows :
  perform_authentication cred (map f rows)
  = match perform_authentication cred rows with
    | (Ok user, _) => (Ok (over_user f user), map f rows)
    | (Raise exc, _) => (Raise exc, map f rows)
    end.
Proof.
  destruct cred as [| | user_id]; try reflexivity.
  unfold perform_authentication, bind, get.
  rewrite find_by_id_map.
  destruct (find _ rows) as [u |]; [| reflexivity].
  cbn [option_map]. rewrite kept_is_active.
  now destruct (User.is_active u).
Qed.

Lemma check_permissions_map request user :
  check_permissions (permission_classes_of request) (over_user f user)
  = check_permissions (permission_classes_of request) user.
Proof.
  destruct user as [| u]; [reflexivity |].
  destruct request; cbn; rewrite ?kept_role, ?kept_status; reflexivity.
Qed.

Lemma get_queryset_map params rows :
  AdminUserListView.get_queryset params (map f rows)
  = match AdminUserListView.get_queryset params rows with
    | (Ok queryset, _) => (Ok (map f queryset), map f rows)
    | (Raise exc, _) => (Raise exc, map f rows)
    end.
Proof.
  unfold AdminUserListView.get_queryset, bind, get.
  rewrite order_by_map.
  destruct (AdminUserListView.option_in (AdminUserListView.status params) _),
    (AdminUserListView.option_in (AdminUserListView.role params) _).
  all: rewrite ?filter_map_commute
    by (intros r; cbn beta; now rewrite ?kept_status, ?kept_role).
  all: destruct (AdminUserListView.search params) as [search |];
    [| reflexivity].
  all: destruct (truthy search); reflexivity.
Qed.

(** The answer of a read handler does not change with the password
    column. *)
Lemma read_handler_map now request user rows :
  is_read request = true ->
  fst (handler_of now request (over_user f user) (map f rows))
  = fst (handler_of now request user rows).
Proof.
  destruct request as [d | d | | | d | d | params | user_id | user_id | user_id];
    try discriminate; intros _; cbn [handler_of].
  - unfold CurrentUserView.get, as_account, bind.
    destruct user as [| u]; [reflexivity |]. cbn. now rewrite kept_data.
  - unfold UserProfileView.get, as_account, bind.
    destruct user as [| u]; [reflexivity |]. cbn. now rewrite kept_data.
  - unfold AdminUserListView.list, bind.
    rewrite get_queryset_map.
    destruct (AdminUserListView.get_queryset params rows)
      as [[queryset | exc] rows0]; [| reflexivity].
    rewrite paginate_map.
    unfold paginate.
    destruct (AdminUserListView.page params); cbn beta iota;
      try reflexivity;
      match goal with
      | |- context [if ?c then _ else _] => destruct c; reflexivity
      end.
  - unfold AdminUserDetailView.get, get_object_or_404, bind, get.
    rewrite find_by_id_map.
    destruct (find _ rows) as [u |]; [| reflexivity].
    cbn. now rewrite kept_data.
Qed.

Lemma serve_read_map now cred request rows :
  is_read request = true ->
  fst (serve now cred request (map f rows))
  = fst (serve now cred request rows).
Proof.
  intros Hread. unfold serve, dispatch, bind.
  rewrite perform_authentication_map.
  pose proof (perform_authentication_reads_only cred rows) as Hrows.
  destruct (perform_authentication cred rows) as [[user | exc] rows0];
    cbn [snd] in Hrows; subst rows0.
  - rewrite check_permissions_map.
    destruct (check_permissions (permission_classes_of request) user)
      as [[] | exc].
    + pose proof (read_handler_map now request user rows Hread) as Hsame.
      destruct (handler_of now request (over_user f user) (map f rows))
        as [r1 rows1], (handler_of now request user rows) as [r2 rows2].
      cbn [fst] in Hsame. subst r2.
      destruct r1 as [response | exc]; [reflexivity |].
      reflexivity.
    + unfold raise. reflexivity.
  - reflexivity.
Qed.

End Projection.

Section HiddenHash.
Context `{Externals}.

(** C9.  The user projection has exactly the keys id, email, full_name,
    role, status, created_at, updated_at and last_login, so neither the
    password nor its hash is among them; and the answer of every read
    route is the same on two tables that differ only in the password hash
    of one account. *)
Theorem projection_hides_password_hash now cred request rows user_id hash :
  is_read request = true ->
  (forall u, exists kv,
      UserSerializer.data u = JObj kv /\
      keys kv = ["id"; "email"; "full_name"; "role"; "status"; "created_at";
                 "updated_at"; "last_login"]%string /\
      ~ In "password"%string (keys kv))
  /\ fst (serve now cred request (rehash user_id hash rows))
     = fst (serve now cred request rows).
Proof.
  intros Hread. split.
  - intros u. eexists. split; [reflexivity |]. split; [reflexivity |].
    cbn. intuition discriminate.
  - unfold rehash. apply serve_read_map; [| assumption].
    intros r. destruct (User.id r =? user_id); [reflexivity | now destruct r].
Qed.

End HiddenHash.

(** * The statements at concrete requests

    Each statement above that has premises is run here on the example
    table, with the reference collaborators; the two statements of the
    specification that the code does not meet as written are refuted on a
    concrete request. *)

Section Examples.
#[local] Existing Instance reference_externals.

Lemma search_listing_is_a_server_fault_witness :
  authenticated_as (AccessToken 1) example_table example_admin
  /\ User.role example_admin = ROLE_admin
  /\ AdminUserListView.search example_search = Some (lit "ann")
  /\ lit "ann" <> []
  /\ serve 9 (AccessToken 1) (GET_admin_users example_search) example_table
     = (Unhandled (NameError "models"), example_table).
Proof.
  assert (lit "ann" <> []) as Hnonempty by discriminate.
  split; [reflexivity |]. split; [reflexivity |]. split; [reflexivity |].
  split; [exact Hnonempty |].
  exact (search_listing_is_a_server_fault 9 (AccessToken 1) example_table
           example_admin example_search (lit "ann") eq_refl eq_refl eq_refl
           Hnonempty).
Defined.

Lemma self_deactivation_rejected_witness :
  authenticated_as (AccessToken 1) example_table example_admin
  /\ User.role example_admin = ROLE_admin
  /\ fst (serve 9 (AccessToken 1) (POST_admin_user_deactivate 1) example_table)
     = Responded
         {| status_code := 400;
            data := failure_plain
                      (lit "You cannot deactivate your own account.") |}
  /\ snd (serve 9 (AccessToken 1) (POST_admin_user_deactivate 1) example_table)
     = example_table.
Proof.
  pose proof (self_deactivation_rejected 9 (AccessToken 1) example_table
                example_admin eq_refl eq_refl) as Hserve.
  cbn [User.id example_admin example_account] in Hserve.
  rewrite Hserve. repeat split; reflexivity.
Defined.

Lemma repeated_transition_rejected_witness :
  (authenticated_as (AccessToken 1) example_table example_admin
   /\ User.role example_admin = ROLE_admin
   /\ find (fun r => User.id r =? 2) example_table = Some example_ann
   /\ User.status example_ann = STATUS_active
   /\ serve 9 (AccessToken 1) (POST_admin_user_activate 2) example_table
      = (Responded
           {| status_code := 400;
              data := failure_plain (lit "User is already active.") |},
         example_table))
  /\
  (authenticated_as (AccessToken 1) example_table example_admin
   /\ User.role example_admin = ROLE_admin
   /\ find (fun r => User.id r =? 3) example_table = Some example_joe
   /\ User.status example_joe = STATUS_inactive
   /\ User.id example_joe <> User.id example_admin
   /\ serve 9 (AccessToken 1) (POST_admin_user_deactivate 3) example_table
      = (Responded
           {| status_code := 400;
              data := failure_plain (lit "User is already inactive.") |},
         example_table)).
Proof.
  assert (User.id example_joe <> User.id example_admin) as Hother
    by discriminate.
  split.
  - do 4 (split; [reflexivity |]).
    exact (proj1 (repeated_transition_rejected (H := reference_externals))
             9 (AccessToken 1) example_table example_admin 2 example_ann
             eq_refl eq_refl eq_refl eq_refl).
  - do 4 (split; [reflexivity |]). split; [exact Hother |].
    exact (proj2 (repeated_transition_rejected (H := reference_externals))
             9 (AccessToken 1) example_table example_admin 3 example_joe
             eq_refl eq_refl eq_refl eq_refl Hother).
Defined.

Lemma inactive_admin_passes_admin_routes_witness :
  User.role example_eve = ROLE_admin
  /\ User.status example_eve = STATUS_inactive
  /\ check_permissions
       (permission_classes_of (POST_admin_user_deactivate 2))
       (Account example_eve) = Ok tt
  /\ has_permission IsActiveUser (Account example_eve) = false.
Proof.
  split; [reflexivity |]. split; [reflexivity |].
  apply (inactive_admin_passes_admin_routes example_eve
           (POST_admin_user_deactivate 2)); reflexivity.
Defined.

(** The inactive admin of the example table does deactivate an account. *)
Example inactive_admin_deactivates_ann :
  exists response rows',
    serve 9 (AccessToken 4) (POST_admin_user_deactivate 2) example_table
      = (Responded response, rows') /\
    status_code response = 200 /\
    option_map User.status (find (fun r => User.id r =? 2) rows')
      = Some STATUS_inactive.
Proof. do 2 eexists. vm_compute. repeat split; reflexivity. Qed.

(** C4, as stated, fails: a listing request without credentials is about a
    principal that is no admin, and it is answered with 401, not 403. *)
Lemma admin_route_without_credentials_is_401 :
  is_admin_route (GET_admin_users example_listing) = true
  /\ not_an_admin NoCredentials example_table
  /\ exists response,
       serve 9 NoCredentials (GET_admin_users example_listing) example_table
         = (Responded response, example_table) /\
       status_code response = HTTP_401_UNAUTHORIZED /\
       status_code response <> HTTP_403_FORBIDDEN.
Proof.
  split; [reflexivity |]. split.
  - intros u Hu. discriminate Hu.
  - eexists. split; [reflexivity |]. split; [reflexivity | discriminate].
Qed.

Lemma admin_routes_refuse_non_admins_witness :
  is_admin_route (GET_admin_user 1) = true
  /\ not_an_admin (AccessToken 2) example_table
  /\ exists response,
       serve 9 (AccessToken 2) (GET_admin_user 1) example_table
         = (Responded response, example_table) /\
       ((exists u, authenticated_as (AccessToken 2) example_table u) ->
        status_code response = HTTP_403_FORBIDDEN) /\
       ((forall u, ~ authenticated_as (AccessToken 2) example_table u) ->
        status_code response = HTTP_401_UNAUTHORIZED).
Proof.
  assert (not_an_admin (AccessToken 2) example_table) as Hnot.
  { intros u Hu. injection Hu as <-. discriminate. }
  split; [reflexivity |]. split; [exact Hnot |].
  apply (admin_routes_refuse_non_admins 9 (AccessToken 2) (GET_admin_user 1)
           example_table); [reflexivity | exact Hnot].
Defined.

(** C5, as stated, fails: the login of an account whose [updated_at] is 5,
    served at time 9, succeeds and sets [last_login] to 9, and the
    account's [updated_at] is still 5. *)
Lemma login_leaves_updated_at :
  exists response rows' u',
    serve 9 NoCredentials
      (POST_auth_login (example_login "ann@example.com" "Abcdef1!"))
      example_table = (Responded response, rows') /\
    status_code response = HTTP_200_OK /\
    find (fun r => User.id r =? 2) rows' = Some u' /\
    User.last_login u' = Some 9 /\
    User.updated_at u' = 5 /\
    User.updated_at u' <> 9.
Proof.
  do 3 eexists. vm_compute.
  repeat split; try reflexivity. discriminate.
Qed.

Lemma updated_at_follows_mutations_witness :
  In (User.with_updated_at 9 (User.with_status STATUS_active example_joe))
     (snd (serve 9 (AccessToken 1) (POST_admin_user_activate 3) example_table))
  /\ row_after 9 (POST_admin_user_activate 3) example_table
       (User.with_updated_at 9 (User.with_status STATUS_active example_joe)).
Proof.
  assert (In (User.with_updated_at 9
                (User.with_status STATUS_active example_joe))
             (snd (serve 9 (AccessToken 1) (POST_admin_user_activate 3)
                     example_table))) as Hin.
  { vm_compute. right; right; left. reflexivity. }
  split; [exact Hin |].
  exact (updated_at_follows_mutations 9 (AccessToken 1)
           (POST_admin_user_activate 3) example_table _ Hin).
Defined.

Lemma password_strength_rules_witness :
  password_validation (lit "Abcdef1!") = []
  /\ (UserSignupSerializer.validate_password (lit "Abcdef1!")
        = Ok (lit "Abcdef1!")
      <-> strength_rules (lit "Abcdef1!"))
  /\ UserSignupSerializer.validate_password (lit "Abcdef1!")
       = Ok (lit "Abcdef1!").
Proof.
  split; [reflexivity |].
  split; [| reflexivity].
  exact (proj1 (password_strength_rules (lit "Abcdef1!") eq_refl)).
Defined.

Lemma login_of_inactive_account_rejected_witness :
  perform_authentication NoCredentials example_table
    = (Ok AnonymousUser, example_table)
  /\ find (fun r => str_eqb (User.email r) (str_lower (lit "joe@example.com")))
       example_table = Some example_joe
  /\ User.status example_joe = STATUS_inactive
  /\ exists errors,
       errors <> [] /\
       serve 9 NoCredentials
         (POST_auth_login (example_login "joe@example.com" "Abcdef1!"))
         example_table
       = (Responded
            {| status_code := HTTP_400_BAD_REQUEST;
               data := JObj [("success"%string, JBool false);
                             ("message"%string, JStr (lit "Validation error"));
                             ("errors"%string, errors_json errors)] |},
          example_table).
Proof.
  split; [reflexivity |]. split; [reflexivity |]. split; [reflexivity |].
  apply (login_of_inactive_account_rejected 9 NoCredentials AnonymousUser
           example_table (example_login "joe@example.com" "Abcdef1!")
           (lit "joe@example.com") example_joe); reflexivity.
Defined.

Lemma projection_hides_password_hash_witness :
  is_read (GET_admin_user 2) = true
  /\ fst (serve 9 (AccessToken 1) (GET_admin_user 2)
            (rehash 2 (lit "hashed$Another2?") example_table))
     = fst (serve 9 (AccessToken 1) (GET_admin_user 2) example_table).
Proof.
  split; [reflexivity |].
  exact (proj2 (projection_hides_password_hash 9 (AccessToken 1)
                  (GET_admin_user 2) example_table 2
                  (lit "hashed$Another2?") eq_refl)).
Defined.

End Examples.

(** * Further properties of the code *)

(** ** Status transitions *)

Section Transitions.
Context `{Externals}.

Lemma save_status_columns now status target rows :
  In target rows ->
  User.save now (Some [User.f_status; User.f_updated_at])
    (User.with_status status target) rows
  = (Ok (User.with_updated_at now (User.with_status status target)),
     with_status_at (User.id target) status now rows).
Proof.
  intros Hin. unfold User.save, bind, get, put.
  cbn [User.listed existsb User.Field_eqb User.Field_index Nat.eqb orb andb].
  assert (existsb (fun r => User.id r =? User.id target) rows = true) as Hex.
  { apply existsb_exists. exists target. split; [assumption | apply Z.eqb_refl]. }
  cbn [User.id User.with_updated_at User.with_status].
  rewrite Hex. unfold ret, with_status_at. apply (f_equal (pair _)).
  apply map_ext. intros row. destruct (User.id row =? User.id target);
    reflexivity.
Qed.

Lemma activate_post_inactive now rows user_id target :
  find (fun r => User.id r =? user_id) rows = Some target ->
  User.status target = STATUS_inactive ->
  AdminActivateUserView.post now user_id rows =
    (Ok {| status_code := HTTP_200_OK;
           data := success_with
                     (lit "User " ++ User.email target ++
                      lit " has been activated successfully.")
                     [("user"%string,
                       UserSerializer.data
                         (User.with_updated_at now
                            (User.with_status STATUS_active target)))] |},
     with_status_at user_id STATUS_active now rows).
Proof.
  intros Hfind Hstatus.
  destruct (find_by_id_some _ _ _ Hfind) as [Hin Hid].
  unfold AdminActivateUserView.post, bind.
  rewrite (get_object_or_404_found _ _ _ Hfind), Hstatus.
  cbn [Status_eqb]. unfold User.activate.
  rewrite (save_status_columns now STATUS_active target rows Hin), Hid.
  reflexivity.
Qed.

Lemma deactivate_post_active now rows user_id target user :
  find (fun r => User.id r =? user_id) rows = Some target ->
  User.status target = STATUS_active ->
  AdminDeactivateUserView.request_user_id user <> Some (User.id target) ->
  AdminDeactivateUserView.post now user_id user rows =
    (Ok {| status_code := HTTP_200_OK;
           data := success_with
                     (lit "User " ++ User.email target ++
                      lit " has been deactivated successfully.")
                     [("user"%string,
                       UserSerializer.data
                         (User.with_updated_at now
                            (User.with_status STATUS_inactive target)))] |},
     with_status_at user_id STATUS_inactive now rows).
Proof.
  intros Hfind Hstatus Hother.
  destruct (find_by_id_some _ _ _ Hfind) as [Hin Hid].
  unfold AdminDeactivateUserView.post, bind.
  rewrite (get_object_or_404_found _ _ _ Hfind), Hstatus.
  assert (match AdminDeactivateUserView.request_user_id user with
          | Some i => User.id target =? i
          | None => false
          end = false) as ->.
  { destruct (AdminDeactivateUserView.request_user_id user) as [i |];
      [| reflexivity].
    apply Z.eqb_neq. congruence. }
  cbn [Status_eqb]. unfold User.deactivate.
  rewrite (save_status_columns now STATUS_inactive target rows Hin), Hid.
  reflexivity.
Qed.

(** X1.  An admin who activates an inactive account gets status 200 with
    the account's projection; in the table the account (every row of that
    id) has the status active and [updated_at = now], and nothing else has
    changed. *)
Theorem activation_takes_effect now cred rows admin user_id target :
  authenticated_as cred rows admin ->
  User.role admin = ROLE_admin ->
  find (fun r => User.id r =? user_id) rows = Some target ->
  User.status target = STATUS_inactive ->
  serve now cred (POST_admin_user_activate user_id) rows =
    (Responded
       {| status_code := HTTP_200_OK;
          data := success_with
                    (lit "User " ++ User.email target ++
                     lit " has been activated successfully.")
                    [("user"%string,
                      UserSerializer.data
                        (User.with_updated_at now
                           (User.with_status STATUS_active target)))] |},
     with_status_at user_id STATUS_active now rows).
Proof.
  intros Hauth Hrole Hfind Hstatus. unfold serve.
  rewrite (dispatch_handler _ _ _ _ _ Hauth
             (admin_passes_admin_permissions _ Hrole)).
  cbn [handler_of].
  now rewrite (activate_post_inactive now rows user_id target Hfind Hstatus).
Qed.

(** X2.  An admin who deactivates an active account other than its own
    gets status 200 with the account's projection; in the table the
    account has the status inactive and [updated_at = now], and nothing
    else has changed. *)
Theorem deactivation_takes_effect now cred rows admin user_id target :
  authenticated_as cred rows admin ->
  User.role admin = ROLE_admin ->
  find (fun r => User.id r =? user_id) rows = Some target ->
  User.status target = STATUS_active ->
  User.id target <> User.id admin ->
  serve now cred (POST_admin_user_deactivate user_id) rows =
    (Responded
       {| status_code := HTTP_200_OK;
          data := success_with
                    (lit "User " ++ User.email target ++
                     lit " has been deactivated successfully.")
                    [("user"%string,
                      UserSerializer.data
                        (User.with_updated_at now
                           (User.with_status STATUS_inactive target)))] |},
     with_status_at user_id STATUS_inactive now rows).
Proof.
  intros Hauth Hrole Hfind Hstatus Hother. unfold serve.
  rewrite (dispatch_handler _ _ _ _ _ Hauth
             (admin_passes_admin_permissions _ Hrole)).
  cbn [handler_of].
  rewrite (deactivate_post_active now rows user_id target (Account admin)
             Hfind Hstatus); [reflexivity |].
  cbn. congruence.
Qed.

(** Lookups by id and by email in a table whose rows were rewritten
    without touching the looked-up column. *)
Lemma find_by_id_rewritten (g : User.t -> User.t) i rows :
  (forall r, User.id (g r) = User.id r) ->
  find (fun r => User.id r =? i) (map g rows)
  = option_map g (find (fun r => User.id r =? i) rows).
Proof.
  intros Hid. induction rows as [| r rows IH]; [reflexivity |].
  simpl. rewrite Hid. now destruct (User.id r =? i).
Qed.

Lemma find_by_email_rewritten (g : User.t -> User.t) e rows :
  (forall r, User.email (g r) = User.email r) ->
  find (fun r => str_eqb (User.email r) e) (map g rows)
  = option_map g (find (fun r => str_eqb (User.email r) e) rows).
Proof.
  intros He. induction rows as [| r rows IH]; [reflexivity |].
  simpl. rewrite He. now destruct (str_eqb (User.email r) e).
Qed.

Lemma find_with_status_at i user_id status now rows :
  find (fun r => User.id r =? i) (with_status_at user_id status now rows)
  = option_map
      (fun row => if User.id row =? user_id
                  then User.with_updated_at now (User.with_status status row)
                  else row)
      (find (fun r => User.id r =? i) rows).
Proof.
  unfold with_status_at. apply find_by_id_rewritten.
  intros r. now destruct (User.id r =? user_id).
Qed.

(** An account other than the one in transition authenticates as before. *)
Lemma authenticated_as_with_status_at cred rows u user_id status now :
  authenticated_as cred rows u ->
  User.id u <> user_id ->
  authenticated_as cred (with_status_at user_id status now rows) u.
Proof.
  intros Hauth Hother.
  destruct (authenticated_as_inv _ _ _ Hauth) as (i & -> & Hfind & Hactive).
  destruct (find_by_id_some _ _ _ Hfind) as [_ Hid].
  unfold authenticated_as, perform_authentication, bind, get.
  rewrite find_with_status_at, Hfind. cbn [option_map].
  apply Z.eqb_neq in Hother. now rewrite Hother, Hactive.
Qed.

Lemma with_status_at_twice user_id s1 t1 s2 t2 rows :
  with_status_at user_id s2 t2 (with_status_at user_id s1 t1 rows)
  = with_status_at user_id s2 t2 rows.
Proof.
  unfold with_status_at. rewrite map_map. apply map_ext. intros row.
  destruct (User.id row =? user_id) eqn:Hid; cbn [User.id
    User.with_updated_at User.with_status]; now rewrite Hid.
Qed.

(** X3.  Deactivating an active account and then activating it again, by
    the same admin, succeeds both times and brings the account back as it
    was, but for [updated_at], which is the time of the second request. *)
Theorem deactivate_then_activate t1 t2 cred rows admin user_id target :
  authenticated_as cred rows admin ->
  User.role admin = ROLE_admin ->
  find (fun r => User.id r =? user_id) rows = Some target ->
  User.status target = STATUS_active ->
  User.id target <> User.id admin ->
  exists r1 r2 rows1 rows2,
    serve t1 cred (POST_admin_user_deactivate user_id) rows
      = (Responded r1, rows1) /\
    status_code r1 = HTTP_200_OK /\
    serve t2 cred (POST_admin_user_activate user_id) rows1
      = (Responded r2, rows2) /\
    status_code r2 = HTTP_200_OK /\
    find (fun r => User.id r =? user_id) rows2
      = Some (User.with_updated_at t2 target) /\
    rows2 = with_status_at user_id STATUS_active t2 rows.
Proof.
  intros Hauth Hrole Hfind Hstatus Hother.
  destruct (find_by_id_some _ _ _ Hfind) as [Hin Hid].
  set (rows1 := with_status_at user_id STATUS_inactive t1 rows).
  assert (authenticated_as cred rows1 admin) as Hauth1.
  { apply authenticated_as_with_status_at; [assumption | congruence]. }
  assert (find (fun r => User.id r =? user_id) rows1
          = Some (User.with_updated_at t1
                    (User.with_status STATUS_inactive target))) as Hfind1.
  { unfold rows1. rewrite find_with_status_at, Hfind. cbn [option_map].
    now rewrite Hid, Z.eqb_refl. }
  do 2 eexists. exists rows1, (with_status_at user_id STATUS_active t2 rows).
  split.
  { unfold serve.
    rewrite (dispatch_handler _ _ _ _ _ Hauth
               (admin_passes_admin_permissions _ Hrole)).
    cbn [handler_of].
    rewrite (deactivate_post_active t1 rows user_id target (Account admin)
               Hfind Hstatus); [reflexivity | cbn; congruence]. }
  split; [reflexivity |]. split.
  { unfold serve.
    rewrite (dispatch_handler _ _ _ _ _ Hauth1
               (admin_passes_admin_permissions _ Hrole)).
    cbn [handler_of].
    rewrite (activate_post_inactive t2 rows1 user_id _ Hfind1 eq_refl).
    unfold rows1. now rewrite with_status_at_twice. }
  split; [reflexivity |]. split; [| reflexivity].
  rewrite find_with_status_at, Hfind. cbn [option_map].
  rewrite Hid, Z.eqb_refl. destruct target. cbn in Hstatus. now subst.
Qed.

(** X4.  A request to a self-service route (me, profile, change of
    password) whose token resolves to an account with the inactive status
    is answered with status 403 and the message of the active-status
    permission; the table is untouched. *)
Theorem inactive_account_is_refused now cred rows u request :
  authenticated_as cred rows u ->
  User.status u = STATUS_inactive ->
  is_self_service request = true ->
  serve now cred request rows =
    (Responded
       {| status_code := HTTP_403_FORBIDDEN;
          data := error_envelope
                    (lit "Your account is inactive. Please contact an administrator.")
                    JNull |},
     rows).
Proof.
  intros Hauth Hstatus Hroute. unfold serve.
  rewrite (dispatch_refused _ _ _ _ (Account u)
             (PermissionDenied
                (lit "Your account is inactive. Please contact an administrator.")));
    [reflexivity | exact Hauth |].
  destruct request; try discriminate; cbn; now rewrite Hstatus.
Qed.

(** X5.  Once an admin has deactivated an account, the account is locked
    out: its unexpired token is refused with 403 on the self-service
    routes, and a login with its email (the email of the body, trimmed by
    the field and lower-cased, is the stored one) is answered with the 400
    validation error, whatever the password. *)
Theorem deactivation_locks_out
    t1 t2 cred rows admin user_id target request d e :
  authenticated_as cred rows admin ->
  User.role admin = ROLE_admin ->
  find (fun r => User.id r =? user_id) rows = Some target ->
  User.status target = STATUS_active ->
  User.id target <> User.id admin ->
  User.is_active target = true ->
  is_self_service request = true ->
  UserLoginSerializer.email d = Some e ->
  find (fun r => str_eqb (User.email r) (str_lower (str_strip e))) rows
    = Some target ->
  exists r1 rows1,
    serve t1 cred (POST_admin_user_deactivate user_id) rows
      = (Responded r1, rows1) /\
    (exists r2,
       serve t2 (AccessToken user_id) request rows1 = (Responded r2, rows1) /\
       status_code r2 = HTTP_403_FORBIDDEN) /\
    (exists errors,
       serve t2 NoCredentials (POST_auth_login d) rows1
         = (Responded (validation_error errors), rows1)).
Proof.
  intros Hauth Hrole Hfind Hstatus Hother Hactive Hroute Hemail Hlogin.
  destruct (find_by_id_some _ _ _ Hfind) as [Hin Hid].
  set (rows1 := with_status_at user_id STATUS_inactive t1 rows).
  set (target1 := User.with_updated_at t1
                    (User.with_status STATUS_inactive target)).
  eexists. exists rows1. split.
  { unfold serve.
    rewrite (dispatch_handler _ _ _ _ _ Hauth
               (admin_passes_admin_permissions _ Hrole)).
    cbn [handler_of].
    rewrite (deactivate_post_active t1 rows user_id target (Account admin)
               Hfind Hstatus); [reflexivity | cbn; congruence]. }
  split.
  - assert (authenticated_as (AccessToken user_id) rows1 target1) as Hauth1.
    { unfold authenticated_as, perform_authentication, bind, get, rows1.
      rewrite find_with_status_at, Hfind. cbn [option_map].
      rewrite Hid, Z.eqb_refl.
      cbn [User.is_active User.with_updated_at User.with_status].
      now rewrite Hactive. }
    exists {| status_code := HTTP_403_FORBIDDEN;
              data := error_envelope
                        (lit "Your account is inactive. Please contact an administrator.")
                        JNull |}.
    split; [| reflexivity]. unfold serve.
    rewrite (dispatch_refused _ _ _ _ (Account target1)
               (PermissionDenied
                  (lit "Your account is inactive. Please contact an administrator.")));
      [reflexivity | exact Hauth1 |].
    destruct request; try discriminate; reflexivity.
  - assert (find (fun r => str_eqb (User.email r) (str_lower (str_strip e)))
              rows1
            = Some target1) as Hlogin1.
    { unfold rows1, with_status_at.
      rewrite find_by_email_rewritten
        by (intros r; now destruct (User.id r =? user_id)).
      rewrite Hlogin. cbn [option_map]. now rewrite Hid, Z.eqb_refl. }
    destruct (login_of_inactive_is_invalid rows1 d e target1 Hemail Hlogin1
                eq_refl) as (errors & Hinvalid & _).
    exists errors. unfold serve.
    rewrite (dispatch_handler _ _ _ _ AnonymousUser) by reflexivity.
    cbn [handler_of]. unfold LoginView.post, bind, get.
    now rewrite Hinvalid.
Qed.

(** X6.  An admin request that names an account id that is not in the
    table (detail, activate, deactivate) is answered with status 404 and
    the message [Resource not found.]; the table is untouched. *)
Theorem unknown_account_is_not_found now cred rows admin request user_id :
  authenticated_as cred rows admin ->
  User.role admin = ROLE_admin ->
  names_account request user_id ->
  find (fun r => User.id r =? user_id) rows = None ->
  serve now cred request rows =
    (Responded
       {| status_code := HTTP_404_NOT_FOUND;
          data := error_envelope (lit "Resource not found.") JNull |},
     rows).
Proof.
  intros Hauth Hrole Hnames Hnone. unfold serve.
  assert (get_object_or_404 user_id rows = (Raise Http404, rows)) as H404.
  { unfold get_object_or_404, bind, get. now rewrite Hnone. }
  destruct Hnames as [-> | [-> | ->]];
    rewrite (dispatch_handler _ _ _ _ _ Hauth
               (admin_passes_admin_permissions _ Hrole));
    cbn [handler_of];
    unfold AdminUserDetailView.get, AdminActivateUserView.post,
      AdminDeactivateUserView.post, bind;
    rewrite H404; reflexivity.
Qed.

End Transitions.

(** ** The error envelope *)

Section Envelope.
Context `{Externals}.

(** X7.  Every response of the exception handler has the one envelope
    [{success: false, message, errors}]; [errors] is null unless the
    exception is a validation error or another API exception with a dict
    detail.  The two authentication errors get 401 whether or not the
    framework would have turned them into 403; every other exception
    keeps the status of the framework's response.  The handler declines
    (None) exactly the exceptions the framework's handler declines. *)
Theorem handled_errors_share_one_envelope exc response :
  custom_exception_handler exc = Ok (Some response) ->
  (exists message errors,
     data response = custom_response_data message errors /\
     ((forall detail, exc <> ValidationError detail) ->
      (forall status items, exc <> APIException status (JObj items)) ->
      errors = JNull))
  /\ ((exc = NotAuthenticated \/ exists detail, exc = AuthenticationFailed detail)
      -> status_code response = HTTP_401_UNAUTHORIZED)
  /\ (exc <> NotAuthenticated ->
      (forall detail, exc <> AuthenticationFailed detail) ->
      exists framework,
        exception_handler exc = Some framework /\
        status_code response = status_code framework)
  /\ (forall other,
        custom_exception_handler other = Ok None
        <-> exception_handler other = None).
Proof.
  intros Hhandled. repeat split.
  - unfold custom_exception_handler in Hhandled.
    destruct exc as [detail | detail | | detail | detail | status detail
                    | | message | | name | name | message | |];
      cbn in Hhandled; try discriminate.
    6: destruct detail as [| b | z | s | l | [| [key value] items]];
         [ | | | | | | destruct value as [| b | z | s | [| first l] | kv]];
         try discriminate.
    all: injection Hhandled as <-; cbn [data]; do 2 eexists;
      (split; [reflexivity |]); intros Hno1 Hno2;
      first [ reflexivity
            | exfalso; exact (Hno1 _ eq_refl)
            | exfalso; exact (Hno2 _ _ eq_refl) ].
  - intros [-> | [detail ->]]; cbn in Hhandled;
      injection Hhandled as <-; reflexivity.
  - intros Hnot1 Hnot2. unfold custom_exception_handler in Hhandled.
    destruct (exception_handler exc) as [framework |] eqn:Hframework;
      [| discriminate].
    exists framework. split; [reflexivity |].
    destruct exc as [detail | detail | | detail | detail | status detail
                    | | message | | name | name | message | |];
      cbn in Hframework, Hhandled; try discriminate; try congruence.
    all: try (exfalso; exact (Hnot2 _ eq_refl)).
    all: try (injection Hframework as <-; now injection Hhandled as <-).
    destruct detail as [| b | z | s | l | [| [key value] items]];
      [ | | | | | | destruct value as [| b | z | s | [| first l] | kv]];
      try discriminate.
    all: injection Hframework as <-; now injection Hhandled as <-.
  - unfold custom_exception_handler.
    destruct (exception_handler other) eqn:Hframework;
      [| reflexivity].
    intros Hnone. exfalso.
    destruct other as [detail | detail | | detail | detail | status detail
                      | | message | | name | name | message | |];
      try discriminate.
    destruct detail as [| b | z | s | l | [| [key value] items]];
      try discriminate.
    destruct value as [| b | z | s | [| first l] | kv]; discriminate.
  - unfold custom_exception_handler. intros ->. reflexivity.
Qed.

End Envelope.

(** ** Login *)

Section Login.
Context `{Externals}.

Lemma save_last_login now u rows :
  In u rows ->
  User.save now (Some [User.f_last_login]) (User.with_last_login (Some now) u)
    rows
  = (Ok (User.with_last_login (Some now) u),
     with_last_login_at (User.id u) now rows).
Proof.
  intros Hin. unfold User.save, bind, get, put.
  cbn [User.listed existsb User.Field_eqb User.Field_index Nat.eqb orb andb].
  assert (existsb (fun r => User.id r =? User.id u) rows = true) as Hex.
  { apply existsb_exists. exists u. split; [assumption | apply Z.eqb_refl]. }
  cbn [User.id User.with_last_login].
  rewrite Hex. unfold ret, with_last_login_at. apply (f_equal (pair _)).
  apply map_ext. intros row. destruct (User.id row =? User.id u);
    reflexivity.
Qed.

Lemma run_field_accepts data validators validate :
  field_accepts validators data ->
  run_field (Some data) validators validate = validate (str_strip data).
Proof.
  intros (Hdata & Htrimmed & Hchecks). unfold run_field.
  rewrite (truthy_nonempty _ Hdata), (truthy_nonempty _ Htrimmed).
  cbn [negb orb]. cbv zeta. unfold validator in *. now rewrite Hchecks.
Qed.

Lemma login_is_valid_accepts rows d e p u :
  UserLoginSerializer.email d = Some e ->
  UserLoginSerializer.password d = Some p ->
  field_accepts UserLoginSerializer.email_field e ->
  field_accepts UserLoginSerializer.password_field p ->
  str_lower (str_strip e) <> [] ->
  find (fun r => str_eqb (User.email r) (str_lower (str_strip e))) rows
    = Some u ->
  User.check_password (str_strip p) u = true ->
  User.is_active u = true ->
  User.status u = STATUS_active ->
  UserLoginSerializer.is_valid rows d = Ok u.
Proof.
  intros Hemail Hpassword He Hp Hlower Hfind Hcheck Hactive Hstatus.
  unfold UserLoginSerializer.is_valid. rewrite Hemail, Hpassword.
  rewrite (run_field_accepts _ _ _ He), (run_field_accepts _ _ _ Hp).
  cbn [UserLoginSerializer.validate_email].
  unfold UserLoginSerializer.validate, authenticate.
  destruct Hp as (_ & Hp & _).
  rewrite (truthy_nonempty _ Hlower), (truthy_nonempty _ Hp), Hfind.
  cbn beta iota. rewrite Hcheck, Hactive. cbn [andb]. now rewrite Hstatus.
Qed.

Lemma login_is_valid_rejects rows d e p :
  UserLoginSerializer.email d = Some e ->
  UserLoginSerializer.password d = Some p ->
  field_accepts UserLoginSerializer.email_field e ->
  field_accepts UserLoginSerializer.password_field p ->
  str_lower (str_strip e) <> [] ->
  (find (fun r => str_eqb (User.email r) (str_lower (str_strip e))) rows
     = None
   \/ exists u,
        find (fun r => str_eqb (User.email r) (str_lower (str_strip e))) rows
          = Some u /\
        (User.check_password (str_strip p) u = false
         \/ User.is_active u = false)) ->
  UserLoginSerializer.is_valid rows d
  = Raise [("detail"%string, [lit "Invalid email or password."])].
Proof.
  intros Hemail Hpassword He Hp Hlower Hfail.
  unfold UserLoginSerializer.is_valid. rewrite Hemail, Hpassword.
  rewrite (run_field_accepts _ _ _ He), (run_field_accepts _ _ _ Hp).
  cbn [UserLoginSerializer.validate_email].
  unfold UserLoginSerializer.validate, authenticate.
  destruct Hp as (_ & Hp & _).
  rewrite (truthy_nonempty _ Hlower), (truthy_nonempty _ Hp). cbn [andb].
  destruct Hfail as [-> | (u & -> & [Hcheck | Hactive])]; cbn beta iota.
  - reflexivity.
  - now rewrite Hcheck.
  - rewrite Hactive. now rewrite andb_false_r.
Qed.

Lemma login_post_valid now rows d u :
  UserLoginSerializer.is_valid rows d = Ok u ->
  LoginView.post now d rows =
    (Ok {| status_code := HTTP_200_OK;
           data := success_with (lit "Login successful.")
                     [("user"%string,
                       UserSerializer.data
                         (User.with_last_login (Some now) u));
                      ("tokens"%string,
                       get_tokens_for_user now
                         (User.with_last_login (Some now) u))] |},
     with_last_login_at (User.id u) now rows).
Proof.
  intros Hvalid. unfold LoginView.post, bind, get. rewrite Hvalid.
  unfold User.update_last_login.
  now rewrite (save_last_login now u rows (login_valid_in _ _ _ Hvalid)).
Qed.

(** X8.  A login whose email and password the two fields take, with the
    email of an active account (the stored email is the text of the body,
    trimmed by the field and lower-cased) and a password that verifies
    (the text of the body, trimmed by the field), is answered with status
    200, the account's projection and a token pair; in the table the
    account has [last_login = now], and nothing else has changed. *)
Theorem login_takes_effect now cred user rows d e p u :
  perform_authentication cred rows = (Ok user, rows) ->
  UserLoginSerializer.email d = Some e ->
  UserLoginSerializer.password d = Some p ->
  field_accepts UserLoginSerializer.email_field e ->
  field_accepts UserLoginSerializer.password_field p ->
  str_lower (str_strip e) <> [] ->
  find (fun r => str_eqb (User.email r) (str_lower (str_strip e))) rows
    = Some u ->
  User.check_password (str_strip p) u = true ->
  User.is_active u = true ->
  User.status u = STATUS_active ->
  serve now cred (POST_auth_login d) rows =
    (Responded
       {| status_code := HTTP_200_OK;
          data := success_with (lit "Login successful.")
                    [("user"%string,
                      UserSerializer.data
                        (User.with_last_login (Some now) u));
                     ("tokens"%string,
                      get_tokens_for_user now
                        (User.with_last_login (Some now) u))] |},
     with_last_login_at (User.id u) now rows).
Proof.
  intros Hauth Hemail Hpassword He Hp Hlower Hfind Hcheck Hactive Hstatus.
  unfold serve.
  rewrite (dispatch_handler _ _ _ _ user Hauth) by reflexivity.
  cbn [handler_of].
  now rewrite (login_post_valid now rows d u
                 (login_is_valid_accepts rows d e p u Hemail Hpassword He Hp
                    Hlower Hfind Hcheck Hactive Hstatus)).
Qed.

(** X9.  Among the logins whose email and password the two fields take:
    a login for an email that no account has, and a login with a password
    that does not verify (or for an account whose Django flag [is_active]
    is off), get the same answer: status 400 with the one message
    [Invalid email or password.]; the table is untouched.  The email and
    the password are the texts of the body as the fields trim them, the
    email lower-cased. *)
Theorem login_failures_look_alike now cred user rows d e p :
  perform_authentication cred rows = (Ok user, rows) ->
  UserLoginSerializer.email d = Some e ->
  UserLoginSerializer.password d = Some p ->
  field_accepts UserLoginSerializer.email_field e ->
  field_accepts UserLoginSerializer.password_field p ->
  str_lower (str_strip e) <> [] ->
  (find (fun r => str_eqb (User.email r) (str_lower (str_strip e))) rows
     = None
   \/ exists u,
        find (fun r => str_eqb (User.email r) (str_lower (str_strip e))) rows
          = Some u /\
        (User.check_password (str_strip p) u = false
         \/ User.is_active u = false)) ->
  serve now cred (POST_auth_login d) rows =
    (Responded
       (validation_error
          [("detail"%string, [lit "Invalid email or password."])]),
     rows).
Proof.
  intros Hauth Hemail Hpassword He Hp Hlower Hfail.
  unfold serve.
  rewrite (dispatch_handler _ _ _ _ user Hauth) by reflexivity.
  cbn [handler_of]. unfold LoginView.post, bind, get.
  now rewrite (login_is_valid_rejects rows d e p Hemail Hpassword He Hp
                 Hlower Hfail).
Qed.

End Login.

(** ** Writes of a whole instance *)

Section WholeSave.
Context `{Externals}.

Lemma exists_filter_false (p : User.t -> bool) rows :
  (forall r, In r rows -> p r = false) -> exists_ (filter p rows) = false.
Proof.
  intros Hp. induction rows as [| r rows IH]; [reflexivity |].
  simpl. rewrite (Hp r) by now left. apply IH. intros r' Hin.
  apply Hp. now right.
Qed.

Lemma str_eqb_neq (a b : str) : a <> b -> str_eqb a b = false.
Proof.
  intros Hneq. destruct (str_eqb a b) eqn:Heq; [| reflexivity].
  apply str_eqb_eq in Heq. contradiction.
Qed.

(** In a consistent table the rows are told apart by their id and by
    their email. *)
Lemma consistent_same_id rows r u :
  consistent rows -> In r rows -> In u rows -> User.id r = User.id u -> r = u.
Proof.
  intros [Hids _]. revert Hids.
  induction rows as [| x rows IH]; [intros _ [] |].
  cbn [map]. intros Hnodup. apply NoDup_cons_iff in Hnodup as [Hnotin Hrest].
  intros [-> | Hr] [-> | Hu] Hsame.
  - reflexivity.
  - exfalso. apply Hnotin. rewrite Hsame. now apply in_map.
  - exfalso. apply Hnotin. rewrite <- Hsame. now apply in_map.
  - now apply IH.
Qed.

Lemma consistent_same_email rows r u :
  consistent rows -> In r rows -> In u rows ->
  User.email r = User.email u -> r = u.
Proof.
  intros [_ Hemails]. revert Hemails.
  induction rows as [| x rows IH]; [intros _ [] |].
  cbn [map]. intros Hnodup. apply NoDup_cons_iff in Hnodup as [Hnotin Hrest].
  intros [-> | Hr] [-> | Hu] Hsame.
  - reflexivity.
  - exfalso. apply Hnotin. rewrite Hsame. now apply in_map.
  - exfalso. apply Hnotin. rewrite <- Hsame. now apply in_map.
  - now apply IH.
Qed.

Lemma email_not_taken rows self :
  (forall r, In r rows -> User.id r <> User.id self ->
     User.email r <> User.email self) ->
  User.email_taken self rows = false.
Proof.
  intros Hfree. unfold User.email_taken.
  apply not_true_is_false. intros Htaken.
  apply existsb_exists in Htaken as (r & Hin & Hr).
  apply andb_true_iff in Hr as [Hid Hemail].
  apply negb_true_iff, Z.eqb_neq in Hid. apply str_eqb_eq in Hemail.
  exact (Hfree r Hin Hid Hemail).
Qed.

Lemma copy_concrete_fields src dst :
  User.copy_fields User.concrete_fields src dst
  = User.with_id (User.id dst) src.
Proof. reflexivity. Qed.

(** A plain [save()] of an instance that was loaded from the table and
    whose email no other row holds: the row of that id becomes the
    instance, with [updated_at = now]. *)
Lemma save_whole now self u rows :
  In u rows ->
  User.id self = User.id u ->
  (forall r, In r rows -> User.id r <> User.id u ->
     User.email r <> User.email self) ->
  User.save now None self rows
  = (Ok (User.with_updated_at now self),
     with_row (User.id u) (User.with_updated_at now self) rows).
Proof.
  intros Hin Hid Hfree. unfold User.save, bind, get, put.
  cbn [User.listed User.concrete_fields existsb User.Field_eqb
       User.Field_index Nat.eqb orb andb].
  rewrite email_not_taken
    by (cbn [User.id User.email User.with_updated_at]; rewrite Hid;
        exact Hfree).
  cbn [User.id User.with_updated_at]. rewrite Hid.
  assert (existsb (fun r => User.id r =? User.id u) rows = true) as ->.
  { apply existsb_exists. exists u. split; [assumption | apply Z.eqb_refl]. }
  unfold ret, with_row. apply (f_equal (pair _)).
  apply map_ext. intros row.
  destruct (User.id row =? User.id u) eqn:Hrow; [| reflexivity].
  apply Z.eqb_eq in Hrow.
  change (User.copy_fields User.concrete_fields
            (User.with_updated_at now self) row
          = User.with_updated_at now self).
  rewrite copy_concrete_fields, Hrow, <- Hid. now destruct self.
Qed.

Lemma active_passes_self_service u request :
  User.status u = STATUS_active ->
  is_self_service request = true ->
  check_permissions (permission_classes_of request) (Account u) = Ok tt.
Proof.
  intros Hstatus Hroute.
  destruct request; try discriminate; cbn; now rewrite Hstatus.
Qed.

End WholeSave.

(** ** Change of password *)

Section ChangePassword.
Context `{Externals}.

Lemma validate_new_password_accepts value :
  strength_rules value ->
  password_validation value = [] ->
  ChangePasswordSerializer.validate_new_password value = Ok value
  /\ min_length 8 value = [].
Proof.
  intros Hrules Hpolicy.
  apply strength_rules_checks in Hrules
    as (Hlen & Hupper & Hlower & Hdigit & Hspecial).
  unfold ChangePasswordSerializer.validate_new_password, min_length.
  now rewrite Hlen, Hupper, Hlower, Hdigit, Hspecial, Hpolicy.
Qed.

Lemma authenticated_as_in cred rows u :
  authenticated_as cred rows u -> In u rows /\ User.is_active u = true.
Proof.
  intros Hauth.
  destruct (authenticated_as_inv _ _ _ Hauth) as (i & _ & Hfind & Hactive).
  split; [| assumption]. now apply find_some in Hfind.
Qed.

(** The text a field hands on is taken as well by a field with fewer
    validators. *)
Lemma char_field_accepts min max data :
  field_accepts (CharField min max) data ->
  field_accepts (CharField None None) data.
Proof.
  intros (Hdata & Htrimmed & Hchecks). split; [assumption |].
  split; [assumption |].
  unfold CharField in *. rewrite !flat_map_app in Hchecks.
  apply app_eq_nil in Hchecks as [_ Hchecks].
  now apply app_eq_nil in Hchecks as [_ Hchecks].
Qed.

Lemma change_password_is_valid u current new confirm :
  field_accepts ChangePasswordSerializer.current_password_field current ->
  field_accepts ChangePasswordSerializer.new_password_field new ->
  field_accepts ChangePasswordSerializer.confirm_new_password_field confirm ->
  User.check_password (str_strip current) u = true ->
  strength_rules (str_strip new) ->
  password_validation (str_strip new) = [] ->
  str_strip confirm = str_strip new ->
  str_strip current <> str_strip new ->
  ChangePasswordSerializer.is_valid u
    {| ChangePasswordSerializer.current_password := Some current;
       ChangePasswordSerializer.new_password := Some new;
       ChangePasswordSerializer.confirm_new_password := Some confirm |}
  = Ok (str_strip new).
Proof.
  intros Hcurrent Hnew Hconfirm Hcheck Hrules Hpolicy Hsame Hdiffer.
  destruct (validate_new_password_accepts _ Hrules Hpolicy) as [Hvalid _].
  unfold ChangePasswordSerializer.is_valid.
  cbn [ChangePasswordSerializer.current_password
       ChangePasswordSerializer.new_password
       ChangePasswordSerializer.confirm_new_password].
  rewrite (run_field_accepts _ _ _ Hcurrent), (run_field_accepts _ _ _ Hnew),
    (run_field_accepts _ _ _ Hconfirm).
  unfold ChangePasswordSerializer.validate_current_password.
  rewrite Hcheck, Hvalid. cbn [negb].
  unfold ChangePasswordSerializer.validate.
  now rewrite Hsame, str_eqb_refl, (str_eqb_neq _ _ Hdiffer).
Qed.

Lemma change_password_post now cred rows u current new confirm :
  authenticated_as cred rows u ->
  consistent rows ->
  field_accepts ChangePasswordSerializer.current_password_field current ->
  field_accepts ChangePasswordSerializer.new_password_field new ->
  field_accepts ChangePasswordSerializer.confirm_new_password_field confirm ->
  User.check_password (str_strip current) u = true ->
  strength_rules (str_strip new) ->
  password_validation (str_strip new) = [] ->
  str_strip confirm = str_strip new ->
  str_strip current <> str_strip new ->
  ChangePasswordView.post now
    {| ChangePasswordSerializer.current_password := Some current;
       ChangePasswordSerializer.new_password := Some new;
       ChangePasswordSerializer.confirm_new_password := Some confirm |}
    (Account u) rows
  = (Ok {| status_code := HTTP_200_OK;
           data := success_plain (lit "Password changed successfully.") |},
     with_row (User.id u)
       (User.with_updated_at now
          (User.with_password (make_password (str_strip new)) u)) rows).
Proof.
  intros Hauth Hcons Hcurrent Hnew Hconfirm Hcheck Hrules Hpolicy Hsame
    Hdiffer.
  destruct (authenticated_as_in _ _ _ Hauth) as [Hin _].
  unfold ChangePasswordView.post, as_account, bind. cbn [ret].
  rewrite (change_password_is_valid u current new confirm Hcurrent Hnew
             Hconfirm Hcheck Hrules Hpolicy Hsame Hdiffer).
  unfold User.set_password.
  rewrite (save_whole now
             (User.with_password (make_password (str_strip new)) u) u rows
             Hin eq_refl); [reflexivity |].
  intros r Hr Hother Hsame'. apply Hother.
  now rewrite (consistent_same_email rows r u Hcons Hr Hin Hsame').
Qed.

(** X10.  A change of password by an active account whose three texts
    the fields take, with the current password verifying, a new password
    that meets the strength rules and the policy, differs from the current
    one and is confirmed, is answered with status 200; in the table the
    account's hash is the hash of the new password and [updated_at = now],
    and nothing else has changed.  Each password is the text of the body
    as its field trims it. *)
Theorem password_change_takes_effect now cred rows u current new confirm :
  authenticated_as cred rows u ->
  User.status u = STATUS_active ->
  consistent rows ->
  field_accepts ChangePasswordSerializer.current_password_field current ->
  field_accepts ChangePasswordSerializer.new_password_field new ->
  field_accepts ChangePasswordSerializer.confirm_new_password_field confirm ->
  User.check_password (str_strip current) u = true ->
  strength_rules (str_strip new) ->
  password_validation (str_strip new) = [] ->
  str_strip confirm = str_strip new ->
  str_strip current <> str_strip new ->
  serve now cred
    (POST_users_change_password
       {| ChangePasswordSerializer.current_password := Some current;
          ChangePasswordSerializer.new_password := Some new;
          ChangePasswordSerializer.confirm_new_password := Some confirm |})
    rows
  = (Responded
       {| status_code := HTTP_200_OK;
          data := success_plain (lit "Password changed successfully.") |},
     with_row (User.id u)
       (User.with_updated_at now
          (User.with_password (make_password (str_strip new)) u)) rows).
Proof.
  intros Hauth Hstatus Hcons Hcurrent Hnew Hconfirm Hcheck Hrules Hpolicy
    Hsame Hdiffer.
  unfold serve.
  rewrite (dispatch_handler _ _ _ _ _ Hauth
             (active_passes_self_service u
                (POST_users_change_password _) Hstatus eq_refl)).
  cbn [handler_of].
  now rewrite (change_password_post now cred rows u current new confirm
                 Hauth Hcons Hcurrent Hnew Hconfirm Hcheck Hrules Hpolicy
                 Hsame Hdiffer).
Qed.

(** X11.  A change of password whose current password (the text of the
    body as the field trims it) does not verify is answered with the 400
    validation error, with [current_password] among the fields of the
    error map, whatever the new password is; the table is untouched. *)
Theorem password_change_needs_current_password now cred rows u d current :
  authenticated_as cred rows u ->
  User.status u = STATUS_active ->
  ChangePasswordSerializer.current_password d = Some current ->
  User.check_password (str_strip current) u = false ->
  exists errors,
    In "current_password"%string (map fst errors) /\
    serve now cred (POST_users_change_password d) rows
      = (Responded (validation_error errors), rows).
Proof.
  intros Hauth Hstatus Hcurrent Hcheck.
  assert (exists errors,
            ChangePasswordSerializer.is_valid u d = Raise errors /\
            In "current_password"%string (map fst errors))
    as (errors & Hinvalid & Hkey).
  { unfold ChangePasswordSerializer.is_valid. rewrite Hcurrent.
    assert (exists messages,
              run_field (Some current)
                ChangePasswordSerializer.current_password_field
                (ChangePasswordSerializer.validate_current_password u)
              = Raise messages) as [messages ->].
    { destruct (run_field_supplied current
                  ChangePasswordSerializer.current_password_field
                  (ChangePasswordSerializer.validate_current_password u))
        as [-> | (m & ms & ->)]; [| now eexists].
      unfold ChangePasswordSerializer.validate_current_password.
      rewrite Hcheck. now eexists. }
    eexists. split; [reflexivity |]. cbn. now left. }
  exists errors. split; [assumption |]. unfold serve.
  rewrite (dispatch_handler _ _ _ _ _ Hauth
             (active_passes_self_service u
                (POST_users_change_password _) Hstatus eq_refl)).
  cbn [handler_of]. unfold ChangePasswordView.post, as_account, bind.
  cbn [ret]. now rewrite Hinvalid.
Qed.

(** X12.  A change of password to the current password itself (the three
    texts of the body are the same once their fields have trimmed them)
    is refused, however strong that password is: status 400 with the one
    message on [new_password], and the table is untouched. *)
Theorem password_change_must_differ now cred rows u current new confirm :
  authenticated_as cred rows u ->
  User.status u = STATUS_active ->
  field_accepts ChangePasswordSerializer.current_password_field current ->
  field_accepts ChangePasswordSerializer.new_password_field new ->
  field_accepts ChangePasswordSerializer.confirm_new_password_field confirm ->
  User.check_password (str_strip current) u = true ->
  strength_rules (str_strip new) ->
  password_validation (str_strip new) = [] ->
  str_strip confirm = str_strip new ->
  str_strip current = str_strip new ->
  serve now cred
    (POST_users_change_password
       {| ChangePasswordSerializer.current_password := Some current;
          ChangePasswordSerializer.new_password := Some new;
          ChangePasswordSerializer.confirm_new_password := Some confirm |})
    rows
  = (Responded
       (validation_error
          [("new_password"%string,
            [lit "New password must be different from current password."])]),
     rows).
Proof.
  intros Hauth Hstatus Hcurrent Hnew Hconfirm Hcheck Hrules Hpolicy Hsame
    Hequal.
  destruct (validate_new_password_accepts _ Hrules Hpolicy) as [Hvalid _].
  unfold serve.
  rewrite (dispatch_handler _ _ _ _ _ Hauth
             (active_passes_self_service u
                (POST_users_change_password _) Hstatus eq_refl)).
  cbn [handler_of]. unfold ChangePasswordView.post, as_account, bind.
  cbn [ret].
  unfold ChangePasswordSerializer.is_valid.
  cbn [ChangePasswordSerializer.current_password
       ChangePasswordSerializer.new_password
       ChangePasswordSerializer.confirm_new_password].
  rewrite (run_field_accepts _ _ _ Hcurrent), (run_field_accepts _ _ _ Hnew),
    (run_field_accepts _ _ _ Hconfirm).
  unfold ChangePasswordSerializer.validate_current_password.
  rewrite Hcheck, Hvalid. cbn [negb].
  unfold ChangePasswordSerializer.validate.
  now rewrite Hsame, Hequal, !str_eqb_refl.
Qed.

(** The account that holds an email, in a consistent table where the row
    of account [u] was replaced by one with the same email. *)
Lemma find_by_email_with_row rows u u' :
  consistent rows ->
  In u rows ->
  User.email u' = User.email u ->
  find (fun r => str_eqb (User.email r) (User.email u))
    (with_row (User.id u) u' rows) = Some u'.
Proof.
  intros Hcons Hin Hemail. unfold with_row.
  induction rows as [| x rows IH]; [destruct Hin |].
  cbn [map find].
  destruct (User.id x =? User.id u) eqn:Hid.
  - now rewrite Hemail, str_eqb_refl.
  - apply Z.eqb_neq in Hid.
    destruct Hin as [-> | Hin]; [congruence |].
    rewrite str_eqb_neq.
    + apply IH; [| assumption].
      destruct Hcons as [Hids Hemails]. cbn [map] in Hids, Hemails.
      apply NoDup_cons_iff in Hids as [_ Hids].
      apply NoDup_cons_iff in Hemails as [_ Hemails]. now split.
    + intros Hsame. apply Hid. f_equal.
      apply (consistent_same_email (x :: rows) x u Hcons);
        [now left | now right | assumption].
Qed.

(** X13.  After a successful change of password, and with a hasher under
    which the new password verifies against its own hash and the old one
    does not, a login with the new password succeeds and a login with the
    old password is answered with [Invalid email or password.].  The
    passwords and the email are the texts of the bodies as the fields trim
    them, the email lower-cased. *)
Theorem password_change_then_login
    t1 t2 cred rows u current new confirm e :
  authenticated_as cred rows u ->
  User.status u = STATUS_active ->
  consistent rows ->
  field_accepts ChangePasswordSerializer.current_password_field current ->
  field_accepts ChangePasswordSerializer.new_password_field new ->
  field_accepts ChangePasswordSerializer.confirm_new_password_field confirm ->
  User.check_password (str_strip current) u = true ->
  strength_rules (str_strip new) ->
  password_validation (str_strip new) = [] ->
  str_strip confirm = str_strip new ->
  str_strip current <> str_strip new ->
  check_password (str_strip new) (make_password (str_strip new)) = true ->
  check_password (str_strip current) (make_password (str_strip new)) = false ->
  field_accepts UserLoginSerializer.email_field e ->
  str_lower (str_strip e) = User.email u ->
  User.email u <> [] ->
  exists rows1 r2 rows2,
    snd (serve t1 cred
           (POST_users_change_password
              {| ChangePasswordSerializer.current_password := Some current;
                 ChangePasswordSerializer.new_password := Some new;
                 ChangePasswordSerializer.confirm_new_password :=
                   Some confirm |})
           rows) = rows1 /\
    serve t2 NoCredentials
      (POST_auth_login
         {| UserLoginSerializer.email := Some e;
            UserLoginSerializer.password := Some new |}) rows1
      = (Responded r2, rows2) /\
    status_code r2 = HTTP_200_OK /\
    serve t2 NoCredentials
      (POST_auth_login
         {| UserLoginSerializer.email := Some e;
            UserLoginSerializer.password := Some current |}) rows1
      = (Responded
           (validation_error
              [("detail"%string, [lit "Invalid email or password."])]),
         rows1).
Proof.
  intros Hauth Hstatus Hcons Hcurrent Hnew Hconfirm Hcheck Hrules Hpolicy
    Hsame Hdiffer Hverifies Hold Hfield He Hemail.
  destruct (authenticated_as_in _ _ _ Hauth) as [Hin Hactive].
  set (u1 := User.with_updated_at t1
               (User.with_password (make_password (str_strip new)) u)).
  set (rows1 := with_row (User.id u) u1 rows).
  assert (find (fun r => str_eqb (User.email r) (str_lower (str_strip e)))
            rows1
          = Some u1) as Hfind.
  { rewrite He. now apply find_by_email_with_row. }
  assert (str_lower (str_strip e) <> []) as Hlower by now rewrite He.
  exists rows1. do 2 eexists. split.
  { unfold serve.
    rewrite (dispatch_handler _ _ _ _ _ Hauth
               (active_passes_self_service u
                (POST_users_change_password _) Hstatus eq_refl)).
    cbn [handler_of].
    now rewrite (change_password_post t1 cred rows u current new confirm
                   Hauth Hcons Hcurrent Hnew Hconfirm Hcheck Hrules Hpolicy
                   Hsame Hdiffer). }
  split.
  { unfold serve.
    rewrite (dispatch_handler _ _ _ _ AnonymousUser) by reflexivity.
    cbn [handler_of].
    rewrite (login_post_valid t2 rows1 _ u1); [reflexivity |].
    apply (login_is_valid_accepts rows1 _ e new u1); try reflexivity;
      try assumption.
    exact (char_field_accepts (Some 8) None new Hnew). }
  split; [reflexivity |].
  unfold serve.
  rewrite (dispatch_handler _ _ _ _ AnonymousUser) by reflexivity.
  cbn [handler_of]. unfold LoginView.post, bind, get.
  rewrite (login_is_valid_rejects rows1 _ e current); try reflexivity;
    try assumption.
  right. exists u1. split; [assumption |]. left. exact Hold.
Qed.

End ChangePassword.

(** ** Profile updates *)

Section Profile.
Context `{Externals}.

Lemma exists_none (l : User.Table) :
  (forall x, ~ In x l) -> exists_ l = false.
Proof.
  destruct l as [| x l]; [reflexivity |].
  intros Hnone. exfalso. apply (Hnone x). now left.
Qed.

Lemma exists_some (l : User.Table) x : In x l -> exists_ l = true.
Proof. destruct l; [intros [] | reflexivity]. Qed.

Lemma in_filter_email value rows r :
  In r (filter_email value rows) <-> In r rows /\ User.email r = value.
Proof.
  unfold filter_email. rewrite filter_In, str_eqb_eq. reflexivity.
Qed.

Lemma in_exclude_id i rows r :
  In r (exclude_id i rows) <-> In r rows /\ User.id r <> i.
Proof.
  unfold exclude_id. rewrite filter_In, negb_true_iff, Z.eqb_neq.
  reflexivity.
Qed.

Lemma update_email_field_accepts rows u data :
  free_email rows u data ->
  run_field (Some data) (UserUpdateSerializer.email_field rows u)
    (UserUpdateSerializer.validate_email rows u)
  = Ok (str_lower (str_strip data)).
Proof.
  intros (Hfield & Hmatch & Hfree).
  rewrite (run_field_accepts _ _ _ Hfield).
  unfold UserUpdateSerializer.validate_email.
  rewrite Hmatch. cbn [negb]. rewrite exists_none; [reflexivity |].
  intros r Hr. apply in_exclude_id in Hr as [Hr Hid].
  apply in_filter_email in Hr as [Hr Hemail].
  exact (Hfree r Hr Hid Hemail).
Qed.

Lemma update_name_field_accepts data :
  proper_name data ->
  run_field (Some data) UserUpdateSerializer.full_name_field
    UserUpdateSerializer.validate_full_name
  = Ok (str_strip (str_strip data)).
Proof.
  intros [Hfield Hlen].
  rewrite (run_field_accepts _ _ _ Hfield).
  destruct Hfield as (_ & Htrimmed & _).
  unfold UserUpdateSerializer.validate_full_name.
  rewrite (truthy_nonempty _ Htrimmed). cbn [negb orb].
  apply Z.ltb_ge in Hlen. now rewrite Hlen.
Qed.

(** X14.  A profile update by an active account whose supplied email the
    email field takes, is well-formed and is held by no other account,
    and whose supplied name the name field takes and has two characters
    or more after stripping, is answered with status 200; the account's
    row gets the trimmed, lower-cased email, the stripped name and
    [updated_at = now], a key that is missing from the body leaves its
    column as it was (an empty body only moves [updated_at]), and the
    account's own current email is not a conflict. *)
Theorem profile_update_takes_effect now cred rows u d :
  authenticated_as cred rows u ->
  User.status u = STATUS_active ->
  consistent rows ->
  (forall data, UserUpdateSerializer.email d = Some data ->
     free_email rows u data) ->
  (forall data, UserUpdateSerializer.full_name d = Some data ->
     proper_name data) ->
  serve now cred (PUT_users_profile d) rows =
    (Responded
       {| status_code := HTTP_200_OK;
          data := success_with (lit "Profile updated successfully.")
                    [("user"%string,
                      UserSerializer.data (profile_after now d u))] |},
     with_row (User.id u) (profile_after now d u) rows).
Proof.
  intros Hauth Hstatus Hcons Hemail Hname.
  destruct (authenticated_as_in _ _ _ Hauth) as [Hin _].
  unfold serve.
  rewrite (dispatch_handler _ _ _ _ _ Hauth
             (active_passes_self_service u (PUT_users_profile d) Hstatus
                eq_refl)).
  cbn [handler_of].
  unfold UserProfileView.put, as_account, bind, read_table, get. cbn [ret].
  unfold UserUpdateSerializer.is_valid, UserUpdateSerializer.run_partial,
    profile_after.
  destruct d as [[value |] [name |]];
    cbn [UserUpdateSerializer.email UserUpdateSerializer.full_name] in *;
    rewrite ?(update_email_field_accepts rows u value (Hemail value eq_refl)),
      ?(update_name_field_accepts name (Hname name eq_refl));
    unfold UserUpdateSerializer.save; cbn [fst snd];
    match goal with
    | |- context [User.save now None ?self rows] =>
        rewrite (save_whole now self u rows Hin eq_refl); [reflexivity |]
    end;
    intros r Hr Hother;
    cbn [User.email User.with_full_name User.with_email];
    try (now apply (Hemail value eq_refl));
    intros Hsame; apply Hother;
    now rewrite (consistent_same_email rows r u Hcons Hr Hin Hsame).
Qed.

(** X15.  A profile update whose email, as the serializer reads it
    (trimmed by the field, then lower-cased), is the stored email of
    another account is answered with the 400 validation error, with
    [email] among the fields of the error map; the table is untouched. *)
Theorem profile_email_of_another_is_refused now cred rows u d value other :
  authenticated_as cred rows u ->
  User.status u = STATUS_active ->
  UserUpdateSerializer.email d = Some value ->
  In other rows ->
  User.id other <> User.id u ->
  User.email other = str_lower (str_strip value) ->
  exists errors,
    In "email"%string (map fst errors) /\
    serve now cred (PUT_users_profile d) rows
      = (Responded (validation_error errors), rows).
Proof.
  intros Hauth Hstatus Hemail Hin Hother Hheld.
  assert (exists messages,
            UserUpdateSerializer.run_partial (Some value)
              (UserUpdateSerializer.email_field rows u)
              (UserUpdateSerializer.validate_email rows u) = Raise messages)
    as [messages Hfield].
  { unfold UserUpdateSerializer.run_partial.
    destruct (run_field_supplied value
                (UserUpdateSerializer.email_field rows u)
                (UserUpdateSerializer.validate_email rows u))
      as [-> | (m & ms & ->)]; [| now eexists].
    unfold UserUpdateSerializer.validate_email.
    destruct (re_match_email (str_strip value)); cbn [negb]; [| now eexists].
    rewrite (exists_some _ other); [now eexists |].
    apply in_exclude_id. split; [| assumption].
    now apply in_filter_email. }
  assert (exists errors,
            UserUpdateSerializer.is_valid rows u d = Raise errors /\
            In "email"%string (map fst errors)) as (errors & Hinvalid & Hkey).
  { unfold UserUpdateSerializer.is_valid. rewrite Hemail, Hfield.
    eexists. split; [reflexivity |]. cbn. now left. }
  exists errors. split; [assumption |]. unfold serve.
  rewrite (dispatch_handler _ _ _ _ _ Hauth
             (active_passes_self_service u (PUT_users_profile d) Hstatus
                eq_refl)).
  cbn [handler_of].
  unfold UserProfileView.put, as_account, bind, read_table, get. cbn [ret].
  now rewrite Hinvalid.
Qed.

End Profile.

(** ** What the requests keep *)

Section Kept.
Context `{Externals}.

Lemma copy_fields_id fields src dst :
  User.id (User.copy_fields fields src dst) = User.id dst.
Proof.
  induction fields as [| f fields IH]; [reflexivity |]. exact IH.
Qed.

Lemma copy_fields_email fields src dst :
  User.email (User.copy_fields fields src dst)
  = if User.listed User.f_email fields then User.email src
    else User.email dst.
Proof.
  induction fields as [| f fields IH]; [reflexivity |].
  cbn [User.copy_fields fold_right User.listed existsb].
  change (fold_right (fun f row => User.copy_field f src row) dst fields)
    with (User.copy_fields fields src dst).
  change (existsb (User.Field_eqb User.f_email) fields)
    with (User.listed User.f_email fields).
  destruct f; cbn; try exact IH; reflexivity.
Qed.

Lemma NoDup_snoc {A : Type} (l : list A) (x : A) :
  NoDup l -> ~ In x l -> NoDup (l ++ [x]).
Proof.
  intros Hl Hx. induction l as [| y l IH]; cbn.
  - constructor; [intros [] | constructor].
  - apply NoDup_cons_iff in Hl as [Hy Hl]. constructor.
    + intros Hin. apply in_app_or in Hin as [Hin | [-> | []]].
      * contradiction.
      * apply Hx. now left.
    + apply IH; [assumption |]. intros Hin. apply Hx. now right.
Qed.

(** Giving the email [e] to the rows of id [i], in a table whose ids and
    emails are unique and where no row of another id holds [e], keeps the
    emails unique. *)
Lemma NoDup_emails_rewritten i e rows :
  consistent rows ->
  (forall r, In r rows -> User.id r <> i -> User.email r <> e) ->
  NoDup (map (fun r => if User.id r =? i then e else User.email r) rows).
Proof.
  intros [Hids Hemails] Hfree.
  induction rows as [| x rows IH]; [constructor |].
  cbn [map] in *.
  apply NoDup_cons_iff in Hids as [Hid Hids].
  apply NoDup_cons_iff in Hemails as [Hemail Hemails].
  assert (forall r, In r rows -> User.id r <> i -> User.email r <> e)
    as Hfree' by (intros r Hr; apply Hfree; now right).
  constructor; [| now apply IH].
  intros Hin. apply in_map_iff in Hin as (r & Heq & Hr).
  destruct (User.id x =? i) eqn:Hx, (User.id r =? i) eqn:Hrid.
  - apply Z.eqb_eq in Hx, Hrid. apply Hid. rewrite Hx, <- Hrid.
    now apply in_map.
  - apply Z.eqb_neq in Hrid. now apply (Hfree' r Hr Hrid).
  - apply Z.eqb_neq in Hx. apply (Hfree x (or_introl eq_refl) Hx).
    now symmetry.
  - apply Hemail. rewrite <- Heq. now apply in_map.
Qed.

Lemma next_id_is_fresh rows r : In r rows -> User.id r < User.next_id rows.
Proof.
  unfold User.next_id. induction rows as [| x rows IH]; [intros [] |].
  cbn [fold_right]. intros [-> | Hin]; [lia |].
  specialize (IH Hin). lia.
Qed.

(** [save] keeps the table consistent, whatever is saved. *)
Lemma save_consistent now update_fields self rows :
  consistent rows ->
  consistent (snd (User.save now update_fields self rows)).
Proof.
  intros Hcons. unfold User.save, bind, get, put.
  fold (written update_fields). fold (pre_saved now update_fields self).
  set (self' := pre_saved now update_fields self).
  destruct (User.listed User.f_email (written update_fields)) eqn:Hlisted;
    cbn [andb].
  - destruct (User.email_taken self' rows) eqn:Htaken; [exact Hcons |].
    assert (forall r, In r rows -> User.id r <> User.id self' ->
              User.email r <> User.email self') as Hfree.
    { intros r Hr Hid Hemail.
      apply not_true_iff_false in Htaken. apply Htaken.
      apply existsb_exists. exists r. split; [assumption |].
      apply andb_true_iff. split.
      - now apply negb_true_iff, Z.eqb_neq.
      - now apply str_eqb_eq. }
    destruct (existsb _ rows) eqn:Hexists.
    + cbn [snd ret]. split.
      * rewrite map_map.
        rewrite (map_ext _ User.id); [apply Hcons |].
        intros r. destruct (User.id r =? User.id self'); [| reflexivity].
        apply copy_fields_id.
      * rewrite map_map.
        rewrite (map_ext _ (fun r => if User.id r =? User.id self'
                                     then User.email self'
                                     else User.email r)).
        -- now apply NoDup_emails_rewritten.
        -- intros r. destruct (User.id r =? User.id self'); [| reflexivity].
           now rewrite copy_fields_email, Hlisted.
    + destruct update_fields as [fs |]; [exact Hcons |].
      cbn [snd ret]. unfold consistent. rewrite !map_app. cbn [map].
      destruct Hcons as [Hids Hemails].
      assert (forall r, In r rows -> User.id r <> User.id self') as Hnew.
      { intros r Hr Hid.
        apply not_true_iff_false in Hexists. apply Hexists.
        apply existsb_exists. exists r. split; [assumption |].
        now apply Z.eqb_eq. }
      split; apply NoDup_snoc; try assumption.
      * intros Hin. apply in_map_iff in Hin as (r & Heq & Hr).
        exact (Hnew r Hr Heq).
      * intros Hin. apply in_map_iff in Hin as (r & Heq & Hr).
        exact (Hfree r Hr (Hnew r Hr) Heq).
  - destruct (existsb _ rows).
    + cbn [snd ret]. destruct Hcons as [Hids Hemails]. split.
      * rewrite map_map.
        rewrite (map_ext _ User.id); [assumption |].
        intros r. destruct (User.id r =? User.id self'); [| reflexivity].
        apply copy_fields_id.
      * rewrite map_map.
        rewrite (map_ext _ User.email); [assumption |].
        intros r. destruct (User.id r =? User.id self'); [| reflexivity].
        now rewrite copy_fields_email, Hlisted.
    + destruct update_fields as [fs |]; [exact Hcons |].
      discriminate Hlisted.
Qed.

Lemma insert_consistent now self rows :
  consistent rows ->
  consistent (snd (User.insert now self rows)).
Proof.
  intros Hcons. unfold User.insert, bind, get, put.
  destruct (existsb _ rows) eqn:Hexists; [exact Hcons |].
  cbn [snd ret]. destruct Hcons as [Hids Hemails].
  unfold consistent. rewrite !map_app. cbn [map].
  split; apply NoDup_snoc; try assumption.
  - intros Hin. apply in_map_iff in Hin as (r & Heq & Hr).
    pose proof (next_id_is_fresh rows r Hr) as Hfresh.
    cbn [User.id User.with_id] in Heq. lia.
  - intros Hin. apply in_map_iff in Hin as (r & Heq & Hr).
    apply not_true_iff_false in Hexists. apply Hexists.
    apply existsb_exists. exists r. split; [assumption |].
    now apply str_eqb_eq.
Qed.

(** The table after a request is the old one, or what the handler left
    for the user the credentials resolved to. *)
Lemma dispatch_table_for perms handler cred rows :
  snd (dispatch perms handler cred rows) = rows
  \/ exists user,
       perform_authentication cred rows = (Ok user, rows) /\
       snd (dispatch perms handler cred rows) = snd (handler user rows).
Proof.
  unfold dispatch, bind.
  pose proof (perform_authentication_reads_only cred rows) as Hread.
  destruct (perform_authentication cred rows) as [[user | exc] rows0];
    cbn [snd] in Hread; subst rows0.
  - destruct (check_permissions perms user) as [[] | exc].
    + right. exists user. split; [reflexivity |].
      destruct (handler user rows) as [[response | exc] rows'];
        [reflexivity |].
      reflexivity.
    + left. unfold raise. reflexivity.
  - left. reflexivity.
Qed.

(** The one write a handler makes, if it makes one: a save of the status
    columns, a save of [last_login], a plain save of the authenticated
    account with its email, name or password changed, or the insert of a
    plain user. *)
Lemma handler_writes now request user rows :
  (forall u, user = Account u -> In u rows) ->
  let rows' := snd (handler_of now request user rows) in
  rows' = rows
  \/ (exists self,
        rows' = snd (User.save now (Some [User.f_status; User.f_updated_at])
                       self rows))
  \/ (exists self,
        rows' = snd (User.save now (Some [User.f_last_login]) self rows))
  \/ (exists self u,
        In u rows /\ User.id self = User.id u /\
        standing self = standing u /\
        rows' = snd (User.save now None self rows))
  \/ (exists self,
        User.role self = ROLE_user /\ User.is_staff self = false /\
        User.is_superuser self = false /\
        rows' = snd (User.insert now self rows)).
Proof.
  intros Hloaded.
  destruct request as [d | d | | | d | d | params | user_id | user_id | user_id];
    cbn [handler_of].
  - (* signup *)
    unfold SignupView.post, bind, get.
    destruct (UserSignupSerializer.is_valid rows d) as [v | errors];
      [| now left].
    unfold UserSignupSerializer.create, UserManager.create_user.
    destruct (negb (truthy _)); [now left |].
    match goal with
    | |- context [User.insert now ?self rows] =>
        do 4 right; exists self;
        do 3 (split; [reflexivity |]);
        destruct (User.insert now self rows) as [[user' | exc] rows']
    end; reflexivity.
  - (* login *)
    unfold LoginView.post, bind, get.
    destruct (UserLoginSerializer.is_valid rows d) as [account | errors];
      [| now left].
    unfold User.update_last_login.
    match goal with
    | |- context [User.save now ?fields ?self rows] =>
        right; right; left; exists self;
        destruct (User.save now fields self rows) as [[user' | exc] rows']
    end; reflexivity.
  - unfold CurrentUserView.get, as_account, bind. destruct user; now left.
  - unfold UserProfileView.get, as_account, bind. destruct user; now left.
  - (* profile, update *)
    unfold UserProfileView.put, as_account, bind, read_table, get.
    destruct user as [| account]; [now left |]. cbn [ret].
    destruct (UserUpdateSerializer.is_valid rows account d) as [v | errors];
      [| now left].
    unfold UserUpdateSerializer.save.
    match goal with
    | |- context [User.save now None ?self rows] =>
        do 3 right; left; exists self, account;
        split; [now apply Hloaded |];
        split; [now destruct (fst v), (snd v) |];
        split; [now destruct (fst v), (snd v) |];
        destruct (User.save now None self rows) as [[user' | exc] rows']
    end; reflexivity.
  - (* change of password *)
    unfold ChangePasswordView.post, as_account, bind.
    destruct user as [| account]; [now left |]. cbn [ret].
    destruct (ChangePasswordSerializer.is_valid account d) as [p | errors];
      [| now left].
    match goal with
    | |- context [User.save now None ?self rows] =>
        do 3 right; left; exists self, account;
        split; [now apply Hloaded |];
        do 2 (split; [reflexivity |]);
        destruct (User.save now None self rows) as [[user' | exc] rows']
    end; reflexivity.
  - (* listing *)
    left.
    unfold AdminUserListView.list, AdminUserListView.get_queryset, bind, get.
    destruct (AdminUserListView.search params) as [search |].
    + destruct (truthy search); [reflexivity |]. cbn [ret].
      unfold paginate.
      destruct (AdminUserListView.page params); cbn [raise ret];
        try reflexivity; destruct (_ || _); reflexivity.
    + cbn [ret]. unfold paginate.
      destruct (AdminUserListView.page params); cbn [raise ret];
        try reflexivity; destruct (_ || _); reflexivity.
  - (* detail *)
    left. unfold AdminUserDetailView.get, get_object_or_404, bind, get.
    destruct (find _ rows); reflexivity.
  - (* activate *)
    unfold AdminActivateUserView.post, get_object_or_404, bind, get.
    destruct (find _ rows) as [target |]; [| now left]. cbn [ret].
    destruct (Status_eqb _ _); [now left |].
    unfold User.activate.
    match goal with
    | |- context [User.save now ?fields ?self rows] =>
        right; left; exists self;
        destruct (User.save now fields self rows) as [[user' | exc] rows']
    end; reflexivity.
  - (* deactivate *)
    unfold AdminDeactivateUserView.post, get_object_or_404, bind, get.
    destruct (find _ rows) as [target |]; [| now left]. cbn [ret].
    destruct (match AdminDeactivateUserView.request_user_id user with
              | Some i => User.id target =? i | None => false end);
      [now left |].
    destruct (Status_eqb _ _); [now left |].
    unfold User.deactivate.
    match goal with
    | |- context [User.save now ?fields ?self rows] =>
        right; left; exists self;
        destruct (User.save now fields self rows) as [[user' | exc] rows']
    end; reflexivity.
Qed.

Lemma authenticated_user_loaded cred rows user :
  perform_authentication cred rows = (Ok user, rows) ->
  forall u, user = Account u -> In u rows.
Proof.
  intros Hauth u ->. now apply (authenticated_as_in cred rows u).
Qed.

(** X16.  Every request keeps the constraints of the table: when the ids
    and the emails of the rows are pairwise different before a request,
    they are afterwards. *)
Theorem requests_keep_the_table_consistent now cred request rows :
  consistent rows ->
  consistent (snd (serve now cred request rows)).
Proof.
  intros Hcons. unfold serve.
  destruct (dispatch_table_for (permission_classes_of request)
              (handler_of now request) cred rows)
    as [-> | (user & Hauth & ->)]; [assumption |].
  destruct (handler_writes now request user rows
              (authenticated_user_loaded _ _ _ Hauth))
    as [-> | [[self ->] | [[self ->] | [(self & u & _ & _ & _ & ->)
                                       | (self & _ & _ & _ & ->)]]]].
  - assumption.
  - now apply save_consistent.
  - now apply save_consistent.
  - now apply save_consistent.
  - now apply insert_consistent.
Qed.

Lemma save_columns_standing now fields self rows :
  (forall src dst, standing (User.copy_fields fields src dst) = standing dst) ->
  map standing (snd (User.save now (Some fields) self rows))
  = map standing rows.
Proof.
  intros Hkept. unfold User.save, bind, get, put.
  destruct (_ && _); [reflexivity |].
  destruct (existsb _ rows); [| reflexivity].
  cbn [snd ret]. rewrite map_map. apply map_ext. intros row.
  destruct (_ =? _); [apply Hkept | reflexivity].
Qed.

Lemma save_whole_standing now self u rows :
  consistent rows ->
  In u rows ->
  User.id self = User.id u ->
  standing self = standing u ->
  map standing (snd (User.save now None self rows)) = map standing rows.
Proof.
  intros Hcons Hin Hid Hstanding. unfold User.save, bind, get, put.
  destruct (_ && _); [reflexivity |].
  cbn [User.listed User.concrete_fields existsb User.Field_eqb
       User.Field_index Nat.eqb orb].
  cbn [User.id User.with_updated_at]. rewrite Hid.
  assert (existsb (fun r => User.id r =? User.id u) rows = true) as ->.
  { apply existsb_exists. exists u. split; [assumption | apply Z.eqb_refl]. }
  cbn [snd ret]. rewrite map_map. apply map_ext_in. intros row Hrow.
  destruct (User.id row =? User.id u) eqn:Hsame; [| reflexivity].
  apply Z.eqb_eq in Hsame.
  rewrite (consistent_same_id rows row u Hcons Hrow Hin Hsame).
  rewrite <- Hstanding. unfold standing. cbn. now rewrite Hid.
Qed.

(** X17.  No request promotes, demotes or removes an account: after a
    request on a consistent table the rows are the same accounts in the
    same order, each with the id, role, creation time and Django flags it
    had, or these followed by one new account, which is a plain user
    (role user, not staff, not superuser). *)
Theorem requests_keep_every_standing now cred request rows :
  consistent rows ->
  map standing (snd (serve now cred request rows)) = map standing rows
  \/ exists u,
       map standing (snd (serve now cred request rows))
         = map standing rows ++ [standing u] /\
       User.role u = ROLE_user /\
       User.is_staff u = false /\
       User.is_superuser u = false.
Proof.
  intros Hcons. unfold serve.
  destruct (dispatch_table_for (permission_classes_of request)
              (handler_of now request) cred rows)
    as [-> | (user & Hauth & ->)]; [now left |].
  destruct (handler_writes now request user rows
              (authenticated_user_loaded _ _ _ Hauth))
    as [-> | [[self ->] | [[self ->] | [(self & u & Hin & Hid & Hsame & ->)
                                       | (self & Hrole & Hstaff & Hsuper & ->)]]]].
  - now left.
  - left. now apply save_columns_standing.
  - left. now apply save_columns_standing.
  - left. now apply (save_whole_standing now self u rows).
  - unfold User.insert, bind, get, put.
    destruct (existsb _ rows); [now left |].
    right. eexists. cbn [snd ret]. rewrite map_app.
    split; [reflexivity |]. now repeat split.
Qed.

End Kept.

(** ** Signup *)

Section SignupEffects.
Context `{Externals}.

Lemma truthy_inv (s : str) : truthy s = true -> s <> [].
Proof. now intros Htruthy ->. Qed.

(** A field that validated was supplied a text that the field takes, and
    its [validate_<field>] accepted the trimmed text. *)
Lemma run_field_ok_inv data validators validate v :
  run_field data validators validate = Ok v ->
  exists text,
    data = Some text /\
    field_accepts validators text /\
    validate (str_strip text) = Ok v.
Proof.
  unfold run_field, field_accepts.
  destruct data as [text |]; [| discriminate].
  destruct (truthy text) eqn:Htext; [| discriminate].
  destruct (truthy (str_strip text)) eqn:Htrimmed; [| discriminate].
  cbn [negb orb]. cbv zeta. unfold validator in *.
  match goal with
  | |- context [flat_map ?check validators] =>
      destruct (flat_map check validators) eqn:Hchecks
  end; [| discriminate].
  intros Hv. exists text.
  split; [reflexivity |]. split; [| assumption].
  split; [now apply truthy_inv |]. split; [now apply truthy_inv |].
  assumption.
Qed.

(** The email field of a signup takes a text only if no row holds the
    trimmed text. *)
Lemma signup_email_field_unique rows text :
  field_accepts (UserSignupSerializer.email_field rows) text ->
  exists_ (filter_email (str_strip text) rows) = false.
Proof.
  intros (_ & _ & Hchecks).
  unfold UserSignupSerializer.email_field in Hchecks.
  cbn [flat_map] in Hchecks.
  apply app_eq_nil in Hchecks as [Hunique _].
  unfold unique_email in Hunique.
  now destruct (exists_ (filter_email (str_strip text) rows)).
Qed.

Lemma no_row_has_email rows value :
  exists_ (filter_email value rows) = false ->
  forall r, In r rows -> User.email r <> value.
Proof.
  intros Hnone r Hr Hemail.
  rewrite (exists_filter_email rows r value Hr Hemail) in Hnone.
  discriminate.
Qed.

Lemma signup_validate_password_ok_inv value v :
  UserSignupSerializer.validate_password value = Ok v ->
  v = value /\ strength_rules value /\ password_validation value = [].
Proof.
  unfold UserSignupSerializer.validate_password. rewrite strength_rules_checks.
  destruct (len value <? 8); [discriminate |].
  destruct (re_search_class upper value); [| discriminate].
  destruct (re_search_class lower value); [| discriminate].
  destruct (re_search_class re_digit value); [| discriminate].
  destruct (re_search_class (one_of special_characters) value);
    [| discriminate].
  cbn [negb]. destruct (password_validation value); [| discriminate].
  intros [= <-]. repeat split; reflexivity.
Qed.

Lemma validated_signup_fields rows d v :
  UserSignupSerializer.is_valid rows d = Ok v ->
  (exists e,
     UserSignupSerializer.v_email v = str_lower e /\
     forall r, In r rows -> User.email r <> str_lower e)
  /\ 8 <= len (UserSignupSerializer.v_password v).
Proof.
  unfold UserSignupSerializer.is_valid.
  destruct (run_field (UserSignupSerializer.email d) _ _) as [e' |] eqn:He;
    [| discriminate].
  destruct (run_field (UserSignupSerializer.full_name d) _ _);
    [| discriminate].
  destruct (run_field (UserSignupSerializer.password d) _ _) as [p' |] eqn:Hp;
    [| discriminate].
  destruct (run_field (UserSignupSerializer.confirm_password d) _ _)
    as [c' |]; [| discriminate].
  destruct (UserSignupSerializer.validate p' c'); [| discriminate].
  intros [= <-].
  apply run_field_ok_inv in He as (e & _ & _ & Hemail).
  apply run_field_ok_inv in Hp as (p & _ & _ & Hpassword).
  apply signup_validate_password_ok_inv in Hpassword as (-> & [Hlen _] & _).
  unfold UserSignupSerializer.validate_email in Hemail.
  destruct (negb (re_match_email (str_strip e))); [discriminate |].
  destruct (exists_ (filter_email (str_lower (str_strip e)) rows)) eqn:Hlower;
    [discriminate |].
  injection Hemail as <-.
  split; [| exact Hlen].
  exists (str_strip e). split; [reflexivity |]. now apply no_row_has_email.
Qed.

Lemma signup_post_valid now rows d v :
  UserSignupSerializer.is_valid rows d = Ok v ->
  UserSignupSerializer.v_email v <> [] ->
  UserManager.normalize_email (UserSignupSerializer.v_email v)
    = UserSignupSerializer.v_email v ->
  let account :=
    {| User.id := User.next_id rows;
       User.email := UserSignupSerializer.v_email v;
       User.full_name := UserSignupSerializer.v_full_name v;
       User.password := make_password (UserSignupSerializer.v_password v);
       User.role := ROLE_user;
       User.status := STATUS_active;
       User.created_at := now;
       User.updated_at := now;
       User.last_login := None;
       User.is_staff := false;
       User.is_active := true;
       User.is_superuser := false |} in
  SignupView.post now d rows =
    (Ok {| status_code := HTTP_201_CREATED;
           data := success_with (lit "User registered successfully.")
                     [("user"%string, UserSerializer.data account);
                      ("tokens"%string, get_tokens_for_user now account)] |},
     rows ++ [account]).
Proof.
  intros Hvalid Hnonempty Hnormal account.
  destruct (validated_signup_fields rows d v Hvalid) as [(e & He & Hfree) _].
  unfold SignupView.post, bind, get. rewrite Hvalid.
  unfold UserSignupSerializer.create, UserManager.create_user.
  rewrite (truthy_nonempty _ Hnonempty), Hnormal. cbn [negb].
  unfold User.insert, bind, get, put.
  cbn [User.email User.set_password User.with_password User.with_id
       User.with_created_at User.with_updated_at UserManager.setdefault
       UserManager.full_name UserManager.role UserManager.status
       UserManager.is_staff UserManager.is_superuser].
  assert (existsb (fun r => str_eqb (User.email r)
                              (UserSignupSerializer.v_email v)) rows = false)
    as ->.
  { apply not_true_is_false. intros Htaken.
    apply existsb_exists in Htaken as (r & Hr & Hsame).
    apply str_eqb_eq in Hsame. rewrite He in Hsame.
    exact (Hfree r Hr Hsame). }
  reflexivity.
Qed.

(** X18.  What a signup that validates guarantees: all four fields were
    supplied, each with a text its field takes; the validated email is
    the trimmed input lower-cased, the trimmed input matched the email
    pattern, and no stored email equals it as trimmed or lower-cased; the
    validated name is the trimmed input stripped, two characters or more;
    the validated password is the trimmed input, it meets the strength
    rules and the policy, and the confirmation is the same text once
    trimmed. *)
Theorem validated_signup_is_normalised rows d v :
  UserSignupSerializer.is_valid rows d = Ok v ->
  exists e n p c,
    UserSignupSerializer.email d = Some e /\
    UserSignupSerializer.full_name d = Some n /\
    UserSignupSerializer.password d = Some p /\
    UserSignupSerializer.confirm_password d = Some c /\
    field_accepts (UserSignupSerializer.email_field rows) e /\
    field_accepts UserSignupSerializer.full_name_field n /\
    field_accepts UserSignupSerializer.password_field p /\
    field_accepts UserSignupSerializer.confirm_password_field c /\
    UserSignupSerializer.v_email v = str_lower (str_strip e) /\
    re_match_email (str_strip e) = true /\
    (forall r, In r rows ->
       User.email r <> str_strip e /\
       User.email r <> str_lower (str_strip e)) /\
    UserSignupSerializer.v_full_name v = str_strip (str_strip n) /\
    2 <= len (str_strip (str_strip n)) /\
    UserSignupSerializer.v_password v = str_strip p /\
    str_strip c = str_strip p /\
    strength_rules (str_strip p) /\
    password_validation (str_strip p) = [].
Proof.
  unfold UserSignupSerializer.is_valid.
  destruct (run_field (UserSignupSerializer.email d) _ _) as [e' |] eqn:He;
    [| discriminate].
  destruct (run_field (UserSignupSerializer.full_name d) _ _) as [n' |] eqn:Hn;
    [| discriminate].
  destruct (run_field (UserSignupSerializer.password d) _ _) as [p' |] eqn:Hp;
    [| discriminate].
  destruct (run_field (UserSignupSerializer.confirm_password d) _ _)
    as [c' |] eqn:Hc; [| discriminate].
  unfold UserSignupSerializer.validate.
  destruct (str_eqb p' c') eqn:Hsame; cbn [negb]; [| discriminate].
  intros [= <-]. apply str_eqb_eq in Hsame. subst c'.
  apply run_field_ok_inv in He as (e & He & Hefield & Hemail).
  apply run_field_ok_inv in Hn as (n & Hn & Hnfield & Hname).
  apply run_field_ok_inv in Hp as (p & Hp & Hpfield & Hpassword).
  apply run_field_ok_inv in Hc as (c & Hc & Hcfield & [= Hconfirm]).
  apply signup_validate_password_ok_inv in Hpassword
    as (-> & Hrules & Hpolicy).
  unfold UserSignupSerializer.validate_email in Hemail.
  destruct (re_match_email (str_strip e)) eqn:Hmatch; [| discriminate].
  cbn [negb] in Hemail.
  destruct (exists_ (filter_email (str_lower (str_strip e)) rows)) eqn:Hlower;
    [discriminate |].
  injection Hemail as <-.
  pose proof (signup_email_field_unique rows e Hefield) as Htyped.
  unfold UserSignupSerializer.validate_full_name in Hname.
  destruct (negb (truthy (str_strip n))
            || (len (str_strip (str_strip n)) <? 2)) eqn:Hshort;
    [discriminate |].
  injection Hname as <-.
  apply orb_false_iff in Hshort as [_ Hshort]. apply Z.ltb_ge in Hshort.
  exists e, n, p, c. cbn.
  do 10 (split; [assumption || reflexivity |]).
  split; [intros r Hr; split; eapply no_row_has_email; eassumption |].
  do 5 (split; [assumption || reflexivity |]). assumption.
Qed.

(** X19.  A signup that validates, with a validated email that is not
    empty and that [normalize_email] leaves as it is, is answered with
    status 201, the new account's projection and a token pair; the table
    gets one more row, with a fresh id, the validated email and name, the
    hash of the password, the role user, the status active, both
    timestamps [now] and no last login. *)
Theorem signup_takes_effect now cred user rows d v :
  perform_authentication cred rows = (Ok user, rows) ->
  UserSignupSerializer.is_valid rows d = Ok v ->
  UserSignupSerializer.v_email v <> [] ->
  UserManager.normalize_email (UserSignupSerializer.v_email v)
    = UserSignupSerializer.v_email v ->
  let account :=
    {| User.id := User.next_id rows;
       User.email := UserSignupSerializer.v_email v;
       User.full_name := UserSignupSerializer.v_full_name v;
       User.password := make_password (UserSignupSerializer.v_password v);
       User.role := ROLE_user;
       User.status := STATUS_active;
       User.created_at := now;
       User.updated_at := now;
       User.last_login := None;
       User.is_staff := false;
       User.is_active := true;
       User.is_superuser := false |} in
  (forall r, In r rows -> User.id r <> User.id account)
  /\ serve now cred (POST_auth_signup d) rows =
       (Responded
          {| status_code := HTTP_201_CREATED;
             data := success_with (lit "User registered successfully.")
                       [("user"%string, UserSerializer.data account);
                        ("tokens"%string, get_tokens_for_user now account)] |},
        rows ++ [account]).
Proof.
  intros Hauth Hvalid Hnonempty Hnormal account. split.
  { intros r Hr. pose proof (next_id_is_fresh rows r Hr).
    unfold account. cbn [User.id]. lia. }
  unfold serve.
  rewrite (dispatch_handler _ _ _ _ user Hauth) by reflexivity.
  cbn [handler_of].
  now rewrite (signup_post_valid now rows d v Hvalid Hnonempty Hnormal).
Qed.


Lemma find_after_rows (p : User.t -> bool) rows x :
  (forall r, In r rows -> p r = false) ->
  p x = true ->
  find p (rows ++ [x]) = Some x.
Proof.
  intros Hnone Hx. induction rows as [| r rows IH]; cbn [app find].
  - now rewrite Hx.
  - rewrite (Hnone r) by now left. apply IH. intros r' Hr'.
    apply Hnone. now right.
Qed.

(** X22.  Signup and login compose: after a signup that validated, and
    with a hasher under which a password verifies against its own hash, a
    login that the login fields take, whose password is (once trimmed)
    the validated password and whose email is (once trimmed and
    lower-cased) the stored one, is answered with status 200. *)
Theorem signup_then_login t1 t2 cred user rows d v e p :
  perform_authentication cred rows = (Ok user, rows) ->
  UserSignupSerializer.is_valid rows d = Ok v ->
  UserSignupSerializer.v_email v <> [] ->
  UserManager.normalize_email (UserSignupSerializer.v_email v)
    = UserSignupSerializer.v_email v ->
  check_password (UserSignupSerializer.v_password v)
    (make_password (UserSignupSerializer.v_password v)) = true ->
  field_accepts UserLoginSerializer.email_field e ->
  field_accepts UserLoginSerializer.password_field p ->
  str_lower (str_strip e) = UserSignupSerializer.v_email v ->
  str_strip p = UserSignupSerializer.v_password v ->
  exists r1 rows1 r2 rows2,
    serve t1 cred (POST_auth_signup d) rows = (Responded r1, rows1) /\
    status_code r1 = HTTP_201_CREATED /\
    serve t2 NoCredentials
      (POST_auth_login
         {| UserLoginSerializer.email := Some e;
            UserLoginSerializer.password := Some p |}) rows1
      = (Responded r2, rows2) /\
    status_code r2 = HTTP_200_OK.
Proof.
  intros Hauth Hvalid Hnonempty Hnormal Hhash Hefield Hpfield He Hp.
  destruct (validated_signup_fields rows d v Hvalid)
    as [(e0 & He0 & Hfree) Hlen].
  set (account :=
         {| User.id := User.next_id rows;
            User.email := UserSignupSerializer.v_email v;
            User.full_name := UserSignupSerializer.v_full_name v;
            User.password := make_password (UserSignupSerializer.v_password v);
            User.role := ROLE_user;
            User.status := STATUS_active;
            User.created_at := t1;
            User.updated_at := t1;
            User.last_login := None;
            User.is_staff := false;
            User.is_active := true;
            User.is_superuser := false |}).
  assert (find (fun r => str_eqb (User.email r) (str_lower (str_strip e)))
            (rows ++ [account]) = Some account) as Hfind.
  { apply find_after_rows.
    - intros r Hr. apply str_eqb_neq. rewrite He, He0. now apply Hfree.
    - rewrite He. apply str_eqb_refl. }
  do 4 eexists. split.
  { unfold serve.
    rewrite (dispatch_handler _ _ _ _ user Hauth) by reflexivity.
    cbn [handler_of].
    now rewrite (signup_post_valid t1 rows d v Hvalid Hnonempty Hnormal). }
  split; [reflexivity |]. split.
  { unfold serve.
    rewrite (dispatch_handler _ _ _ _ AnonymousUser) by reflexivity.
    cbn [handler_of].
    rewrite (login_post_valid t2 (rows ++ [account]) _ account);
      [reflexivity |].
    apply (login_is_valid_accepts (rows ++ [account]) _ e p account);
      try reflexivity; try assumption.
    - rewrite He. assumption.
    - rewrite Hp. exact Hhash. }
  reflexivity.
Qed.

End SignupEffects.

(** ** The admin listing without a search *)

Section ListingOrder.
Context `{Externals}.

Lemma in_insert_newest_first x u sorted :
  In x (insert_newest_first u sorted) <-> x = u \/ In x sorted.
Proof.
  induction sorted as [| v sorted IH]; cbn [insert_newest_first].
  - cbn. intuition.
  - destruct (User.created_at v <? User.created_at u); cbn [In].
    + intuition.
    + rewrite IH. intuition.
Qed.

Lemma insert_newest_first_ordered u sorted :
  newest_first sorted -> newest_first (insert_newest_first u sorted).
Proof.
  induction sorted as [| v sorted IH]; cbn [insert_newest_first].
  - intros _. split; [intros w [] | exact I].
  - intros [Hv Hsorted].
    destruct (User.created_at v <? User.created_at u) eqn:Hnewer.
    + apply Z.ltb_lt in Hnewer. split; [| now split].
      intros w [<- | Hw]; [lia |]. specialize (Hv w Hw). lia.
    + apply Z.ltb_ge in Hnewer. split; [| now apply IH].
      intros w Hw. apply in_insert_newest_first in Hw as [-> | Hw];
        [assumption | now apply Hv].
Qed.

Lemma in_order_by x rows :
  In x (order_by_created_at_desc rows) <-> In x rows.
Proof.
  unfold order_by_created_at_desc.
  induction rows as [| r rows IH]; [reflexivity |].
  cbn [fold_right In]. rewrite in_insert_newest_first, IH. intuition.
Qed.

Lemma order_by_ordered rows : newest_first (order_by_created_at_desc rows).
Proof.
  unfold order_by_created_at_desc.
  induction rows as [| r rows IH]; [exact I |].
  cbn [fold_right]. now apply insert_newest_first_ordered.
Qed.

Lemma filter_ordered (p : User.t -> bool) rows :
  newest_first rows -> newest_first (filter p rows).
Proof.
  induction rows as [| r rows IH]; [intros _; exact I |].
  intros [Hr Hrows]. cbn [filter].
  destruct (p r); [| now apply IH].
  split; [| now apply IH].
  intros w Hw. apply filter_In in Hw as [Hw _]. now apply Hr.
Qed.

Lemma option_in_one value choice :
  AdminUserListView.option_in value [choice] = true <-> value = Some choice.
Proof.
  destruct value as [v |]; cbn; [| split; discriminate].
  rewrite orb_false_r, str_eqb_eq. split; congruence.
Qed.

Lemma option_in_two value a b :
  AdminUserListView.option_in value [a; b] = true
  <-> value = Some a \/ value = Some b.
Proof.
  destruct value as [v |]; cbn; [| split; [discriminate | intros [|]; discriminate]].
  rewrite orb_false_r, orb_true_iff, !str_eqb_eq.
  split; intros [|]; (left + right); congruence.
Qed.

Lemma status_filter_selects (value : option str) queryset u :
  In u (if AdminUserListView.option_in value [lit "active"; lit "inactive"]
        then filter (fun u => AdminUserListView.option_in value
                                [Status_value (User.status u)]) queryset
        else queryset)
  <-> In u queryset
      /\ (value = Some (lit "active") -> User.status u = STATUS_active)
      /\ (value = Some (lit "inactive") -> User.status u = STATUS_inactive).
Proof.
  destruct (AdminUserListView.option_in value [lit "active"; lit "inactive"])
    eqn:Hchoice.
  - rewrite filter_In, option_in_one.
    apply option_in_two in Hchoice as [-> | ->];
      destruct (User.status u); cbn [Status_value];
      intuition (try discriminate; congruence).
  - assert (value <> Some (lit "active") /\ value <> Some (lit "inactive"))
      as [Ha Hi].
    { split; intros ->; discriminate Hchoice. }
    intuition.
Qed.

Lemma role_filter_selects (value : option str) queryset u :
  In u (if AdminUserListView.option_in value [lit "admin"; lit "user"]
        then filter (fun u => AdminUserListView.option_in value
                                [Role_value (User.role u)]) queryset
        else queryset)
  <-> In u queryset
      /\ (value = Some (lit "admin") -> User.role u = ROLE_admin)
      /\ (value = Some (lit "user") -> User.role u = ROLE_user).
Proof.
  destruct (AdminUserListView.option_in value [lit "admin"; lit "user"])
    eqn:Hchoice.
  - rewrite filter_In, option_in_one.
    apply option_in_two in Hchoice as [-> | ->];
      destruct (User.role u); cbn [Role_value];
      intuition (try discriminate; congruence).
  - assert (value <> Some (lit "admin") /\ value <> Some (lit "user"))
      as [Ha Hi].
    { split; intros ->; discriminate Hchoice. }
    intuition.
Qed.

(** X21.  Without a search (the parameter missing or empty), the queryset
    of the listing holds exactly the rows of the table that the [status]
    and [role] parameters select, newest first; a value of either
    parameter that is not one of its two choices selects nothing away. *)
Theorem listing_selects_and_orders params rows :
  (AdminUserListView.search params = None
   \/ AdminUserListView.search params = Some []) ->
  exists queryset,
    AdminUserListView.get_queryset params rows = (Ok queryset, rows) /\
    (forall u, In u queryset <-> In u rows /\ selected params u) /\
    newest_first queryset.
Proof.
  intros Hsearch.
  unfold AdminUserListView.get_queryset, bind, get.
  eexists. split.
  { destruct Hsearch as [-> | ->]; reflexivity. }
  split.
  - intros u. rewrite role_filter_selects, status_filter_selects, in_order_by.
    unfold selected. tauto.
  - destruct (AdminUserListView.option_in (AdminUserListView.role params) _),
      (AdminUserListView.option_in (AdminUserListView.status params) _);
      repeat apply filter_ordered; apply order_by_ordered.
Qed.

End ListingOrder.

(** ** The manager and the seeding command *)

Section Seeding.
Context `{Externals}.

Lemma exists_filter_email_existsb value rows :
  exists_ (filter_email value rows)
  = existsb (fun r => str_eqb (User.email r) value) rows.
Proof.
  induction rows as [| r rows IH]; [reflexivity |].
  unfold filter_email in *. cbn [filter existsb].
  destruct (str_eqb (User.email r) value); [reflexivity | exact IH].
Qed.

Lemma create_user_appends now email password extra rows :
  email <> [] ->
  exists_ (filter_email (UserManager.normalize_email email) rows) = false ->
  let account :=
    {| User.id := User.next_id rows;
       User.email := UserManager.normalize_email email;
       User.full_name :=
         UserManager.setdefault (UserManager.full_name extra) [];
       User.password := make_password password;
       User.role := UserManager.setdefault (UserManager.role extra) ROLE_user;
       User.status :=
         UserManager.setdefault (UserManager.status extra) STATUS_active;
       User.created_at := now;
       User.updated_at := now;
       User.last_login := None;
       User.is_staff :=
         UserManager.setdefault (UserManager.is_staff extra) false;
       User.is_active := true;
       User.is_superuser :=
         UserManager.setdefault (UserManager.is_superuser extra) false |} in
  UserManager.create_user now email password extra rows
  = (Ok account, rows ++ [account]).
Proof.
  intros Hnonempty Hfree account.
  unfold UserManager.create_user.
  rewrite (truthy_nonempty _ Hnonempty). cbn [negb].
  unfold User.insert, bind, get, put.
  cbn [User.email User.set_password User.with_password User.with_id
       User.with_created_at User.with_updated_at].
  rewrite <- exists_filter_email_existsb, Hfree. reflexivity.
Qed.

(** X23.  [create_superuser] with a non-empty email that is free after
    normalisation, and without the two flags turned off, adds one account
    with [is_staff] and [is_superuser] on, the role admin and the status
    active unless the caller chose others, the normalised email and the
    hash of the password. *)
Theorem create_superuser_takes_effect now email password extra rows :
  email <> [] ->
  exists_ (filter_email (UserManager.normalize_email email) rows) = false ->
  UserManager.is_staff extra <> Some false ->
  UserManager.is_superuser extra <> Some false ->
  let account :=
    {| User.id := User.next_id rows;
       User.email := UserManager.normalize_email email;
       User.full_name :=
         UserManager.setdefault (UserManager.full_name extra) [];
       User.password := make_password password;
       User.role := UserManager.setdefault (UserManager.role extra) ROLE_admin;
       User.status :=
         UserManager.setdefault (UserManager.status extra) STATUS_active;
       User.created_at := now;
       User.updated_at := now;
       User.last_login := None;
       User.is_staff := true;
       User.is_active := true;
       User.is_superuser := true |} in
  UserManager.create_superuser now email password extra rows
  = (Ok account, rows ++ [account]).
Proof.
  intros Hnonempty Hfree Hstaff Hsuper account.
  unfold UserManager.create_superuser.
  destruct extra as [name role status [[|] |] [[|] |]];
    cbn [UserManager.is_staff UserManager.is_superuser] in Hstaff, Hsuper;
    try congruence;
    cbn [UserManager.setdefault UserManager.is_staff
         UserManager.is_superuser negb];
    now rewrite (create_user_appends now email password _ rows Hnonempty
                   Hfree).
Qed.

(** X24.  [create_superuser] refuses, with a [ValueError] and without
    touching the table, a call that turns [is_staff] or [is_superuser]
    off, and a call with an empty email. *)
Theorem create_superuser_refuses now email password extra rows :
  UserManager.is_staff extra = Some false
  \/ UserManager.is_superuser extra = Some false
  \/ email = [] ->
  exists message,
    UserManager.create_superuser now email password extra rows
    = (Raise (ValueError message), rows).
Proof.
  intros Hbad. unfold UserManager.create_superuser.
  destruct extra as [name role status staff super].
  cbn [UserManager.is_staff UserManager.is_superuser
       UserManager.setdefault] in *.
  destruct staff as [[|] |], super as [[|] |];
    cbn [UserManager.setdefault negb];
    try (eexists; reflexivity);
    (destruct Hbad as [Hbad | [Hbad | ->]]; try discriminate;
     eexists; reflexivity).
Qed.

Lemma create_superuser_appends now rows :
  UserManager.normalize_email Command.admin_email = Command.admin_email ->
  exists_ (filter_email Command.admin_email rows) = false ->
  UserManager.create_superuser now Command.admin_email Command.admin_password
    {| UserManager.full_name := Some Command.admin_name;
       UserManager.role := None;
       UserManager.status := None;
       UserManager.is_staff := None;
       UserManager.is_superuser := None |} rows
  = (Ok {| User.id := User.next_id rows;
           User.email := Command.admin_email;
           User.full_name := Command.admin_name;
           User.password := make_password Command.admin_password;
           User.role := ROLE_admin;
           User.status := STATUS_active;
           User.created_at := now;
           User.updated_at := now;
           User.last_login := None;
           User.is_staff := true;
           User.is_active := true;
           User.is_superuser := true |},
     rows ++ [{| User.id := User.next_id rows;
                 User.email := Command.admin_email;
                 User.full_name := Command.admin_name;
                 User.password := make_password Command.admin_password;
                 User.role := ROLE_admin;
                 User.status := STATUS_active;
                 User.created_at := now;
                 User.updated_at := now;
                 User.last_login := None;
                 User.is_staff := true;
                 User.is_active := true;
                 User.is_superuser := true |}]).
Proof.
  intros Hnormal Hfree. unfold UserManager.create_superuser.
  cbn [UserManager.setdefault UserManager.is_staff UserManager.is_superuser
       UserManager.role UserManager.status UserManager.full_name negb].
  rewrite create_user_appends.
  - cbn [UserManager.setdefault UserManager.is_staff
         UserManager.is_superuser UserManager.role UserManager.status
         UserManager.full_name].
    now rewrite Hnormal.
  - discriminate.
  - now rewrite Hnormal.
Qed.

(** X25.  The seeding command is idempotent: provided [normalize_email]
    leaves the admin address as it is, after one run some account holds
    that address, and a second run changes nothing and reports that the
    admin exists.  When an account already holds the address, whatever its
    role, the first run creates nothing either. *)
Theorem create_admin_is_idempotent t1 t2 rows :
  UserManager.normalize_email Command.admin_email = Command.admin_email ->
  let rows1 := snd (Command.handle t1 rows) in
  (exists account,
     In account rows1 /\ User.email account = Command.admin_email)
  /\ Command.handle t2 rows1
     = (Ok (lit "Admin user " ++ Command.admin_email ++ lit " already exists"),
        rows1)
  /\ (exists_ (filter_email Command.admin_email rows) = true -> rows1 = rows).
Proof.
  intros Hnormal rows1.
  assert (exists_ (filter_email Command.admin_email rows1) = true
          /\ (exists_ (filter_email Command.admin_email rows) = true ->
              rows1 = rows)) as [Hheld Hsame].
  { unfold rows1, Command.handle, bind, get.
    destruct (exists_ (filter_email Command.admin_email rows)) eqn:Hexists;
      cbn [negb].
    - cbn [snd ret]. now split.
    - split; [| discriminate].
      rewrite (create_superuser_appends t1 rows Hnormal Hexists).
      cbn [snd ret]. rewrite exists_filter_email_existsb, existsb_app.
      cbn [existsb User.email]. now rewrite str_eqb_refl, orb_true_r. }
  split; [| split; [| exact Hsame]].
  - destruct (filter_email Command.admin_email rows1) as [| account rest]
      eqn:Hfilter; [discriminate |].
    exists account.
    apply (in_filter_email Command.admin_email rows1 account).
    rewrite Hfilter. now left.
  - unfold Command.handle, bind, get. now rewrite Hheld.
Qed.

End Seeding.

(** * The further statements at concrete requests *)

Section FurtherExamples.
#[local] Existing Instance reference_externals.

Lemma example_table_consistent : consistent example_table.
Proof.
  split; cbn; repeat constructor; cbn; intuition discriminate.
Qed.

Lemma example_new_password_strong : strength_rules (lit "Newpass2?").
Proof. apply strength_rules_checks. repeat split; reflexivity. Qed.

Lemma example_old_password_strong : strength_rules (lit "Abcdef1!").
Proof. apply strength_rules_checks. repeat split; reflexivity. Qed.

(** A field takes a concrete text: by computation. *)
Ltac field_takes :=
  split; [discriminate | split; [vm_compute; discriminate | reflexivity]].

Lemma activation_takes_effect_witness :
  find (fun r => User.id r =? 3) example_table = Some example_joe
  /\ User.status example_joe = STATUS_inactive
  /\ snd (serve 9 (AccessToken 1) (POST_admin_user_activate 3) example_table)
     = with_status_at 3 STATUS_active 9 example_table.
Proof.
  split; [reflexivity |]. split; [reflexivity |].
  now rewrite (activation_takes_effect (H := reference_externals) 9 (AccessToken 1) example_table
                 example_admin 3 example_joe eq_refl eq_refl eq_refl eq_refl).
Defined.

Lemma deactivation_takes_effect_witness :
  find (fun r => User.id r =? 2) example_table = Some example_ann
  /\ User.status example_ann = STATUS_active
  /\ snd (serve 9 (AccessToken 1) (POST_admin_user_deactivate 2)
            example_table)
     = with_status_at 2 STATUS_inactive 9 example_table.
Proof.
  split; [reflexivity |]. split; [reflexivity |].
  assert (User.id example_ann <> User.id example_admin) as Hother
    by discriminate.
  now rewrite (deactivation_takes_effect (H := reference_externals) 9 (AccessToken 1) example_table
                 example_admin 2 example_ann eq_refl eq_refl eq_refl eq_refl
                 Hother).
Defined.

Lemma deactivate_then_activate_witness :
  exists r1 r2 rows1 rows2,
    serve 8 (AccessToken 1) (POST_admin_user_deactivate 2) example_table
      = (Responded r1, rows1) /\
    status_code r1 = HTTP_200_OK /\
    serve 9 (AccessToken 1) (POST_admin_user_activate 2) rows1
      = (Responded r2, rows2) /\
    status_code r2 = HTTP_200_OK /\
    find (fun r => User.id r =? 2) rows2
      = Some (User.with_updated_at 9 example_ann) /\
    rows2 = with_status_at 2 STATUS_active 9 example_table.
Proof.
  apply (deactivate_then_activate (H := reference_externals) 8 9 (AccessToken 1) example_table
           example_admin 2 example_ann); try reflexivity.
  discriminate.
Defined.

Lemma inactive_account_is_refused_witness :
  authenticated_as (AccessToken 3) example_table example_joe
  /\ User.status example_joe = STATUS_inactive
  /\ fst (serve 9 (AccessToken 3) GET_auth_me example_table)
     = Responded
         {| status_code := 403;
            data := error_envelope
                      (lit "Your account is inactive. Please contact an administrator.")
                      JNull |}.
Proof.
  split; [reflexivity |]. split; [reflexivity |].
  now rewrite (inactive_account_is_refused (H := reference_externals) 9 (AccessToken 3) example_table
                 example_joe GET_auth_me eq_refl eq_refl eq_refl).
Defined.

Lemma deactivation_locks_out_witness :
  exists r1 rows1,
    serve 8 (AccessToken 1) (POST_admin_user_deactivate 2) example_table
      = (Responded r1, rows1) /\
    (exists r2,
       serve 9 (AccessToken 2) GET_users_profile rows1
         = (Responded r2, rows1) /\
       status_code r2 = HTTP_403_FORBIDDEN) /\
    (exists errors,
       serve 9 NoCredentials
         (POST_auth_login (example_login "Ann@example.com" "Abcdef1!")) rows1
         = (Responded (validation_error errors), rows1)).
Proof.
  apply (deactivation_locks_out (H := reference_externals) 8 9 (AccessToken 1) example_table
           example_admin 2 example_ann GET_users_profile
           (example_login "Ann@example.com" "Abcdef1!")
           (lit "Ann@example.com")); try reflexivity.
  discriminate.
Defined.

Lemma unknown_account_is_not_found_witness :
  find (fun r => User.id r =? 7) example_table = None
  /\ serve 9 (AccessToken 1) (POST_admin_user_activate 7) example_table
     = (Responded
          {| status_code := 404;
             data := error_envelope (lit "Resource not found.") JNull |},
        example_table).
Proof.
  split; [reflexivity |].
  apply (unknown_account_is_not_found (H := reference_externals) 9 (AccessToken 1) example_table
           example_admin (POST_admin_user_activate 7) 7);
    try reflexivity.
  right; left. reflexivity.
Defined.

Lemma handled_errors_share_one_envelope_witness :
  custom_exception_handler (APIException 429 (JStr (lit "Request was throttled.")))
    = Ok (Some {| status_code := 429;
                  data := error_envelope (lit "Request was throttled.")
                            JNull |})
  /\ exists framework,
       exception_handler (APIException 429 (JStr (lit "Request was throttled.")))
         = Some framework /\
       429 = status_code framework.
Proof.
  split; [reflexivity |].
  assert (APIException 429 (JStr (lit "Request was throttled."))
          <> NotAuthenticated) as Hnot1 by discriminate.
  assert (forall detail,
            APIException 429 (JStr (lit "Request was throttled."))
            <> AuthenticationFailed detail) as Hnot2 by discriminate.
  exact (proj1 (proj2 (proj2
           (handled_errors_share_one_envelope (H := reference_externals)
              (APIException 429 (JStr (lit "Request was throttled.")))
              {| status_code := 429;
                 data := error_envelope (lit "Request was throttled.")
                           JNull |} eq_refl))) Hnot1 Hnot2).
Defined.

Lemma login_takes_effect_witness :
  snd (serve 9 NoCredentials
         (POST_auth_login (example_login " Ann@Example.com" "Abcdef1! "))
         example_table)
  = with_last_login_at 2 9 example_table.
Proof.
  assert (field_accepts UserLoginSerializer.email_field
            (lit " Ann@Example.com")) as He by field_takes.
  assert (field_accepts UserLoginSerializer.password_field
            (lit "Abcdef1! ")) as Hp by field_takes.
  assert (str_lower (str_strip (lit " Ann@Example.com")) <> []) as Hlower
    by (vm_compute; discriminate).
  now rewrite (login_takes_effect (H := reference_externals) 9 NoCredentials
                 AnonymousUser example_table
                 (example_login " Ann@Example.com" "Abcdef1! ")
                 (lit " Ann@Example.com") (lit "Abcdef1! ") example_ann
                 eq_refl eq_refl eq_refl He Hp Hlower eq_refl eq_refl eq_refl
                 eq_refl).
Defined.

Lemma login_failures_look_alike_witness :
  serve 9 NoCredentials
    (POST_auth_login (example_login "nobody@example.com" "Abcdef1!"))
    example_table
  = serve 9 NoCredentials
      (POST_auth_login (example_login "ann@example.com" "Wrong-pass1"))
      example_table.
Proof.
  assert (field_accepts UserLoginSerializer.email_field
            (lit "nobody@example.com")) as Hn by field_takes.
  assert (field_accepts UserLoginSerializer.email_field
            (lit "ann@example.com")) as Ha by field_takes.
  assert (field_accepts UserLoginSerializer.password_field
            (lit "Abcdef1!")) as Hp by field_takes.
  assert (field_accepts UserLoginSerializer.password_field
            (lit "Wrong-pass1")) as Hw by field_takes.
  assert (str_lower (str_strip (lit "nobody@example.com")) <> []) as Hn'
    by (vm_compute; discriminate).
  assert (str_lower (str_strip (lit "ann@example.com")) <> []) as Ha'
    by (vm_compute; discriminate).
  rewrite (login_failures_look_alike (H := reference_externals) 9 NoCredentials AnonymousUser
             example_table
             (example_login "nobody@example.com" "Abcdef1!")
             (lit "nobody@example.com") (lit "Abcdef1!")
             eq_refl eq_refl eq_refl Hn Hp Hn' (or_introl eq_refl)).
  rewrite (login_failures_look_alike (H := reference_externals) 9 NoCredentials AnonymousUser
             example_table
             (example_login "ann@example.com" "Wrong-pass1")
             (lit "ann@example.com") (lit "Wrong-pass1")
             eq_refl eq_refl eq_refl Ha Hw Ha'
             (or_intror (ex_intro _ example_ann
                           (conj eq_refl (or_introl eq_refl))))).
  reflexivity.
Defined.

Lemma password_change_takes_effect_witness :
  snd (serve 9 (AccessToken 2)
         (POST_users_change_password
            {| ChangePasswordSerializer.current_password :=
                 Some (lit "Abcdef1! ");
               ChangePasswordSerializer.new_password :=
                 Some (lit "Newpass2? ");
               ChangePasswordSerializer.confirm_new_password :=
                 Some (lit " Newpass2?") |})
         example_table)
  = with_row 2
      (User.with_updated_at 9
         (User.with_password (lit "hashed$Newpass2?") example_ann))
      example_table.
Proof.
  assert (field_accepts ChangePasswordSerializer.current_password_field
            (lit "Abcdef1! ")) as Hcurrent by field_takes.
  assert (field_accepts ChangePasswordSerializer.new_password_field
            (lit "Newpass2? ")) as Hnew by field_takes.
  assert (field_accepts ChangePasswordSerializer.confirm_new_password_field
            (lit " Newpass2?")) as Hconfirm by field_takes.
  assert (str_strip (lit "Abcdef1! ") <> str_strip (lit "Newpass2? "))
    as Hdiffer by (vm_compute; discriminate).
  now rewrite (password_change_takes_effect (H := reference_externals) 9
                 (AccessToken 2) example_table
                 example_ann (lit "Abcdef1! ") (lit "Newpass2? ")
                 (lit " Newpass2?")
                 eq_refl eq_refl example_table_consistent Hcurrent Hnew
                 Hconfirm eq_refl
                 example_new_password_strong eq_refl eq_refl Hdiffer).
Defined.

Lemma password_change_needs_current_password_witness :
  exists errors,
    In "current_password"%string (map fst errors) /\
    serve 9 (AccessToken 2)
      (POST_users_change_password
         {| ChangePasswordSerializer.current_password :=
              Some (lit "Guess123!");
            ChangePasswordSerializer.new_password := Some (lit "Newpass2?");
            ChangePasswordSerializer.confirm_new_password :=
              Some (lit "Newpass2?") |})
      example_table
    = (Responded (validation_error errors), example_table).
Proof.
  apply (password_change_needs_current_password (H := reference_externals) 9 (AccessToken 2)
           example_table example_ann _ (lit "Guess123!")); reflexivity.
Defined.

Lemma password_change_must_differ_witness :
  serve 9 (AccessToken 2)
    (POST_users_change_password
       {| ChangePasswordSerializer.current_password := Some (lit "Abcdef1!");
          ChangePasswordSerializer.new_password := Some (lit "Abcdef1! ");
          ChangePasswordSerializer.confirm_new_password :=
            Some (lit "Abcdef1! ") |})
    example_table
  = (Responded
       (validation_error
          [("new_password"%string,
            [lit "New password must be different from current password."])]),
     example_table).
Proof.
  assert (field_accepts ChangePasswordSerializer.current_password_field
            (lit "Abcdef1!")) as Hcurrent by field_takes.
  assert (field_accepts ChangePasswordSerializer.new_password_field
            (lit "Abcdef1! ")) as Hnew by field_takes.
  assert (field_accepts ChangePasswordSerializer.confirm_new_password_field
            (lit "Abcdef1! ")) as Hconfirm by field_takes.
  exact (password_change_must_differ (H := reference_externals) 9
           (AccessToken 2) example_table
           example_ann (lit "Abcdef1!") (lit "Abcdef1! ") (lit "Abcdef1! ")
           eq_refl eq_refl Hcurrent Hnew Hconfirm eq_refl
           example_old_password_strong eq_refl eq_refl eq_refl).
Defined.

Lemma password_change_then_login_witness :
  exists rows1 r2 rows2,
    snd (serve 8 (AccessToken 2)
           (POST_users_change_password
              {| ChangePasswordSerializer.current_password :=
                   Some (lit "Abcdef1!");
                 ChangePasswordSerializer.new_password :=
                   Some (lit "Newpass2?");
                 ChangePasswordSerializer.confirm_new_password :=
                   Some (lit "Newpass2?") |})
           example_table) = rows1 /\
    serve 9 NoCredentials
      (POST_auth_login
         {| UserLoginSerializer.email := Some (lit "ANN@example.com");
            UserLoginSerializer.password := Some (lit "Newpass2?") |}) rows1
      = (Responded r2, rows2) /\
    status_code r2 = HTTP_200_OK /\
    serve 9 NoCredentials
      (POST_auth_login
         {| UserLoginSerializer.email := Some (lit "ANN@example.com");
            UserLoginSerializer.password := Some (lit "Abcdef1!") |}) rows1
      = (Responded
           (validation_error
              [("detail"%string, [lit "Invalid email or password."])]),
         rows1).
Proof.
  assert (field_accepts ChangePasswordSerializer.current_password_field
            (lit "Abcdef1!")) as Hcurrent by field_takes.
  assert (field_accepts ChangePasswordSerializer.new_password_field
            (lit "Newpass2?")) as Hnew by field_takes.
  assert (field_accepts ChangePasswordSerializer.confirm_new_password_field
            (lit "Newpass2?")) as Hconfirm by field_takes.
  assert (field_accepts UserLoginSerializer.email_field
            (lit "ANN@example.com")) as Hemail by field_takes.
  assert (str_strip (lit "Abcdef1!") <> str_strip (lit "Newpass2?"))
    as Hdiffer by (vm_compute; discriminate).
  assert (User.email example_ann <> []) as Hnonempty by discriminate.
  exact (password_change_then_login (H := reference_externals) 8 9
           (AccessToken 2) example_table
           example_ann (lit "Abcdef1!") (lit "Newpass2?") (lit "Newpass2?")
           (lit "ANN@example.com")
           eq_refl eq_refl example_table_consistent Hcurrent Hnew Hconfirm
           eq_refl example_new_password_strong eq_refl eq_refl Hdiffer
           eq_refl eq_refl Hemail eq_refl Hnonempty).
Defined.

Lemma example_profile_email_free :
  free_email example_table example_ann (lit " Ann@Example.com").
Proof.
  split; [field_takes |]. split; [reflexivity |].
  intros r [<- | [<- | [<- | [<- | []]]]] Hid; try (vm_compute; discriminate).
  now contradiction Hid.
Qed.

Lemma profile_update_takes_effect_witness :
  profile_after 9 example_profile example_ann
    = User.with_updated_at 9
        (User.with_full_name (lit "Ann A") example_ann)
  /\ snd (serve 9 (AccessToken 2) (PUT_users_profile example_profile)
            example_table)
     = with_row 2 (profile_after 9 example_profile example_ann)
         example_table.
Proof.
  split; [reflexivity |].
  rewrite (profile_update_takes_effect (H := reference_externals) 9 (AccessToken 2) example_table
             example_ann example_profile eq_refl eq_refl
             example_table_consistent).
  - reflexivity.
  - intros value [= <-]. exact example_profile_email_free.
  - intros value [= <-]. split; [field_takes | vm_compute; discriminate].
Defined.

Lemma profile_email_of_another_is_refused_witness :
  exists errors,
    In "email"%string (map fst errors) /\
    serve 9 (AccessToken 2) (PUT_users_profile example_profile_conflict)
      example_table
    = (Responded (validation_error errors), example_table).
Proof.
  apply (profile_email_of_another_is_refused (H := reference_externals) 9 (AccessToken 2) example_table
           example_ann example_profile_conflict (lit "Joe@Example.com")
           example_joe); try reflexivity.
  - right; right; left. reflexivity.
  - discriminate.
Defined.

Lemma requests_keep_the_table_consistent_witness :
  consistent example_table
  /\ consistent
       (snd (serve 9 NoCredentials (POST_auth_signup example_signup)
               example_table)).
Proof.
  split; [exact example_table_consistent |].
  exact (requests_keep_the_table_consistent (H := reference_externals) 9 NoCredentials
           (POST_auth_signup example_signup) example_table
           example_table_consistent).
Defined.

Lemma requests_keep_every_standing_witness :
  let rows' := snd (serve 9 (AccessToken 2) (PUT_users_profile example_profile)
                      example_table) in
  map standing rows' = map standing example_table
  \/ exists u,
       map standing rows' = map standing example_table ++ [standing u] /\
       User.role u = ROLE_user /\
       User.is_staff u = false /\
       User.is_superuser u = false.
Proof.
  exact (requests_keep_every_standing (H := reference_externals) 9 (AccessToken 2)
           (PUT_users_profile example_profile) example_table
           example_table_consistent).
Defined.

Lemma validated_signup_is_normalised_witness :
  UserSignupSerializer.is_valid example_table example_signup
    = Ok example_validated
  /\ exists e n p c,
       UserSignupSerializer.email example_signup = Some e /\
       UserSignupSerializer.full_name example_signup = Some n /\
       UserSignupSerializer.password example_signup = Some p /\
       UserSignupSerializer.confirm_password example_signup = Some c /\
       field_accepts (UserSignupSerializer.email_field example_table) e /\
       field_accepts UserSignupSerializer.full_name_field n /\
       field_accepts UserSignupSerializer.password_field p /\
       field_accepts UserSignupSerializer.confirm_password_field c /\
       UserSignupSerializer.v_email example_validated
         = str_lower (str_strip e) /\
       re_match_email (str_strip e) = true /\
       (forall r, In r example_table ->
          User.email r <> str_strip e /\
          User.email r <> str_lower (str_strip e)) /\
       UserSignupSerializer.v_full_name example_validated
         = str_strip (str_strip n) /\
       2 <= len (str_strip (str_strip n)) /\
       UserSignupSerializer.v_password example_validated = str_strip p /\
       str_strip c = str_strip p /\
       strength_rules (str_strip p) /\
       password_validation (str_strip p) = [].
Proof.
  split; [reflexivity |].
  exact (validated_signup_is_normalised (H := reference_externals) example_table example_signup
           example_validated eq_refl).
Defined.

Lemma signup_takes_effect_witness :
  exists account,
    snd (serve 9 NoCredentials (POST_auth_signup example_signup)
           example_table) = example_table ++ [account] /\
    User.id account = 5 /\
    User.email account = lit "cal@example.com" /\
    User.full_name account = lit "Cal C" /\
    User.role account = ROLE_user.
Proof.
  assert (UserSignupSerializer.v_email example_validated <> []) as Hnonempty
    by discriminate.
  destruct (signup_takes_effect (H := reference_externals) 9 NoCredentials AnonymousUser example_table
              example_signup example_validated eq_refl eq_refl Hnonempty
              eq_refl) as [_ Hserve].
  eexists. rewrite Hserve. repeat split; reflexivity.
Defined.

Lemma signup_then_login_witness :
  exists r1 rows1 r2 rows2,
    serve 8 NoCredentials (POST_auth_signup example_signup) example_table
      = (Responded r1, rows1) /\
    status_code r1 = HTTP_201_CREATED /\
    serve 9 NoCredentials
      (POST_auth_login
         {| UserLoginSerializer.email := Some (lit "CAL@example.com");
            UserLoginSerializer.password := Some (lit " Abcdef1!") |}) rows1
      = (Responded r2, rows2) /\
    status_code r2 = HTTP_200_OK.
Proof.
  assert (UserSignupSerializer.v_email example_validated <> []) as Hnonempty
    by discriminate.
  assert (field_accepts UserLoginSerializer.email_field
            (lit "CAL@example.com")) as He by field_takes.
  assert (field_accepts UserLoginSerializer.password_field
            (lit " Abcdef1!")) as Hp by field_takes.
  exact (signup_then_login (H := reference_externals) 8 9 NoCredentials
           AnonymousUser example_table example_signup example_validated
           (lit "CAL@example.com") (lit " Abcdef1!")
           eq_refl eq_refl Hnonempty eq_refl eq_refl He Hp eq_refl eq_refl).
Defined.


Lemma listing_selects_and_orders_witness :
  exists queryset,
    AdminUserListView.get_queryset example_status_filter example_table
      = (Ok queryset, example_table) /\
    (forall u, In u queryset
               <-> In u example_table /\ selected example_status_filter u) /\
    newest_first queryset.
Proof.
  apply (listing_selects_and_orders (H := reference_externals) example_status_filter example_table).
  right. reflexivity.
Defined.

Lemma create_superuser_takes_effect_witness :
  exists account,
    UserManager.create_superuser 9 (lit "Root@Example.COM") (lit "Abcdef1!")
      no_extra_fields example_table
    = (Ok account, example_table ++ [account]) /\
    User.email account = lit "Root@example.com" /\
    User.role account = ROLE_admin /\
    User.is_staff account = true /\
    User.is_superuser account = true.
Proof.
  assert (lit "Root@Example.COM" <> []) as Hnonempty by discriminate.
  assert (UserManager.is_staff no_extra_fields <> Some false) as Hstaff
    by discriminate.
  assert (UserManager.is_superuser no_extra_fields <> Some false) as Hsuper
    by discriminate.
  eexists. split.
  - exact (create_superuser_takes_effect (H := reference_externals) 9 (lit "Root@Example.COM")
             (lit "Abcdef1!") no_extra_fields example_table Hnonempty
             eq_refl Hstaff Hsuper).
  - repeat split; reflexivity.
Defined.

Lemma create_superuser_refuses_witness :
  exists message,
    UserManager.create_superuser 9 (lit "root@example.com") (lit "Abcdef1!")
      {| UserManager.full_name := None;
         UserManager.role := None;
         UserManager.status := None;
         UserManager.is_staff := Some false;
         UserManager.is_superuser := None |} example_table
    = (Raise (ValueError message), example_table).
Proof.
  apply (create_superuser_refuses (H := reference_externals) 9 (lit "root@example.com")
           (lit "Abcdef1!")). left. reflexivity.
Defined.

Lemma create_admin_is_idempotent_witness :
  UserManager.normalize_email Command.admin_email = Command.admin_email
  /\ Command.handle 9 (snd (Command.handle 8 [example_ann]))
     = (Ok (lit "Admin user " ++ Command.admin_email ++ lit " already exists"),
        snd (Command.handle 8 [example_ann])).
Proof.
  split; [reflexivity |].
  exact (proj1 (proj2 (create_admin_is_idempotent (H := reference_externals) 8 9 [example_ann]
                         eq_refl))).
Defined.

End FurtherExamples.
